(** * The session logger of [lib/session-logger.ts]

    A shallow embedding of [createSessionLogger]: the closure variables
    become the record [Logger], the sessions directory and the wall clock
    become the record [World], and every function of the source becomes a
    function on these two.

    Modelling decisions, all of them visible in the definitions below:

    - A log file is kept as the list of its lines, as
      [content.trim().split("\n")] yields them; an empty list stands for a
      file without a non-blank line.  A line is kept as the record that
      [JSON.parse] gives back ([JSON.stringify] followed by [JSON.parse]
      is taken to be the identity on the records the logger writes);
      [Corrupt] is a line on which [JSON.parse], or the property access
      that follows it, throws.  Every line of a file ends with a
      newline, as [appendLine] writes them.
    - Integer valued numbers (ordinals, millisecond durations, token
      counts) are [Z].  The monetary cost is an exact rational [Q]: the
      source adds IEEE doubles, which round, so nothing is stated below
      about a sum of costs, only that a cost total is kept, loaded or
      replaced.
    - A path is identified with the name of a file inside the sessions
      directory, which always exists.  This is what
      [path.join(sessionsDir, file)] denotes when [file] holds no path
      separator; [path.join] normalises any other name, which can then
      denote another entry than the one [fs.readdirSync] lists.  The
      name of a new file holds the first eight characters of the session
      identifier: [plainId] marks the identifiers for which that name is
      the entry that [fs.readdirSync] lists afterwards.
    - [new Date()] reads the clock of the world and advances it.
    - [toolsUsed] is a finite map: only own properties of the JavaScript
      object are modelled.  For a name that [Object.prototype] defines
      ([JS.inherited]) the source reads the inherited property while the
      object has no own one, so [countTool] is the count of the source
      for the other names only.
    - File system errors are outside the model. *)

From Stdlib Require Import ZArith QArith String Ascii List Bool Lia Sorted.
From stdpp Require Import gmap strings list fin_maps.
Import ListNotations.

Local Close Scope Q_scope.
Local Open Scope string_scope.
Local Open Scope list_scope.
Local Open Scope Z_scope.

(** ** JavaScript truthiness, as far as the logger relies on it *)

Module JS.

(** [s || d] on an optional string: [undefined] and [""] are falsy. *)
Definition or_string (o : option string) (d : string) : string :=
  match o with
  | Some s => if String.eqb s "" then d else s
  | None => d
  end.

(** [n || 0] on a number that is present. *)
Definition or0 (n : Z) : Z := if Z.eqb n 0 then 0 else n.

(** [n || 0] on an optional number. *)
Definition or_zero (o : option Z) : Z :=
  match o with Some n => or0 n | None => 0 end.

Definition or0Q (q : Q) : Q := if Qeq_bool q 0%Q then 0%Q else q.

Definition or_zeroQ (o : option Q) : Q :=
  match o with Some q => or0Q q | None => 0%Q end.

(** Truthiness of an optional string: present and not empty. *)
Definition truthy (o : option string) : bool :=
  match o with
  | Some s => negb (String.eqb s "")
  | None => false
  end.

(** [s.endsWith(suffix)]. *)
Fixpoint endsWith (s suffix : string) : bool :=
  String.eqb s suffix ||
  match s with
  | EmptyString => false
  | String _ rest => endsWith rest suffix
  end.

(** [s.replace(/[-:]/g, "")]. *)
Fixpoint strip_dash_colon (s : string) : string :=
  match s with
  | EmptyString => EmptyString
  | String c rest =>
      if Ascii.eqb c "-" || Ascii.eqb c ":" then strip_dash_colon rest
      else String c (strip_dash_colon rest)
  end.

(** [s.replace("T", "_")]: the first occurrence only. *)
Fixpoint replace_first_T (s : string) : string :=
  match s with
  | EmptyString => EmptyString
  | String c rest =>
      if Ascii.eqb c "T" then String "_" rest
      else String c (replace_first_T rest)
  end.

(** A value whose shape the logger does not look into: either a string,
    or anything else, carried as the text [JSON.stringify] gives. *)
Inductive value : Type :=
| VString (s : string)
| VOther (json : string).

(** The property names that every object inherits from
    [Object.prototype]: for these, [o[name]] on an object literal reads
    the inherited property as long as the object has no own one. *)
Definition inherited (name : string) : bool :=
  existsb (String.eqb name)
    ["constructor"; "__defineGetter__"; "__defineSetter__"; "hasOwnProperty";
     "__lookupGetter__"; "__lookupSetter__"; "isPrototypeOf";
     "propertyIsEnumerable"; "toString"; "valueOf"; "__proto__";
     "toLocaleString"].

End JS.

(** ** Paths *)

Module Path.

(** A path separator: the slash, and the backslash of Windows. *)
Definition separator (c : ascii) : bool :=
  Ascii.eqb c "/" || Ascii.eqb c (ascii_of_nat 92).

(** A name without a separator: [path.join(sessionsDir, name)] is the
    entry [name] of the sessions directory. *)
Fixpoint segment (name : string) : bool :=
  match name with
  | EmptyString => true
  | String c rest => negb (separator c) && segment rest
  end.

End Path.

(** ** The records of the JSONL file *)

(** [interface Message]: one buffered sub-event. *)
Record Message : Type := mkMessage {
  msg_source : string;
  msg_type : string;
  msg_ts : string;
  msg_text : option string;
  msg_tool_use_id : option string;
  msg_name : option string;
  msg_input : option JS.value;
  msg_is_error : option bool;
  msg_output : option string
}.

(** [interface ExchangeStats]. *)
Record ExchangeStats : Type := mkStats {
  num_turns : Z;
  duration_ms : Z;
  duration_api_ms : option Z;
  tokens_in : Z;
  tokens_out : Z;
  cache_creation : Z;
  cache_read : Z;
  cost_usd : Q
}.

(** The shape of [lastExchangeTokens]. *)
Record Tokens : Type := mkTokens {
  tok_input : Z;
  tok_output : Z;
  tok_cache_creation : Z;
  tok_cache_read : Z
}.

Definition zeroTokens : Tokens := mkTokens 0 0 0 0.

Record SessionStart : Type := mkSessionStart {
  ss_session_id : string;
  ss_ts : string;
  ss_model : string;
  ss_cwd : string;
  ss_tools_available : list string;
  ss_permission_mode : string
}.

Record Exchange : Type := mkExchange {
  ex_session_id : string;
  ex_exchange : Z;
  ex_ts_start : string;
  ex_ts_end : string;
  ex_user_input : string;
  ex_messages : list Message;
  ex_stats : ExchangeStats
}.

(** A [session_end] record.  The two object valued fields are optional:
    a record that lacks them is read back with the [||] defaults. *)
Record SessionEnd : Type := mkSessionEnd {
  se_session_id : string;
  se_ts : string;
  se_total_exchanges : Z;
  se_total_duration_ms : Z;
  se_total_duration_api_ms : Z;
  se_total_cost_usd : Q;
  se_total_tokens : option Tokens;
  se_tools_used : option (gmap string Z)
}.

(** One line of a log file, after [JSON.parse]. *)
Inductive Line : Type :=
| Corrupt
| OtherJson
| LStart (r : SessionStart)
| LExchange (r : Exchange)
| LEnd (r : SessionEnd).

(** ** The world: the sessions directory and the clock *)

(** The directory, in the order [fs.readdirSync] lists it. *)
Definition Dir : Type := list (string * list Line).

Record World : Type := mkWorld {
  dir : Dir;
  clock : nat -> string;
  tick : nat
}.

Module Fs.

Definition readdirSync (d : Dir) : list string := map fst d.

Fixpoint readFileSync (d : Dir) (path : string) : option (list Line) :=
  match d with
  | [] => None
  | (f, content) :: rest =>
      if String.eqb f path then Some content else readFileSync rest path
  end.

Definition existsSync (d : Dir) (path : string) : bool :=
  match readFileSync d path with Some _ => true | None => false end.

(** Replaces the content of [path]; creates the file when it is absent. *)
Fixpoint writeFileSync (d : Dir) (path : string) (content : list Line) : Dir :=
  match d with
  | [] => [(path, content)]
  | (f, old) :: rest =>
      if String.eqb f path then (f, content) :: rest
      else (f, old) :: writeFileSync rest path content
  end.

(** Appends one line to [path]; creates the file when it is absent. *)
Fixpoint appendFileSync (d : Dir) (path : string) (line : Line) : Dir :=
  match d with
  | [] => [(path, [line])]
  | (f, old) :: rest =>
      if String.eqb f path then (f, old ++ [line]) :: rest
      else (f, old) :: appendFileSync rest path line
  end.

End Fs.

Definition with_dir (w : World) (d : Dir) : World :=
  {| dir := d; clock := clock w; tick := tick w |}.

(** [new Date().toISOString()]. *)
Definition getTimestamp (w : World) : string * World :=
  (clock w (tick w), {| dir := dir w; clock := clock w; tick := S (tick w) |}).

(** ** The inputs: SDK messages *)

(** A content block of an assistant or user message.  A block whose
    [type] is none of the three the logger knows carries any other
    string; the characters of a content that is a string are such
    blocks. *)
Record Block : Type := mkBlock {
  b_type : string;
  b_text : option string;
  b_id : option string;
  b_name : option string;
  b_input : option JS.value;
  b_tool_use_id : option string;
  b_is_error : option bool;
  b_content : option JS.value
}.

Record Usage : Type := mkUsage {
  input_tokens : option Z;
  output_tokens : option Z;
  cache_creation_input_tokens : option Z;
  cache_read_input_tokens : option Z
}.

(** [type SDKMessage = any]: every field the logger reads, each optional.
    [m_content] is [message.message?.content]. *)
Record SDKMessage : Type := mkSDKMessage {
  m_type : option string;
  m_subtype : option string;
  m_session_id : option string;
  m_model : option string;
  m_cwd : option string;
  m_tools : option (list string);
  m_permissionMode : option string;
  m_content : option (list Block);
  m_num_turns : option Z;
  m_duration_ms : option Z;
  m_duration_api_ms : option Z;
  m_total_cost_usd : option Q;
  m_usage : option Usage
}.

(** ** The private state of one logger instance *)

Record Logger : Type := mkLogger {
  sessionId : string;
  filePath : string;
  exchangeCount : Z;
  currentMessages : list Message;
  currentUserInput : string;
  exchangeStartTs : string;
  totalDurationMs : Z;
  totalDurationApiMs : Z;
  totalCostUsd : Q;
  lastExchangeTokens : Tokens;
  toolsUsed : gmap string Z;
  sessionModel : string;
  sessionCwd : string;
  sessionTools : list string;
  sessionPermissionMode : string
}.

(** The state [createSessionLogger] starts from. *)
Definition createSessionLogger : Logger :=
  {| sessionId := ""; filePath := ""; exchangeCount := 0;
     currentMessages := []; currentUserInput := ""; exchangeStartTs := "";
     totalDurationMs := 0; totalDurationApiMs := 0; totalCostUsd := 0%Q;
     lastExchangeTokens := zeroTokens; toolsUsed := ∅;
     sessionModel := ""; sessionCwd := ""; sessionTools := [];
     sessionPermissionMode := "default" |}.

(** ** The functions of the source *)

(** [appendLine]: nothing happens while [filePath] is empty. *)
Definition appendLine (filePath : string) (data : Line) (w : World) : World :=
  if String.eqb filePath "" then w
  else with_dir w (Fs.appendFileSync (dir w) filePath data).

Definition sessionSuffix (sessionId : string) : string :=
  "_" +:+ substring 0 8 sessionId +:+ ".jsonl".

(** A session identifier whose part that enters the file name holds no
    path separator. *)
Definition plainId (sessionId : string) : Prop :=
  Path.segment (substring 0 8 sessionId) = true.

(** [findExistingSessionFile]: the first directory entry whose name ends
    in [_<first eight characters of the id>.jsonl]. *)
Definition findExistingSessionFile (d : Dir) (sessionId : string) : option string :=
  List.find (fun file => JS.endsWith file (sessionSuffix sessionId)) (Fs.readdirSync d).

(** The loop of [getLastExchangeNumber]; [None] when a line throws. *)
Fixpoint scanExchanges (lines : list Line) (maxExchange : Z) : option Z :=
  match lines with
  | [] => Some maxExchange
  | Corrupt :: _ => None
  | LExchange r :: rest =>
      if Z.eqb (ex_exchange r) 0 then scanExchanges rest maxExchange
      else scanExchanges rest (Z.max maxExchange (ex_exchange r))
  | _ :: rest => scanExchanges rest maxExchange
  end.

(** [getLastExchangeNumber]: the whole scan sits in one [try]; any
    exception gives 0. *)
Definition getLastExchangeNumber (d : Dir) (path : string) : Z :=
  match Fs.readFileSync d path with
  | None => 0
  | Some lines =>
      match scanExchanges lines 0 with
      | Some n => n
      | None => 0
      end
  end.

(** The loop of [loadPreviousSessionStats], over the lines from the last
    one to the first; [None] when a line throws before a session_end is
    met, or when there is none. *)
Fixpoint lastSessionEnd (reversed : list Line) : option SessionEnd :=
  match reversed with
  | [] => None
  | Corrupt :: _ => None
  | LEnd r :: _ => Some r
  | _ :: rest => lastSessionEnd rest
  end.

(** [Object.assign(toolsUsed, parsed.tools_used)]. *)
Definition assignTools (toolsUsed : gmap string Z) (loaded : option (gmap string Z))
  : gmap string Z :=
  match loaded with
  | Some t => t ∪ toolsUsed
  | None => toolsUsed
  end.

Definition loadPreviousSessionStats (d : Dir) (path : string) (s : Logger) : Logger :=
  match Fs.readFileSync d path with
  | None => s
  | Some lines =>
      match lastSessionEnd (rev lines) with
      | None => s
      | Some parsed =>
          {| sessionId := sessionId s; filePath := filePath s;
             exchangeCount := exchangeCount s;
             currentMessages := currentMessages s;
             currentUserInput := currentUserInput s;
             exchangeStartTs := exchangeStartTs s;
             totalDurationMs := JS.or0 (se_total_duration_ms parsed);
             totalDurationApiMs := JS.or0 (se_total_duration_api_ms parsed);
             totalCostUsd := JS.or0Q (se_total_cost_usd parsed);
             lastExchangeTokens :=
               match se_total_tokens parsed with
               | Some t => t
               | None => zeroTokens
               end;
             toolsUsed := assignTools (toolsUsed s) (se_tools_used parsed);
             sessionModel := sessionModel s; sessionCwd := sessionCwd s;
             sessionTools := sessionTools s;
             sessionPermissionMode := sessionPermissionMode s |}
      end
  end.

(** [removeLastSessionEnd]: drops the last line when it is a session_end. *)
Definition removeLastSessionEnd (filePath : string) (w : World) : World :=
  if String.eqb filePath "" || negb (Fs.existsSync (dir w) filePath) then w
  else
    match Fs.readFileSync (dir w) filePath with
    | None => w
    | Some lines =>
        match last lines with
        | Some (LEnd _) => with_dir w (Fs.writeFileSync (dir w) filePath (removelast lines))
        | _ => w
        end
    end.

(** The name of a new log file: [YYYYMMDD_HHMMSS_<id prefix>.jsonl]. *)
Definition newFileName (iso sessionId : string) : string :=
  substring 0 15 (JS.replace_first_T (JS.strip_dash_colon iso))
  +:+ sessionSuffix sessionId.

Definition handleSystemMessage (message : SDKMessage) (s : Logger) (w : World)
  : Logger * World :=
  let sessionId' := JS.or_string (m_session_id message) "" in
  let sessionModel' := JS.or_string (m_model message) "" in
  let sessionCwd' := JS.or_string (m_cwd message) "" in
  let sessionTools' := match m_tools message with Some t => t | None => [] end in
  let sessionPermissionMode' := JS.or_string (m_permissionMode message) "default" in
  let s1 (path : string) (count : Z) :=
    {| sessionId := sessionId'; filePath := path; exchangeCount := count;
       currentMessages := currentMessages s;
       currentUserInput := currentUserInput s;
       exchangeStartTs := exchangeStartTs s;
       totalDurationMs := totalDurationMs s;
       totalDurationApiMs := totalDurationApiMs s;
       totalCostUsd := totalCostUsd s;
       lastExchangeTokens := lastExchangeTokens s;
       toolsUsed := toolsUsed s;
       sessionModel := sessionModel'; sessionCwd := sessionCwd';
       sessionTools := sessionTools';
       sessionPermissionMode := sessionPermissionMode' |} in
  match findExistingSessionFile (dir w) sessionId' with
  | Some existingFile =>
      let s2 := s1 existingFile (getLastExchangeNumber (dir w) existingFile) in
      let s3 := loadPreviousSessionStats (dir w) existingFile s2 in
      (s3, removeLastSessionEnd existingFile w)
  | None =>
      let (iso, w1) := getTimestamp w in
      let filename := newFileName iso sessionId' in
      let (ts, w2) := getTimestamp w1 in
      (s1 filename (exchangeCount s),
       appendLine filename
         (LStart {| ss_session_id := sessionId'; ss_ts := ts;
                    ss_model := sessionModel'; ss_cwd := sessionCwd';
                    ss_tools_available := sessionTools';
                    ss_permission_mode := sessionPermissionMode' |}) w2)
  end.

(** [toolsUsed[name]] is set to 0 when falsy, then incremented. *)
Definition countTool (name : string) (toolsUsed : gmap string Z) : gmap string Z :=
  <[name := JS.or_zero (toolsUsed !! name) + 1]> toolsUsed.

(** The body of the loop of [handleAssistantMessage], on the two variables
    it changes. *)
Definition assistantBlock (ts : string) (acc : list Message * gmap string Z)
  (block : Block) : list Message * gmap string Z :=
  let (messages, tools) := acc in
  if String.eqb (b_type block) "text" && JS.truthy (b_text block) then
    (messages ++
       [{| msg_source := "assistant"; msg_type := "text"; msg_ts := ts;
           msg_text := b_text block; msg_tool_use_id := None;
           msg_name := None; msg_input := None; msg_is_error := None;
           msg_output := None |}], tools)
  else if String.eqb (b_type block) "tool_use"
          && JS.truthy (b_id block) && JS.truthy (b_name block) then
    (messages ++
       [{| msg_source := "assistant"; msg_type := "tool_use"; msg_ts := ts;
           msg_text := None; msg_tool_use_id := b_id block;
           msg_name := b_name block; msg_input := b_input block;
           msg_is_error := None; msg_output := None |}],
     countTool (JS.or_string (b_name block) "") tools)
  else acc.

Definition with_buffer (s : Logger) (messages : list Message)
  (tools : gmap string Z) : Logger :=
  {| sessionId := sessionId s; filePath := filePath s;
     exchangeCount := exchangeCount s;
     currentMessages := messages;
     currentUserInput := currentUserInput s;
     exchangeStartTs := exchangeStartTs s;
     totalDurationMs := totalDurationMs s;
     totalDurationApiMs := totalDurationApiMs s;
     totalCostUsd := totalCostUsd s;
     lastExchangeTokens := lastExchangeTokens s;
     toolsUsed := tools;
     sessionModel := sessionModel s; sessionCwd := sessionCwd s;
     sessionTools := sessionTools s;
     sessionPermissionMode := sessionPermissionMode s |}.

Definition handleAssistantMessage (message : SDKMessage) (s : Logger) (w : World)
  : Logger * World :=
  match m_content message with
  | None => (s, w)
  | Some content =>
      let (ts, w1) := getTimestamp w in
      let (messages, tools) :=
        fold_left (assistantBlock ts) content (currentMessages s, toolsUsed s) in
      (with_buffer s messages tools, w1)
  end.

(** [typeof c === "string" ? c : JSON.stringify(c)]. *)
Definition outputOf (content : option JS.value) : option string :=
  match content with
  | Some (JS.VString text) => Some text
  | Some (JS.VOther json) => Some json
  | None => None
  end.

Definition userBlock (ts : string) (messages : list Message) (block : Block)
  : list Message :=
  if String.eqb (b_type block) "tool_result" && JS.truthy (b_tool_use_id block) then
    messages ++
      [{| msg_source := "tool"; msg_type := "result"; msg_ts := ts;
          msg_text := None; msg_tool_use_id := b_tool_use_id block;
          msg_name := None; msg_input := None;
          msg_is_error :=
            Some (match b_is_error block with Some b => b | None => false end);
          msg_output := outputOf (b_content block) |}]
  else messages.

Definition handleUserMessage (message : SDKMessage) (s : Logger) (w : World)
  : Logger * World :=
  match m_content message with
  | None => (s, w)
  | Some content =>
      let (ts, w1) := getTimestamp w in
      (with_buffer s (fold_left (userBlock ts) content (currentMessages s))
         (toolsUsed s), w1)
  end.

Definition usageField (message : SDKMessage) (field : Usage -> option Z) : Z :=
  match m_usage message with
  | Some u => JS.or_zero (field u)
  | None => 0
  end.

(** The [stats] object that [handleResultMessage] extracts. *)
Definition statsOf (message : SDKMessage) : ExchangeStats :=
  {| num_turns := JS.or_zero (m_num_turns message);
     duration_ms := JS.or_zero (m_duration_ms message);
     duration_api_ms := m_duration_api_ms message;
     tokens_in := usageField message input_tokens;
     tokens_out := usageField message output_tokens;
     cache_creation := usageField message cache_creation_input_tokens;
     cache_read := usageField message cache_read_input_tokens;
     cost_usd := JS.or_zeroQ (m_total_cost_usd message) |}.

Definition tokensOf (stats : ExchangeStats) : Tokens :=
  {| tok_input := tokens_in stats; tok_output := tokens_out stats;
     tok_cache_creation := cache_creation stats;
     tok_cache_read := cache_read stats |}.

(** The [exchange] object that [handleResultMessage] builds. *)
Definition exchangeOf (s : Logger) (stats : ExchangeStats) (tsEnd : string)
  : Exchange :=
  {| ex_session_id := sessionId s; ex_exchange := exchangeCount s;
     ex_ts_start := exchangeStartTs s; ex_ts_end := tsEnd;
     ex_user_input := currentUserInput s;
     ex_messages := currentMessages s; ex_stats := stats |}.

(** The state after [handleResultMessage]: the statistics are folded into
    the totals, the token snapshot is replaced, the buffer is reset. *)
Definition afterExchange (s : Logger) (stats : ExchangeStats) : Logger :=
  {| sessionId := sessionId s; filePath := filePath s;
     exchangeCount := exchangeCount s;
     currentMessages := [];
     currentUserInput := "";
     exchangeStartTs := "";
     totalDurationMs := totalDurationMs s + duration_ms stats;
     totalDurationApiMs := totalDurationApiMs s + JS.or_zero (duration_api_ms stats);
     totalCostUsd := (totalCostUsd s + cost_usd stats)%Q;
     lastExchangeTokens := tokensOf stats;
     toolsUsed := toolsUsed s;
     sessionModel := sessionModel s; sessionCwd := sessionCwd s;
     sessionTools := sessionTools s;
     sessionPermissionMode := sessionPermissionMode s |}.

Definition handleResultMessage (message : SDKMessage) (s : Logger) (w : World)
  : Logger * World :=
  let (tsEnd, w1) := getTimestamp w in
  let stats := statsOf message in
  let exchange := exchangeOf s stats tsEnd in
  (afterExchange s stats, appendLine (filePath s) (LExchange exchange) w1).

Definition is_type (message : SDKMessage) (t : string) : bool :=
  match m_type message with Some x => String.eqb x t | None => false end.

Definition is_init (message : SDKMessage) : bool :=
  is_type message "system" &&
  match m_subtype message with Some x => String.eqb x "init" | None => false end.

(** [log]: the dispatch on [message.type]. *)
Definition log (message : SDKMessage) (s : Logger) (w : World) : Logger * World :=
  if is_type message "system" then
    if is_init message then handleSystemMessage message s w else (s, w)
  else if is_type message "assistant" then handleAssistantMessage message s w
  else if is_type message "user" then handleUserMessage message s w
  else if is_type message "result" then handleResultMessage message s w
  else (s, w).

Definition logUserInput (userText : string) (s : Logger) (w : World)
  : Logger * World :=
  let (ts, w1) := getTimestamp w in
  ({| sessionId := sessionId s; filePath := filePath s;
      exchangeCount := exchangeCount s + 1;
      currentMessages := currentMessages s;
      currentUserInput := userText;
      exchangeStartTs := ts;
      totalDurationMs := totalDurationMs s;
      totalDurationApiMs := totalDurationApiMs s;
      totalCostUsd := totalCostUsd s;
      lastExchangeTokens := lastExchangeTokens s;
      toolsUsed := toolsUsed s;
      sessionModel := sessionModel s; sessionCwd := sessionCwd s;
      sessionTools := sessionTools s;
      sessionPermissionMode := sessionPermissionMode s |}, w1).

(** The record that [close] writes. *)
Definition summaryOf (s : Logger) (ts : string) : SessionEnd :=
  {| se_session_id := sessionId s; se_ts := ts;
     se_total_exchanges := exchangeCount s;
     se_total_duration_ms := totalDurationMs s;
     se_total_duration_api_ms := totalDurationApiMs s;
     se_total_cost_usd := totalCostUsd s;
     se_total_tokens := Some (lastExchangeTokens s);
     se_tools_used := Some (toolsUsed s) |}.

Definition close (s : Logger) (w : World) : Logger * World :=
  if String.eqb (filePath s) "" then (s, w)
  else
    let (ts, w1) := getTimestamp w in
    (s, appendLine (filePath s) (LEnd (summaryOf s ts)) w1).

(** ** Sequences of calls to the public API *)

Inductive Call : Type :=
| CallLog (message : SDKMessage)
| CallLogUserInput (userText : string)
| CallClose.

Definition call (c : Call) (sw : Logger * World) : Logger * World :=
  match c with
  | CallLog message => log message (fst sw) (snd sw)
  | CallLogUserInput userText => logUserInput userText (fst sw) (snd sw)
  | CallClose => close (fst sw) (snd sw)
  end.

Definition run (calls : list Call) (sw : Logger * World) : Logger * World :=
  fold_left (fun acc c => call c acc) calls sw.

(** The content of a file, empty when the file does not exist. *)
Definition contentOf (d : Dir) (path : string) : list Line :=
  match Fs.readFileSync d path with Some lines => lines | None => [] end.

(** The kind of an SDK message, as [log] dispatches it. *)
Inductive Kind : Type := KInit | KAssistant | KUser | KResult | KIgnored.

Definition classify (message : SDKMessage) : Kind :=
  if is_type message "system" then
    if is_init message then KInit else KIgnored
  else if is_type message "assistant" then KAssistant
  else if is_type message "user" then KUser
  else if is_type message "result" then KResult
  else KIgnored.

Definition is_result (message : SDKMessage) : bool := is_type message "result".

(** A call that is not an init-class event. *)
Definition not_init (c : Call) : Prop :=
  match c with
  | CallLog message => is_init message = false
  | _ => True
  end.

(** The result events of a sequence of calls, in order. *)
Fixpoint resultsOf (calls : list Call) : list SDKMessage :=
  match calls with
  | [] => []
  | CallLog message :: rest =>
      if is_result message then message :: resultsOf rest else resultsOf rest
  | _ :: rest => resultsOf rest
  end.

(** The exchange records of a file, in order. *)
Fixpoint exchangesOf (lines : list Line) : list Exchange :=
  match lines with
  | [] => []
  | LExchange r :: rest => r :: exchangesOf rest
  | _ :: rest => exchangesOf rest
  end.

(** The session_end records of a file, in order. *)
Fixpoint endsOf (lines : list Line) : list SessionEnd :=
  match lines with
  | [] => []
  | LEnd r :: rest => r :: endsOf rest
  | _ :: rest => endsOf rest
  end.

(** The session_start records of a file, in order. *)
Fixpoint startsOf (lines : list Line) : list SessionStart :=
  match lines with
  | [] => []
  | LStart r :: rest => r :: startsOf rest
  | _ :: rest => startsOf rest
  end.

(** The highest exchange ordinal recorded in a file: 0 when there is no
    exchange record. *)
Definition highestOrdinal (lines : list Line) : Z :=
  fold_right Z.max 0 (map ex_exchange (exchangesOf lines)).

(** A file without its trailing session_end line, if it has one. *)
Definition withoutTrailingEnd (lines : list Line) : list Line :=
  match last lines with
  | Some (LEnd _) => removelast lines
  | _ => lines
  end.

(** A field that is absent, or present and empty. *)
Definition missing_or_empty (o : option string) : Prop :=
  o = None \/ o = Some "".

(** The blocks that neither branch of the loop of [handleAssistantMessage]
    accepts although their type is known. *)
Definition skippedByAssistant (block : Block) : Prop :=
  (b_type block = "text" /\ missing_or_empty (b_text block))
  \/ (b_type block = "tool_use"
      /\ (missing_or_empty (b_id block) \/ missing_or_empty (b_name block))).

Definition skippedByUser (block : Block) : Prop :=
  b_type block = "tool_result" /\ missing_or_empty (b_tool_use_id block).

(** The token snapshot after a sequence of calls: the usage of the last
    result event, or the snapshot held before when there is none. *)
Fixpoint lastTokens (calls : list Call) (snapshot : Tokens) : Tokens :=
  match calls with
  | [] => snapshot
  | CallLog message :: rest =>
      if is_result message then lastTokens rest (tokensOf (statsOf message))
      else lastTokens rest snapshot
  | _ :: rest => lastTokens rest snapshot
  end.

(** The session_end record that a resumption loads its totals from: the
    one [loadPreviousSessionStats] finds in the file of the session. *)
Definition priorSummary (d : Dir) (sessionId : string) : option SessionEnd :=
  match findExistingSessionFile d sessionId with
  | Some path => lastSessionEnd (rev (contentOf d path))
  | None => None
  end.

(** The statistics of the exchange records of a file, in order. *)
Definition statsOfFile (lines : list Line) : list ExchangeStats :=
  map ex_stats (exchangesOf lines).

Definition sumDurationMs (l : list ExchangeStats) : Z :=
  fold_right (fun stats acc => duration_ms stats + acc) 0 l.

Definition sumDurationApiMs (l : list ExchangeStats) : Z :=
  fold_right (fun stats acc => JS.or_zero (duration_api_ms stats) + acc) 0 l.

(** A file whose last line is a session_end record that holds the sums
    of the durations over all the exchange records of the file. *)
Definition summarised (lines : list Line) : Prop :=
  exists summary,
    last lines = Some (LEnd summary)
    /\ se_total_duration_ms summary = sumDurationMs (statsOfFile lines)
    /\ se_total_duration_api_ms summary = sumDurationApiMs (statsOfFile lines).

(** A call that is not an init-class event of another session. *)
Definition same_session (sessionId : string) (c : Call) : Prop :=
  match c with
  | CallLog message =>
      is_init message = true ->
      JS.or_string (m_session_id message) "" = sessionId
  | _ => True
  end.

(** A call that neither initializes nor begins an exchange. *)
Definition no_begin (c : Call) : Prop :=
  match c with
  | CallLog message => is_init message = false
  | CallLogUserInput _ => False
  | CallClose => True
  end.

(** A call that buffers no sub-event. *)
Definition no_subevent (c : Call) : Prop :=
  match c with
  | CallLog message =>
      match classify message with
      | KAssistant | KUser => False
      | _ => True
      end
  | _ => True
  end.

(** The calls that write nothing: assistant and user messages, ignored
    messages and [logUserInput]. *)
Definition silent (c : Call) : Prop :=
  match c with
  | CallLog message =>
      match classify message with
      | KAssistant | KUser | KIgnored => True
      | _ => False
      end
  | CallLogUserInput _ => True
  | CallClose => False
  end.

(** One lifetime of a logger: a new instance serves the calls that its
    caller makes before the runtime has sent the init-class event (the
    command-line agent calls [logUserInput] first), observes the
    init-class event, serves further calls and is closed. *)
Record Lifetime : Type := mkLifetime {
  opening : list Call;
  initEvent : SDKMessage;
  serving : list Call
}.

(** A lifetime up to its [close], which is left out: what a logger does
    whose process ends without closing it. *)
Definition unclosed (l : Lifetime) (w : World) : Logger * World :=
  let sw := run (opening l) (createSessionLogger, w) in
  run (serving l) (log (initEvent l) (fst sw) (snd sw)).

Definition lifetime (l : Lifetime) (w : World) : Logger * World :=
  let sw := unclosed l w in
  close (fst sw) (snd sw).

(** A session that spans several lifetimes, each of them resuming the
    file the former ones left. *)
Definition runSession (ls : list Lifetime) (w : World) : World :=
  fold_left (fun acc l => snd (lifetime l acc)) ls w.

(** A lifetime of the session [sessionId]: the calls before the
    init-class event write nothing, the init-class event is of that
    session, and there is no other one. *)
Definition lifetimeOf (sessionId : string) (l : Lifetime) : Prop :=
  Forall silent (opening l)
  /\ is_init (initEvent l) = true
  /\ JS.or_string (m_session_id (initEvent l)) "" = sessionId
  /\ Forall not_init (serving l).

(** The statistics of all result events of a session, in order. *)
Definition sessionResults (ls : list Lifetime) : list ExchangeStats :=
  map statsOf (concat (map (fun l => resultsOf (serving l)) ls)).

(** The totals, the token snapshot and the tool counts are as before. *)
Definition totals_kept (s' s : Logger) : Prop :=
  totalDurationMs s' = totalDurationMs s
  /\ totalDurationApiMs s' = totalDurationApiMs s
  /\ totalCostUsd s' = totalCostUsd s
  /\ lastExchangeTokens s' = lastExchangeTokens s
  /\ toolsUsed s' = toolsUsed s.

(** The totals, the token snapshot and the tool counts are those of a
    session_end record; the tool counts of the record replace the ones
    held for the same names, the other names are kept. *)
Definition totals_loaded (s' s : Logger) (prior : SessionEnd) : Prop :=
  totalDurationMs s' = se_total_duration_ms prior
  /\ totalDurationApiMs s' = se_total_duration_api_ms prior
  /\ (totalCostUsd s' == se_total_cost_usd prior)%Q
  /\ lastExchangeTokens s'
     = match se_total_tokens prior with Some t => t | None => zeroTokens end
  /\ (forall tools name,
        se_tools_used prior = Some tools ->
        toolsUsed s' !! name
        = match tools !! name with
          | Some n => Some n
          | None => toolsUsed s !! name
          end)
  /\ (se_tools_used prior = None -> toolsUsed s' = toolsUsed s).

(** After an init-class event the logger is attached to the file that
    [findExistingSessionFile] gives for its session. *)
Definition attached (s : Logger) (w : World) : Prop :=
  filePath s <> ""
  /\ findExistingSessionFile (dir w) (sessionId s) = Some (filePath s).

(** ** Sample data, used to run the model on concrete inputs *)

Module Sample.

Definition digit (n : nat) : ascii := ascii_of_nat (48 + n mod 10).

(** A clock that advances by one second at every reading. *)
Definition time (n : nat) : string :=
  "2025-11-07T08:45:" +:+ String (digit (n / 10)) (String (digit n) ".000Z").

Definition emptyWorld : World := {| dir := []; clock := time; tick := 0 |}.

Definition sid : string := "abc12345-0000-4000-8000-000000000000".

Definition init : SDKMessage :=
  {| m_type := Some "system"; m_subtype := Some "init";
     m_session_id := Some sid; m_model := Some "claude-haiku-4-5";
     m_cwd := Some "/workspace"; m_tools := Some ["Bash"; "Read"; "Write"];
     m_permissionMode := None; m_content := None; m_num_turns := None;
     m_duration_ms := None; m_duration_api_ms := None;
     m_total_cost_usd := None; m_usage := None |}.

Definition withBlocks (type : string) (content : list Block) : SDKMessage :=
  {| m_type := Some type; m_subtype := None; m_session_id := None;
     m_model := None; m_cwd := None; m_tools := None;
     m_permissionMode := None; m_content := Some content;
     m_num_turns := None; m_duration_ms := None; m_duration_api_ms := None;
     m_total_cost_usd := None; m_usage := None |}.

Definition textBlock (text : option string) : Block :=
  {| b_type := "text"; b_text := text; b_id := None; b_name := None;
     b_input := None; b_tool_use_id := None; b_is_error := None;
     b_content := None |}.

Definition toolUseBlock (id name : option string) : Block :=
  {| b_type := "tool_use"; b_text := None; b_id := id; b_name := name;
     b_input := Some (JS.VOther "{}"); b_tool_use_id := None;
     b_is_error := None; b_content := None |}.

Definition toolResultBlock (id : option string) : Block :=
  {| b_type := "tool_result"; b_text := None; b_id := None; b_name := None;
     b_input := None; b_tool_use_id := id; b_is_error := None;
     b_content := Some (JS.VString "done") |}.

Definition result (duration : Z) (cost : Q) (tin tout : Z) : SDKMessage :=
  {| m_type := Some "result"; m_subtype := Some "success";
     m_session_id := Some sid; m_model := None; m_cwd := None;
     m_tools := None; m_permissionMode := None; m_content := None;
     m_num_turns := Some 1; m_duration_ms := Some duration;
     m_duration_api_ms := Some (2 * duration);
     m_total_cost_usd := Some cost;
     m_usage := Some {| input_tokens := Some tin; output_tokens := Some tout;
                        cache_creation_input_tokens := None;
                        cache_read_input_tokens := Some 7 |} |}.

Definition stats (ordinal : Z) : ExchangeStats :=
  {| num_turns := 1; duration_ms := 100 * ordinal; duration_api_ms := None;
     tokens_in := 5; tokens_out := 10; cache_creation := 0; cache_read := 0;
     cost_usd := (1 # 1000)%Q |}.

Definition exchange (ordinal : Z) : Exchange :=
  {| ex_session_id := sid; ex_exchange := ordinal;
     ex_ts_start := time 2; ex_ts_end := time 3;
     ex_user_input := "hello"; ex_messages := [];
     ex_stats := stats ordinal |}.

Definition start : SessionStart :=
  {| ss_session_id := sid; ss_ts := time 1; ss_model := "claude-haiku-4-5";
     ss_cwd := "/workspace"; ss_tools_available := ["Bash"; "Read"; "Write"];
     ss_permission_mode := "default" |}.

(** The summary of a file that holds [exchange 1] only. *)
Definition summary : SessionEnd :=
  {| se_session_id := sid; se_ts := time 4; se_total_exchanges := 1;
     se_total_duration_ms := 100; se_total_duration_api_ms := 0;
     se_total_cost_usd := (1 # 1000)%Q;
     se_total_tokens :=
       Some {| tok_input := 5; tok_output := 10;
               tok_cache_creation := 0; tok_cache_read := 0 |};
     se_tools_used := Some ∅ |}.

Definition closedFile : list Line :=
  [LStart start; LExchange (exchange 1); LEnd summary].

Definition fileName : string := "20251107_084500_abc12345.jsonl".

(** A world that already holds a log file of the sample session. *)
Definition worldWith (lines : list Line) : World :=
  {| dir := [(fileName, lines)]; clock := time; tick := 20 |}.




(** The first lifetime of the command-line agent: the user input is
    logged before the runtime sends the init-class event. *)
Definition firstLifetime : Lifetime :=
  {| opening := [CallLogUserInput "one"]; initEvent := init;
     serving := [CallLog (result 100 (1 # 1000) 5 10)] |}.

Definition secondLifetime : Lifetime :=
  {| opening := [CallLogUserInput "two"]; initEvent := init;
     serving := [CallLog (result 250 (3 # 1000) 9 40);
                 CallLogUserInput "three"; CallLog (result 50 (2 # 1000) 3 4)] |}.



End Sample.

(** The state in which a second exchange is begun while the first one,
    with one assistant text, has not been completed. *)
Definition bufferedState : Logger * World :=
  run [CallLog Sample.init; CallLogUserInput "first";
       CallLog (Sample.withBlocks "assistant" [Sample.textBlock (Some "hi")])]
      (createSessionLogger, Sample.emptyWorld).

(** A file with a line that does not parse, as a write that was cut
    short and continued by the next append leaves it. *)
Definition crashedFile : list Line :=
  [LStart Sample.start; LExchange (Sample.exchange 1); Corrupt;
   LExchange (Sample.exchange 2)].

(** ** Further notions *)

(** The sub-event that the loop of [handleAssistantMessage] pushes for a
    block, if it pushes one. *)
Definition assistantEvent (ts : string) (block : Block) : option Message :=
  if String.eqb (b_type block) "text" && JS.truthy (b_text block) then
    Some {| msg_source := "assistant"; msg_type := "text"; msg_ts := ts;
            msg_text := b_text block; msg_tool_use_id := None;
            msg_name := None; msg_input := None; msg_is_error := None;
            msg_output := None |}
  else if String.eqb (b_type block) "tool_use"
          && JS.truthy (b_id block) && JS.truthy (b_name block) then
    Some {| msg_source := "assistant"; msg_type := "tool_use"; msg_ts := ts;
            msg_text := None; msg_tool_use_id := b_id block;
            msg_name := b_name block; msg_input := b_input block;
            msg_is_error := None; msg_output := None |}
  else None.

(** The sub-event that the loop of [handleUserMessage] pushes for a
    block, if it pushes one. *)
Definition userEvent (ts : string) (block : Block) : option Message :=
  if String.eqb (b_type block) "tool_result" && JS.truthy (b_tool_use_id block) then
    Some {| msg_source := "tool"; msg_type := "result"; msg_ts := ts;
            msg_text := None; msg_tool_use_id := b_tool_use_id block;
            msg_name := None; msg_input := None;
            msg_is_error :=
              Some (match b_is_error block with Some b => b | None => false end);
            msg_output := outputOf (b_content block) |}
  else None.

(** A call that neither begins nor completes an exchange and is no
    init-class event: the log of an assistant, user or ignored message,
    or [close]. *)
Definition buffering (c : Call) : Prop :=
  match c with
  | CallLog message =>
      match classify message with
      | KAssistant | KUser | KIgnored => True
      | _ => False
      end
  | CallLogUserInput _ => False
  | CallClose => True
  end.

(** The sub-events that such calls add to the buffer of an initialized
    logger, in the order of the calls, the clock standing at its reading
    number [tick] before the first of them: an assistant or user message
    with a content takes one reading of the clock for all its blocks,
    and [close] takes one for its record. *)
Fixpoint bufferedBy (clock : nat -> string) (tick : nat) (calls : list Call)
  : list Message :=
  match calls with
  | [] => []
  | CallLog message :: rest =>
      match classify message, m_content message with
      | KAssistant, Some content =>
          omap (assistantEvent (clock tick)) content
          ++ bufferedBy clock (S tick) rest
      | KUser, Some content =>
          omap (userEvent (clock tick)) content
          ++ bufferedBy clock (S tick) rest
      | _, _ => bufferedBy clock tick rest
      end
  | _ :: rest => bufferedBy clock (S tick) rest
  end.

(** A sub-event that is the use of the tool [name]. *)
Definition is_tool_use (name : string) (m : Message) : bool :=
  String.eqb (msg_type m) "tool_use"
  && match msg_name m with
     | Some n => String.eqb n name
     | None => false
     end.

(** The number of uses of the tool [name] among sub-events. *)
Definition toolUses (name : string) (messages : list Message) : Z :=
  Z.of_nat (length (List.filter (is_tool_use name) messages)).

(** The sub-events of all the exchange records of a file, in order. *)
Definition recordedMessages (lines : list Line) : list Message :=
  concat (map ex_messages (exchangesOf lines)).

(** The number of [logUserInput] calls of a sequence. *)
Fixpoint beginsOf (calls : list Call) : Z :=
  match calls with
  | [] => 0
  | CallLogUserInput _ :: rest => 1 + beginsOf rest
  | _ :: rest => beginsOf rest
  end.

(** A call that is neither an init-class event nor [close]. *)
Definition plain (c : Call) : Prop :=
  match c with
  | CallLog message => is_init message = false
  | CallLogUserInput _ => True
  | CallClose => False
  end.

(** A lifetime of the session [sessionId] in which [close] is called
    once, at the end. *)
Definition plainLifetimeOf (sessionId : string) (l : Lifetime) : Prop :=
  Forall silent (opening l)
  /\ is_init (initEvent l) = true
  /\ JS.or_string (m_session_id (initEvent l)) "" = sessionId
  /\ Forall plain (serving l).

(** A call that can only add sub-events to the exchange in flight: the
    log of an assistant, user or ignored message. *)
Definition within_exchange (c : Call) : Prop :=
  match c with
  | CallLog message =>
      match classify message with
      | KAssistant | KUser | KIgnored => True
      | _ => False
      end
  | _ => False
  end.

(** A character that [newFileName] keeps: not a dash, a colon or a T. *)
Definition kept (c : ascii) : bool :=
  negb (Ascii.eqb c "-" || Ascii.eqb c ":" || Ascii.eqb c "T").

(** A result event that carries none of the statistics. *)
Definition bareResult : SDKMessage :=
  {| m_type := Some "result"; m_subtype := None; m_session_id := None;
     m_model := None; m_cwd := None; m_tools := None;
     m_permissionMode := None; m_content := None; m_num_turns := None;
     m_duration_ms := None; m_duration_api_ms := None;
     m_total_cost_usd := None; m_usage := None |}.

(** An init-class event of another session whose identifier has the same
    first eight characters as the sample one. *)
Definition collidingInit : SDKMessage :=
  {| m_type := Some "system"; m_subtype := Some "init";
     m_session_id := Some "abc12345-ffff-4fff-8fff-ffffffffffff";
     m_model := Some "claude-haiku-4-5"; m_cwd := Some "/elsewhere";
     m_tools := None; m_permissionMode := None; m_content := None;
     m_num_turns := None; m_duration_ms := None; m_duration_api_ms := None;
     m_total_cost_usd := None; m_usage := None |}.

(** An assistant message with a text and two uses of tools. *)
Definition toolMessage : SDKMessage :=
  Sample.withBlocks "assistant"
    [Sample.textBlock (Some "let me look");
     Sample.toolUseBlock (Some "toolu_01") (Some "Read");
     Sample.toolUseBlock (Some "toolu_02") (Some "Bash")].



(** * Properties *)

#[local] Arguments String.eqb : simpl never.

(** ** JavaScript helpers *)

Lemma or0_id (n : Z) : JS.or0 n = n.
Proof. unfold JS.or0. destruct (Z.eqb_spec n 0); congruence. Qed.

Lemma or0Q_eq (q : Q) : (JS.or0Q q == q)%Q.
Proof.
  unfold JS.or0Q. destruct (Qeq_bool q 0) eqn:E.
  - apply Qeq_bool_eq in E. symmetry. exact E.
  - reflexivity.
Qed.

Lemma truthy_false (o : option string) :
  JS.truthy o = false <-> o = None \/ o = Some "".
Proof.
  destruct o as [x|]; simpl.
  - destruct (String.eqb_spec x ""); simpl; split; intros H; try congruence.
    + right. congruence.
    + destruct H as [H|H]; congruence.
  - split; auto.
Qed.

Lemma endsWith_refl (x : string) : JS.endsWith x x = true.
Proof. destruct x; cbn [JS.endsWith]; rewrite String.eqb_refl; reflexivity. Qed.

Lemma endsWith_app (pre suffix : string) :
  JS.endsWith (pre +:+ suffix) suffix = true.
Proof.
  induction pre as [|c pre IH]; simpl.
  - apply endsWith_refl.
  - rewrite IH. apply orb_true_r.
Qed.

Lemma endsWith_length (x suffix : string) :
  JS.endsWith x suffix = true -> (String.length suffix <= String.length x)%nat.
Proof.
  induction x as [|c x IH]; simpl; intros H.
  - rewrite orb_false_r in H. apply String.eqb_eq in H. subst. simpl. lia.
  - apply orb_true_iff in H. destruct H as [H|H].
    + apply String.eqb_eq in H. subst. simpl. lia.
    + apply IH in H. lia.
Qed.

Lemma sessionSuffix_length (sessionId : string) :
  (1 <= String.length (sessionSuffix sessionId))%nat.
Proof. unfold sessionSuffix. simpl. lia. Qed.

Lemma suffixed_nonempty (x sessionId : string) :
  JS.endsWith x (sessionSuffix sessionId) = true -> x <> "".
Proof.
  intros H ->. apply endsWith_length in H.
  pose proof (sessionSuffix_length sessionId). simpl in H. lia.
Qed.

Lemma newFileName_endsWith (iso sessionId : string) :
  JS.endsWith (newFileName iso sessionId) (sessionSuffix sessionId) = true.
Proof. unfold newFileName. apply endsWith_app. Qed.

Lemma newFileName_nonempty (iso sessionId : string) :
  String.eqb (newFileName iso sessionId) "" = false.
Proof.
  apply String.eqb_neq.
  apply (suffixed_nonempty _ sessionId), newFileName_endsWith.
Qed.

(** ** The file system *)

Lemma read_append_same (d : Dir) (path : string) (line : Line) :
  Fs.readFileSync (Fs.appendFileSync d path line) path
  = Some (contentOf d path ++ [line]).
Proof.
  unfold contentOf.
  induction d as [|[f old] d IH]; simpl.
  - rewrite String.eqb_refl. reflexivity.
  - destruct (String.eqb_spec f path) as [->|Hne]; simpl.
    + rewrite String.eqb_refl. reflexivity.
    + destruct (String.eqb_spec f path); [contradiction|]. exact IH.
Qed.

Lemma read_append_other (d : Dir) (path other : string) (line : Line) :
  other <> path ->
  Fs.readFileSync (Fs.appendFileSync d path line) other = Fs.readFileSync d other.
Proof.
  intros Hne.
  induction d as [|[f old] d IH]; simpl.
  - destruct (String.eqb_spec path other); congruence.
  - destruct (String.eqb_spec f path) as [->|Hfp]; simpl.
    + destruct (String.eqb_spec path other); congruence.
    + destruct (String.eqb_spec f other); [reflexivity|]. exact IH.
Qed.

Lemma readdir_append_exists (d : Dir) (path : string) (line : Line) :
  Fs.readFileSync d path <> None ->
  Fs.readdirSync (Fs.appendFileSync d path line) = Fs.readdirSync d.
Proof.
  unfold Fs.readdirSync.
  induction d as [|[f old] d IH]; simpl; intros H.
  - congruence.
  - destruct (String.eqb_spec f path) as [->|Hfp]; simpl.
    + reflexivity.
    + f_equal. apply IH. exact H.
Qed.

Lemma readdir_append_absent (d : Dir) (path : string) (line : Line) :
  Fs.readFileSync d path = None ->
  Fs.readdirSync (Fs.appendFileSync d path line) = Fs.readdirSync d ++ [path].
Proof.
  unfold Fs.readdirSync.
  induction d as [|[f old] d IH]; simpl; intros H.
  - reflexivity.
  - destruct (String.eqb_spec f path) as [->|Hfp]; [discriminate|].
    simpl. f_equal. apply IH. exact H.
Qed.

Lemma read_write_same (d : Dir) (path : string) (content : list Line) :
  Fs.readFileSync (Fs.writeFileSync d path content) path = Some content.
Proof.
  induction d as [|[f old] d IH]; simpl.
  - rewrite String.eqb_refl. reflexivity.
  - destruct (String.eqb_spec f path) as [->|Hne]; simpl.
    + rewrite String.eqb_refl. reflexivity.
    + destruct (String.eqb_spec f path); [contradiction|]. exact IH.
Qed.

Lemma read_write_other (d : Dir) (path other : string) (content : list Line) :
  other <> path ->
  Fs.readFileSync (Fs.writeFileSync d path content) other = Fs.readFileSync d other.
Proof.
  intros Hne.
  induction d as [|[f old] d IH]; simpl.
  - destruct (String.eqb_spec path other); congruence.
  - destruct (String.eqb_spec f path) as [->|Hfp]; simpl.
    + destruct (String.eqb_spec path other); congruence.
    + destruct (String.eqb_spec f other); [reflexivity|]. exact IH.
Qed.

Lemma readdir_write_exists (d : Dir) (path : string) (content : list Line) :
  Fs.readFileSync d path <> None ->
  Fs.readdirSync (Fs.writeFileSync d path content) = Fs.readdirSync d.
Proof.
  unfold Fs.readdirSync.
  induction d as [|[f old] d IH]; simpl; intros H.
  - congruence.
  - destruct (String.eqb_spec f path) as [->|Hfp]; simpl.
    + reflexivity.
    + f_equal. apply IH. exact H.
Qed.

Lemma read_listed (d : Dir) (path : string) :
  In path (Fs.readdirSync d) <-> Fs.readFileSync d path <> None.
Proof.
  unfold Fs.readdirSync.
  induction d as [|[f old] d IH]; simpl.
  - split; [tauto | congruence].
  - destruct (String.eqb_spec f path) as [->|Hfp].
    + split; [congruence | auto].
    + rewrite <- IH. split; [intros [H|H]; [contradiction | exact H] | auto].
Qed.

Lemma contentOf_append_same (d : Dir) (path : string) (line : Line) :
  contentOf (Fs.appendFileSync d path line) path = contentOf d path ++ [line].
Proof. unfold contentOf at 1. rewrite read_append_same. reflexivity. Qed.

(** ** The session file of an identifier *)

Lemma find_exists (d : Dir) (sessionId path : string) :
  findExistingSessionFile d sessionId = Some path ->
  Fs.readFileSync d path <> None
  /\ JS.endsWith path (sessionSuffix sessionId) = true
  /\ path <> "".
Proof.
  unfold findExistingSessionFile. intros H.
  apply List.find_some in H. destruct H as [Hin Hends].
  repeat split.
  - apply read_listed. exact Hin.
  - exact Hends.
  - apply (suffixed_nonempty _ sessionId). exact Hends.
Qed.

Lemma find_none_absent (d : Dir) (sessionId path : string) :
  findExistingSessionFile d sessionId = None ->
  JS.endsWith path (sessionSuffix sessionId) = true ->
  Fs.readFileSync d path = None.
Proof.
  unfold findExistingSessionFile. intros Hnone Hends.
  destruct (Fs.readFileSync d path) eqn:E; [|reflexivity].
  assert (Hin : In path (Fs.readdirSync d)) by (apply read_listed; congruence).
  pose proof (List.find_none _ _ Hnone _ Hin) as Hf. simpl in Hf. congruence.
Qed.

Lemma find_app_new (names : list string) (p : string -> bool) (x : string) :
  List.find p names = None -> p x = true -> List.find p (names ++ [x]) = Some x.
Proof.
  induction names as [|n names IH]; simpl; intros Hnone Hx.
  - rewrite Hx. reflexivity.
  - destruct (p n); [discriminate|]. apply IH; assumption.
Qed.

(** ** Dispatch *)

Lemma log_classify (message : SDKMessage) (s : Logger) (w : World) :
  log message s w =
  match classify message with
  | KInit => handleSystemMessage message s w
  | KAssistant => handleAssistantMessage message s w
  | KUser => handleUserMessage message s w
  | KResult => handleResultMessage message s w
  | KIgnored => (s, w)
  end.
Proof.
  unfold log, classify.
  destruct (is_type message "system"); [destruct (is_init message); reflexivity|].
  destruct (is_type message "assistant"); [reflexivity|].
  destruct (is_type message "user"); [reflexivity|].
  destruct (is_type message "result"); reflexivity.
Qed.

Lemma is_type_unique (message : SDKMessage) (t u : string) :
  is_type message t = true -> t <> u -> is_type message u = false.
Proof.
  unfold is_type. destruct (m_type message) as [x|]; [|discriminate].
  intros H Hne. apply String.eqb_eq in H. subst x.
  apply String.eqb_neq. exact Hne.
Qed.

Lemma classify_init (message : SDKMessage) :
  is_init message = true -> classify message = KInit.
Proof.
  unfold classify. intros H. rewrite H.
  unfold is_init in H. apply andb_true_iff in H. destruct H as [-> _].
  reflexivity.
Qed.

Lemma classify_not_init (message : SDKMessage) :
  is_init message = false -> classify message <> KInit.
Proof.
  unfold classify. intros H. rewrite H.
  destruct (is_type message "system"); [discriminate|].
  destruct (is_type message "assistant"); [discriminate|].
  destruct (is_type message "user"); [discriminate|].
  destruct (is_type message "result"); discriminate.
Qed.

Lemma classify_result (message : SDKMessage) :
  classify message = KResult <-> is_result message = true.
Proof.
  unfold classify, is_result. split.
  - destruct (is_type message "system"); [destruct (is_init message); discriminate|].
    destruct (is_type message "assistant"); [discriminate|].
    destruct (is_type message "user"); [discriminate|].
    destruct (is_type message "result"); [reflexivity | discriminate].
  - intros H.
    rewrite (is_type_unique message "result" "system" H) by discriminate.
    rewrite (is_type_unique message "result" "assistant" H) by discriminate.
    rewrite (is_type_unique message "result" "user" H) by discriminate.
    rewrite H. reflexivity.
Qed.

Lemma classify_assistant (message : SDKMessage) :
  m_type message = Some "assistant" -> classify message = KAssistant.
Proof. unfold classify, is_type. intros ->. reflexivity. Qed.

Lemma classify_user (message : SDKMessage) :
  m_type message = Some "user" -> classify message = KUser.
Proof. unfold classify, is_type. intros ->. reflexivity. Qed.

Lemma run_cons (c : Call) (calls : list Call) (sw : Logger * World) :
  run (c :: calls) sw = run calls (call c sw).
Proof. reflexivity. Qed.

(** ** Content blocks *)

Lemma assistantBlock_skip (ts : string) (acc : list Message * gmap string Z)
  (block : Block) :
  skippedByAssistant block -> assistantBlock ts acc block = acc.
Proof.
  unfold skippedByAssistant, missing_or_empty, assistantBlock.
  destruct acc as [messages tools].
  intros [[Ht Hx] | [Ht Hx]]; rewrite Ht.
  - apply truthy_false in Hx. rewrite Hx. reflexivity.
  - assert (JS.truthy (b_id block) && JS.truthy (b_name block) = false) as Hb.
    { destruct Hx as [Hx|Hx]; apply truthy_false in Hx; rewrite Hx;
        [reflexivity | apply andb_false_r]. }
    change (String.eqb "tool_use" "text") with false.
    change (String.eqb "tool_use" "tool_use") with true.
    cbn [andb]. rewrite Hb. reflexivity.
Qed.

Lemma userBlock_skip (ts : string) (messages : list Message) (block : Block) :
  skippedByUser block -> userBlock ts messages block = messages.
Proof.
  unfold skippedByUser, missing_or_empty, userBlock. intros [Ht Hx].
  apply truthy_false in Hx. rewrite Hx, andb_false_r. reflexivity.
Qed.

Lemma with_buffer_same (s : Logger) :
  with_buffer s (currentMessages s) (toolsUsed s) = s.
Proof. destruct s. reflexivity. Qed.

(** C10.  An assistant content block whose [text] is missing or empty, a
    [tool_use] block whose [id] or [name] is missing (or empty), and a
    [tool_result] block whose [tool_use_id] is missing (or empty) are
    skipped: the message is logged exactly as the same message without
    that block, and when it is the only block the sub-event buffer and
    the tool-usage counts stay as they were. *)
Theorem skipped_blocks_leave_no_trace
  (message without : SDKMessage) (pre post : list Block) (block : Block)
  (s : Logger) (w : World) :
  (m_type message = Some "assistant" /\ skippedByAssistant block)
  \/ (m_type message = Some "user" /\ skippedByUser block) ->
  m_type without = m_type message ->
  m_content message = Some (pre ++ block :: post) ->
  m_content without = Some (pre ++ post) ->
  log message s w = log without s w
  /\ (pre = [] -> post = [] ->
      currentMessages (fst (log message s w)) = currentMessages s
      /\ toolsUsed (fst (log message s w)) = toolsUsed s).
Proof.
  intros Hkind Htype Hm Hw.
  assert (log message s w = log without s w) as Heq.
  { rewrite !log_classify.
    destruct Hkind as [[Ht Hskip] | [Ht Hskip]].
    - rewrite (classify_assistant message Ht).
      rewrite (classify_assistant without) by congruence.
      unfold handleAssistantMessage. rewrite Hm, Hw. cbn.
      rewrite !fold_left_app. cbn [fold_left].
      rewrite (assistantBlock_skip _ _ _ Hskip). reflexivity.
    - rewrite (classify_user message Ht).
      rewrite (classify_user without) by congruence.
      unfold handleUserMessage. rewrite Hm, Hw. cbn.
      rewrite !fold_left_app. cbn [fold_left].
      rewrite (userBlock_skip _ _ _ Hskip). reflexivity. }
  split; [exact Heq|].
  intros -> ->. rewrite Heq, log_classify.
  destruct Hkind as [[Ht _] | [Ht _]].
  - rewrite (classify_assistant without) by congruence.
    unfold handleAssistantMessage. rewrite Hw. cbn. auto.
  - rewrite (classify_user without) by congruence.
    unfold handleUserMessage. rewrite Hw. cbn. auto.
Qed.

Lemma skipped_blocks_leave_no_trace_witness :
  log (Sample.withBlocks "assistant"
         [Sample.textBlock (Some "hi");
          Sample.toolUseBlock (Some "toolu_01") None;
          Sample.toolUseBlock (Some "toolu_02") (Some "Bash")])
      createSessionLogger Sample.emptyWorld
  = log (Sample.withBlocks "assistant"
           [Sample.textBlock (Some "hi");
            Sample.toolUseBlock (Some "toolu_02") (Some "Bash")])
        createSessionLogger Sample.emptyWorld
  /\ log (Sample.withBlocks "user"
            [Sample.toolResultBlock None;
             Sample.toolResultBlock (Some "toolu_02")])
         createSessionLogger Sample.emptyWorld
     = log (Sample.withBlocks "user" [Sample.toolResultBlock (Some "toolu_02")])
           createSessionLogger Sample.emptyWorld.
Proof.
  split.
  - refine (proj1 (skipped_blocks_leave_no_trace
      (Sample.withBlocks "assistant"
         [Sample.textBlock (Some "hi");
          Sample.toolUseBlock (Some "toolu_01") None;
          Sample.toolUseBlock (Some "toolu_02") (Some "Bash")])
      (Sample.withBlocks "assistant"
         [Sample.textBlock (Some "hi");
          Sample.toolUseBlock (Some "toolu_02") (Some "Bash")])
      [Sample.textBlock (Some "hi")]
      [Sample.toolUseBlock (Some "toolu_02") (Some "Bash")]
      (Sample.toolUseBlock (Some "toolu_01") None)
      createSessionLogger Sample.emptyWorld _ _ _ _)).
    + left. split; [reflexivity|]. right. split; [reflexivity|].
      right. left. reflexivity.
    + reflexivity.
    + reflexivity.
    + reflexivity.
  - refine (proj1 (skipped_blocks_leave_no_trace
      (Sample.withBlocks "user"
         [Sample.toolResultBlock None; Sample.toolResultBlock (Some "toolu_02")])
      (Sample.withBlocks "user" [Sample.toolResultBlock (Some "toolu_02")])
      [] [Sample.toolResultBlock (Some "toolu_02")]
      (Sample.toolResultBlock None)
      createSessionLogger Sample.emptyWorld _ _ _ _)).
    + right. split; [reflexivity|]. split; [reflexivity|]. left. reflexivity.
    + reflexivity.
    + reflexivity.
    + reflexivity.
Defined.

(** ** Scanning an adopted file *)

Lemma scanExchanges_corrupt (lines : list Line) (maxExchange : Z) :
  In Corrupt lines -> scanExchanges lines maxExchange = None.
Proof.
  revert maxExchange.
  induction lines as [|line lines IH]; intros maxExchange Hin; [destruct Hin|].
  destruct Hin as [-> | Hin]; [reflexivity|].
  destruct line; simpl; auto.
  destruct (Z.eqb (ex_exchange r) 0); auto.
Qed.

Lemma scanExchanges_parsed (lines : list Line) (maxExchange : Z) :
  0 <= maxExchange ->
  ~ In Corrupt lines ->
  scanExchanges lines maxExchange
  = Some (Z.max maxExchange (highestOrdinal lines)).
Proof.
  unfold highestOrdinal. revert maxExchange.
  induction lines as [|line lines IH]; intros maxExchange Hpos Hnot.
  - cbn [scanExchanges exchangesOf map fold_right]. f_equal. lia.
  - assert (~ In Corrupt lines) as Hrest by (intros H; apply Hnot; right; exact H).
    destruct line;
      cbn [scanExchanges exchangesOf map fold_right];
      try (apply IH; assumption).
    + exfalso. apply Hnot. left. reflexivity.
    + destruct (Z.eqb_spec (ex_exchange r) 0) as [E|E];
        rewrite IH by (try assumption; lia); f_equal; lia.
Qed.

Lemma highestOrdinal_nonneg (lines : list Line) : 0 <= highestOrdinal lines.
Proof.
  unfold highestOrdinal.
  induction (map ex_exchange (exchangesOf lines)) as [|z zs IH];
    cbn [fold_right]; lia.
Qed.

Lemma getLastExchangeNumber_parsed (d : Dir) (path : string) (lines : list Line) :
  Fs.readFileSync d path = Some lines ->
  ~ In Corrupt lines ->
  getLastExchangeNumber d path = highestOrdinal lines.
Proof.
  intros Hread Hnot. unfold getLastExchangeNumber.
  rewrite Hread, (scanExchanges_parsed _ 0 (Z.le_refl 0) Hnot).
  pose proof (highestOrdinal_nonneg lines). lia.
Qed.

Lemma loadPreviousSessionStats_counter (d : Dir) (path : string) (s : Logger) :
  exchangeCount (loadPreviousSessionStats d path s) = exchangeCount s
  /\ filePath (loadPreviousSessionStats d path s) = filePath s
  /\ sessionId (loadPreviousSessionStats d path s) = sessionId s
  /\ currentMessages (loadPreviousSessionStats d path s) = currentMessages s
  /\ currentUserInput (loadPreviousSessionStats d path s) = currentUserInput s
  /\ exchangeStartTs (loadPreviousSessionStats d path s) = exchangeStartTs s.
Proof.
  unfold loadPreviousSessionStats.
  destruct (Fs.readFileSync d path) as [lines|]; [|tauto].
  destruct (lastSessionEnd (rev lines)); simpl; tauto.
Qed.

(** What [handleSystemMessage] does when a file of the session exists. *)
Lemma handleSystemMessage_existing
  (message : SDKMessage) (s : Logger) (w : World) (path : string) :
  findExistingSessionFile (dir w) (JS.or_string (m_session_id message) "")
  = Some path ->
  let s' := fst (handleSystemMessage message s w) in
  let w' := snd (handleSystemMessage message s w) in
  filePath s' = path
  /\ sessionId s' = JS.or_string (m_session_id message) ""
  /\ exchangeCount s' = getLastExchangeNumber (dir w) path
  /\ currentMessages s' = currentMessages s
  /\ currentUserInput s' = currentUserInput s
  /\ exchangeStartTs s' = exchangeStartTs s
  /\ w' = removeLastSessionEnd path w.
Proof.
  intros Hfind. unfold handleSystemMessage. rewrite Hfind. cbn [fst snd].
  match goal with
  | |- context [loadPreviousSessionStats ?d ?p ?x] =>
      destruct (loadPreviousSessionStats_counter d p x)
        as (Hc & Hp & Hi & Hm & Hu & Ht)
  end.
  rewrite Hc, Hp, Hi, Hm, Hu, Ht. cbn. tauto.
Qed.

(** C9.  The scan of [getLastExchangeNumber] gives 0 as soon as one line
    of the adopted file does not parse, whatever exchange records the file
    holds; on resumption the exchange counter is then 0 and the next
    exchange begun is numbered 1. *)
Theorem corrupt_line_restarts_numbering
  (message : SDKMessage) (s : Logger) (w : World) (path : string)
  (lines : list Line) (userText : string) :
  is_init message = true ->
  findExistingSessionFile (dir w) (JS.or_string (m_session_id message) "")
  = Some path ->
  Fs.readFileSync (dir w) path = Some lines ->
  In Corrupt lines ->
  getLastExchangeNumber (dir w) path = 0
  /\ exchangeCount (fst (log message s w)) = 0
  /\ exchangeCount
       (fst (logUserInput userText (fst (log message s w)) (snd (log message s w))))
     = 1.
Proof.
  intros Hinit Hfind Hread Hcorrupt.
  assert (getLastExchangeNumber (dir w) path = 0) as Hzero.
  { unfold getLastExchangeNumber.
    rewrite Hread, (scanExchanges_corrupt _ _ Hcorrupt). reflexivity. }
  rewrite log_classify, (classify_init _ Hinit).
  destruct (handleSystemMessage_existing message s w path Hfind)
    as (_ & _ & Hcount & _).
  repeat split; [exact Hzero | congruence |].
  unfold logUserInput. cbn. rewrite Hcount, Hzero. reflexivity.
Qed.

Lemma corrupt_line_restarts_numbering_witness :
  let w := Sample.worldWith
             [LExchange (Sample.exchange 1); LExchange (Sample.exchange 5);
              Corrupt; LExchange (Sample.exchange 6)] in
  highestOrdinal (contentOf (dir w) "20251107_084500_abc12345.jsonl") = 6
  /\ exchangeCount (fst (log Sample.init createSessionLogger w)) = 0.
Proof.
  split; [reflexivity|].
  refine (proj1 (proj2 (corrupt_line_restarts_numbering
    Sample.init createSessionLogger _ "20251107_084500_abc12345.jsonl"
    [LExchange (Sample.exchange 1); LExchange (Sample.exchange 5);
     Corrupt; LExchange (Sample.exchange 6)] "next" _ _ _ _))).
  - reflexivity.
  - reflexivity.
  - reflexivity.
  - right. right. left. reflexivity.
Defined.

(** ** Beginning an exchange *)

(** C6, as the code has it.  [logUserInput] increments the exchange
    counter, records the reading of the clock as start timestamp and
    stores the text; the sub-event buffer is left as it is, and nothing
    is written. *)
Theorem logUserInput_effect (userText : string) (s : Logger) (w : World) :
  let s' := fst (logUserInput userText s w) in
  let w' := snd (logUserInput userText s w) in
  exchangeCount s' = exchangeCount s + 1
  /\ exchangeStartTs s' = clock w (tick w)
  /\ currentUserInput s' = userText
  /\ currentMessages s' = currentMessages s
  /\ dir w' = dir w.
Proof. cbn. repeat split. Qed.

(** Counterexample to C6 as stated: a second [logUserInput] before the
    result event keeps the buffered assistant text. *)
Lemma logUserInput_keeps_buffer :
  currentMessages
    (fst (logUserInput "second" (fst bufferedState) (snd bufferedState)))
  = [{| msg_source := "assistant"; msg_type := "text";
        msg_ts := "2025-11-07T08:45:03.000Z"; msg_text := Some "hi";
        msg_tool_use_id := None; msg_name := None; msg_input := None;
        msg_is_error := None; msg_output := None |}]
  /\ currentMessages
       (fst (logUserInput "second" (fst bufferedState) (snd bufferedState)))
     <> [].
Proof. split; [reflexivity | discriminate]. Qed.

(** ** Closing *)

Lemma appendLine_content (path : string) (line : Line) (w : World) :
  path <> "" ->
  contentOf (dir (appendLine path line w)) path = contentOf (dir w) path ++ [line]
  /\ (forall other, other <> path ->
        Fs.readFileSync (dir (appendLine path line w)) other
        = Fs.readFileSync (dir w) other)
  /\ clock (appendLine path line w) = clock w
  /\ tick (appendLine path line w) = tick w.
Proof.
  intros Hne. unfold appendLine.
  destruct (String.eqb_spec path ""); [contradiction|]. cbn.
  repeat split.
  - apply contentOf_append_same.
  - intros other Ho. apply read_append_other. exact Ho.
Qed.

Lemma close_effect (s : Logger) (w : World) :
  filePath s <> "" ->
  fst (close s w) = s
  /\ contentOf (dir (snd (close s w))) (filePath s)
     = contentOf (dir w) (filePath s) ++ [LEnd (summaryOf s (clock w (tick w)))]
  /\ clock (snd (close s w)) = clock w
  /\ tick (snd (close s w)) = S (tick w).
Proof.
  intros Hne. unfold close.
  destruct (String.eqb_spec (filePath s) ""); [contradiction|].
  cbn [getTimestamp fst snd].
  match goal with
  | |- context [appendLine ?p ?l ?x] =>
      destruct (appendLine_content p l x Hne) as (Hc & _ & Hk & Ht)
  end.
  rewrite Hc, Hk, Ht. cbn. repeat split.
Qed.

(** C5, as the code has it.  Every call of [close] on an initialized
    logger appends one more session_end record that holds the current
    totals and leaves the earlier ones in place: after [n] calls the file
    ends with [n] session_end records, which differ in their timestamp
    only. *)
Theorem close_appends_every_time (n : nat) (s : Logger) (w : World) :
  filePath s <> "" ->
  fst (run (repeat CallClose n) (s, w)) = s
  /\ contentOf (dir (snd (run (repeat CallClose n) (s, w)))) (filePath s)
     = contentOf (dir w) (filePath s)
       ++ map (fun i => LEnd (summaryOf s (clock w (tick w + i)%nat))) (seq 0 n).
Proof.
  intros Hne. revert w.
  induction n as [|n IH]; intros w.
  - cbn. rewrite app_nil_r. split; reflexivity.
  - cbn [repeat]. rewrite run_cons. cbn [call fst snd].
    destruct (close_effect s w Hne) as (Hs & Hc & Hk & Ht).
    rewrite (surjective_pairing (close s w)), Hs.
    destruct (IH (snd (close s w))) as [IHs IHc].
    split; [exact IHs|].
    rewrite IHc, Hc, Hk, Ht, <- app_assoc. f_equal.
    cbn [seq map app]. rewrite Nat.add_0_r. f_equal.
    rewrite <- seq_shift, map_map.
    apply map_ext. intros i. do 3 f_equal. lia.
Qed.

Lemma close_appends_every_time_witness :
  let sw := log Sample.init createSessionLogger Sample.emptyWorld in
  length (endsOf (contentOf
    (dir (snd (run (repeat CallClose 3) (fst sw, snd sw))))
    (filePath (fst sw)))) = 3%nat.
Proof.
  cbv zeta.
  rewrite (proj2 (close_appends_every_time 3
     (fst (log Sample.init createSessionLogger Sample.emptyWorld))
     (snd (log Sample.init createSessionLogger Sample.emptyWorld))
     ltac:(discriminate))).
  reflexivity.
Defined.

(** Counterexample to C5 as stated: after an init-class event and two
    calls of [close] the file holds two session_end records. *)
Lemma second_close_adds_a_record :
  map (fun lines => length (endsOf lines))
    (map snd (dir (snd (run [CallLog Sample.init; CallClose; CallClose]
                          (createSessionLogger, Sample.emptyWorld)))))
  = [2%nat].
Proof. reflexivity. Qed.

(** ** The effect of one call that is not an init-class event *)

Lemma handleResultMessage_effect (message : SDKMessage) (s : Logger) (w : World) :
  filePath s <> "" ->
  fst (handleResultMessage message s w) = afterExchange s (statsOf message)
  /\ contentOf (dir (snd (handleResultMessage message s w))) (filePath s)
     = contentOf (dir w) (filePath s)
       ++ [LExchange (exchangeOf s (statsOf message) (clock w (tick w)))]
  /\ clock (snd (handleResultMessage message s w)) = clock w
  /\ tick (snd (handleResultMessage message s w)) = S (tick w).
Proof.
  intros Hne. unfold handleResultMessage. cbn [getTimestamp fst snd].
  match goal with
  | |- context [appendLine ?p ?l ?x] =>
      destruct (appendLine_content p l x Hne) as (Hc & _ & Hk & Ht)
  end.
  rewrite Hc, Hk, Ht. cbn. repeat split.
Qed.

Lemma call_cases (c : Call) :
  not_init c ->
  silent c
  \/ (exists message, c = CallLog message /\ classify message = KResult)
  \/ c = CallClose.
Proof.
  destruct c as [message | userText |]; cbn; intros Hni; auto.
  pose proof (classify_not_init message Hni) as Hk.
  destruct (classify message) eqn:E; auto; try contradiction.
  right. left. exists message. auto.
Qed.

Lemma handleAssistantMessage_effect (message : SDKMessage) (s : Logger) (w : World) :
  exists messages tools,
    fst (handleAssistantMessage message s w) = with_buffer s messages tools
    /\ dir (snd (handleAssistantMessage message s w)) = dir w
    /\ clock (snd (handleAssistantMessage message s w)) = clock w.
Proof.
  unfold handleAssistantMessage.
  destruct (m_content message) as [content|].
  - cbn [getTimestamp].
    destruct (fold_left _ content _) as [messages tools].
    exists messages, tools. cbn. auto.
  - exists (currentMessages s), (toolsUsed s).
    rewrite with_buffer_same. auto.
Qed.

Lemma handleUserMessage_effect (message : SDKMessage) (s : Logger) (w : World) :
  exists messages,
    fst (handleUserMessage message s w) = with_buffer s messages (toolsUsed s)
    /\ dir (snd (handleUserMessage message s w)) = dir w
    /\ clock (snd (handleUserMessage message s w)) = clock w.
Proof.
  unfold handleUserMessage.
  destruct (m_content message) as [content|].
  - cbn [getTimestamp]. eexists. cbn. auto.
  - exists (currentMessages s). rewrite with_buffer_same. auto.
Qed.

(** A silent call keeps the directory, the path, the identifier, the
    totals and the token snapshot. *)
Lemma silent_effect (c : Call) (s : Logger) (w : World) :
  silent c ->
  let s' := fst (call c (s, w)) in
  let w' := snd (call c (s, w)) in
  dir w' = dir w /\ clock w' = clock w
  /\ filePath s' = filePath s /\ sessionId s' = sessionId s
  /\ totalDurationMs s' = totalDurationMs s
  /\ totalDurationApiMs s' = totalDurationApiMs s
  /\ totalCostUsd s' = totalCostUsd s
  /\ lastExchangeTokens s' = lastExchangeTokens s.
Proof.
  destruct c as [message | userText |]; cbn [silent call fst snd];
    [|intros _; cbn; tauto | contradiction].
  rewrite log_classify. destruct (classify message); try contradiction; intros _.
  - destruct (handleAssistantMessage_effect message s w)
      as (messages & tools & -> & -> & ->). cbn. tauto.
  - destruct (handleUserMessage_effect message s w)
      as (messages & -> & -> & ->). cbn. tauto.
  - cbn. tauto.
Qed.

(** ** Sequences of calls without an init-class event *)

Lemma exchangesOf_app (l1 l2 : list Line) :
  exchangesOf (l1 ++ l2) = exchangesOf l1 ++ exchangesOf l2.
Proof.
  induction l1 as [|x l1 IH]; [reflexivity|].
  destruct x; cbn; rewrite ?IH; reflexivity.
Qed.

Lemma startsOf_app (l1 l2 : list Line) :
  startsOf (l1 ++ l2) = startsOf l1 ++ startsOf l2.
Proof.
  induction l1 as [|x l1 IH]; [reflexivity|].
  destruct x; cbn; rewrite ?IH; reflexivity.
Qed.

Lemma endsOf_app_both (l1 l2 : list Line) :
  endsOf (l1 ++ l2) = endsOf l1 ++ endsOf l2.
Proof.
  induction l1 as [|x l1 IH]; [reflexivity|].
  destruct x; cbn; rewrite ?IH; reflexivity.
Qed.

Lemma endsOf_rev (lines : list Line) : endsOf (rev lines) = rev (endsOf lines).
Proof.
  induction lines as [|x lines IH]; [reflexivity|].
  cbn [rev]. rewrite endsOf_app_both, IH.
  destruct x; cbn; rewrite ?app_nil_r; reflexivity.
Qed.

Lemma lastSessionEnd_skip (l1 l2 : list Line) :
  endsOf l1 = [] -> ~ In Corrupt l1 ->
  lastSessionEnd (l1 ++ l2) = lastSessionEnd l2.
Proof.
  induction l1 as [|x l1 IH]; intros He Hc; [reflexivity|].
  destruct x; cbn in *; try discriminate; try tauto; apply IH; tauto.
Qed.

Lemma lastSessionEnd_blocked (l1 l2 : list Line) :
  endsOf l1 = [] -> In Corrupt l1 -> lastSessionEnd (l1 ++ l2) = None.
Proof.
  induction l1 as [|x l1 IH]; intros He Hc; [destruct Hc|].
  destruct x; cbn in *; try discriminate; try reflexivity;
    apply IH; try assumption; destruct Hc as [Hc|Hc]; try discriminate; exact Hc.
Qed.

Lemma statsOfFile_app (l1 l2 : list Line) :
  statsOfFile (l1 ++ l2) = statsOfFile l1 ++ statsOfFile l2.
Proof. unfold statsOfFile. rewrite exchangesOf_app. apply map_app. Qed.

Lemma sumDurationMs_app (l1 l2 : list ExchangeStats) :
  sumDurationMs (l1 ++ l2) = sumDurationMs l1 + sumDurationMs l2.
Proof.
  unfold sumDurationMs.
  induction l1 as [|x l1 IH]; cbn [app fold_right]; [reflexivity|].
  rewrite IH. lia.
Qed.

Lemma sumDurationApiMs_app (l1 l2 : list ExchangeStats) :
  sumDurationApiMs (l1 ++ l2) = sumDurationApiMs l1 + sumDurationApiMs l2.
Proof.
  unfold sumDurationApiMs.
  induction l1 as [|x l1 IH]; cbn [app fold_right]; [reflexivity|].
  rewrite IH. lia.
Qed.

Lemma silent_results (c : Call) (rest : list Call) (snapshot : Tokens) :
  silent c ->
  resultsOf (c :: rest) = resultsOf rest
  /\ lastTokens (c :: rest) snapshot = lastTokens rest snapshot.
Proof.
  destruct c as [message | userText |]; cbn; [|auto | contradiction].
  intros Hs.
  destruct (is_result message) eqn:E; [|auto].
  apply classify_result in E. rewrite E in Hs. contradiction.
Qed.

(** The state and the file after calls without an init-class event. *)
Lemma run_without_init (calls : list Call) (s : Logger) (w : World) :
  Forall not_init calls ->
  filePath s <> "" ->
  let s' := fst (run calls (s, w)) in
  let w' := snd (run calls (s, w)) in
  let results := map statsOf (resultsOf calls) in
  filePath s' = filePath s
  /\ sessionId s' = sessionId s
  /\ clock w' = clock w
  /\ lastExchangeTokens s' = lastTokens calls (lastExchangeTokens s)
  /\ totalDurationMs s' = totalDurationMs s + sumDurationMs results
  /\ totalDurationApiMs s' = totalDurationApiMs s + sumDurationApiMs results
  /\ statsOfFile (contentOf (dir w') (filePath s))
     = statsOfFile (contentOf (dir w) (filePath s)) ++ results
  /\ startsOf (contentOf (dir w') (filePath s))
     = startsOf (contentOf (dir w) (filePath s)).
Proof.
  intros Hall. revert s w.
  induction Hall as [|c calls Hc Hall IH]; intros s w Hne.
  - cbn. rewrite !Z.add_0_r, app_nil_r. repeat split; reflexivity.
  - rewrite run_cons.
    destruct (call_cases c Hc) as [Hs | [(message & -> & Hk) | ->]].
    + destruct (silent_results c calls (lastExchangeTokens s) Hs) as [Hr Hl].
      destruct (silent_effect c s w Hs) as (Hd & Hck & Hp & Hi & H1 & H2 & _ & H4).
      rewrite (surjective_pairing (call c (s, w))).
      rewrite Hr, Hl.
      specialize (IH (fst (call c (s, w))) (snd (call c (s, w)))).
      rewrite Hp, Hi, H1, H2, H4, Hd, Hck in IH.
      apply IH. exact Hne.
    + cbn [call fst snd]. rewrite log_classify, Hk.
      destruct (handleResultMessage_effect message s w Hne) as (Hs & Hcont & Hck & _).
      rewrite (surjective_pairing (handleResultMessage message s w)).
      specialize (IH (fst (handleResultMessage message s w))
                     (snd (handleResultMessage message s w))).
      rewrite Hs in IH |- *. cbn [afterExchange filePath sessionId
        lastExchangeTokens totalDurationMs totalDurationApiMs] in IH.
      rewrite Hcont, Hck in IH.
      destruct (IH Hne) as (I1 & I2 & I3 & I4 & I5 & I6 & I8 & I9).
      apply classify_result in Hk.
      cbn [resultsOf lastTokens map]. rewrite Hk. cbn [map].
      repeat split; try assumption.
      * rewrite I5. unfold sumDurationMs. cbn [fold_right]. lia.
      * rewrite I6. unfold sumDurationApiMs. cbn [fold_right]. lia.
      * rewrite I8, statsOfFile_app, <- app_assoc. reflexivity.
      * rewrite I9, startsOf_app. cbn. apply app_nil_r.
    + cbn [call fst snd].
      destruct (close_effect s w Hne) as (Hs & Hcont & Hck & _).
      rewrite (surjective_pairing (close s w)).
      specialize (IH (fst (close s w)) (snd (close s w))).
      rewrite Hs in IH |- *. rewrite Hcont, Hck in IH.
      destruct (IH Hne) as (I1 & I2 & I3 & I4 & I5 & I6 & I8 & I9).
      cbn [resultsOf lastTokens].
      repeat split; try assumption.
      * rewrite I8, statsOfFile_app. cbn. rewrite app_nil_r. reflexivity.
      * rewrite I9, startsOf_app. cbn. apply app_nil_r.
Qed.

(** ** Initialization and resumption *)

Lemma removeLastSessionEnd_effect (path : string) (w : World) (lines : list Line) :
  path <> "" ->
  Fs.readFileSync (dir w) path = Some lines ->
  let w' := removeLastSessionEnd path w in
  Fs.readFileSync (dir w') path = Some (withoutTrailingEnd lines)
  /\ (forall other, other <> path ->
        Fs.readFileSync (dir w') other = Fs.readFileSync (dir w) other)
  /\ Fs.readdirSync (dir w') = Fs.readdirSync (dir w)
  /\ clock w' = clock w /\ tick w' = tick w.
Proof.
  intros Hne Hread. unfold removeLastSessionEnd, withoutTrailingEnd, Fs.existsSync.
  destruct (String.eqb_spec path ""); [contradiction|].
  rewrite Hread. cbn [negb orb].
  destruct (last lines) as [[| | | |r]|]; cbn; auto 6.
  repeat split.
  - apply read_write_same.
  - intros other Ho. apply read_write_other. exact Ho.
  - apply readdir_write_exists. congruence.
Qed.

Lemma withoutTrailingEnd_exchanges (lines : list Line) :
  exchangesOf (withoutTrailingEnd lines) = exchangesOf lines
  /\ startsOf (withoutTrailingEnd lines) = startsOf lines.
Proof.
  unfold withoutTrailingEnd.
  destruct (last lines) as [[| | | |r]|] eqn:E; auto.
  apply last_Some in E. destruct E as [pre ->].
  rewrite removelast_last, exchangesOf_app, startsOf_app. cbn.
  rewrite !app_nil_r. auto.
Qed.

Lemma lastSessionEnd_last (lines : list Line) (summary : SessionEnd) :
  last lines = Some (LEnd summary) ->
  lastSessionEnd (rev lines) = Some summary.
Proof.
  intros E. apply last_Some in E. destruct E as [pre ->].
  rewrite rev_app_distr. reflexivity.
Qed.

(** The state after [handleSystemMessage], whichever branch is taken. *)
Lemma handleSystemMessage_state (message : SDKMessage) (s : Logger) (w : World) :
  let sid := JS.or_string (m_session_id message) "" in
  let s' := fst (handleSystemMessage message s w) in
  sessionId s' = sid
  /\ currentMessages s' = currentMessages s
  /\ currentUserInput s' = currentUserInput s
  /\ exchangeStartTs s' = exchangeStartTs s
  /\ match priorSummary (dir w) sid with
     | Some parsed =>
         totalDurationMs s' = se_total_duration_ms parsed
         /\ totalDurationApiMs s' = se_total_duration_api_ms parsed
         /\ (totalCostUsd s' == se_total_cost_usd parsed)%Q
         /\ lastExchangeTokens s'
            = match se_total_tokens parsed with
              | Some t => t
              | None => zeroTokens
              end
     | None =>
         totalDurationMs s' = totalDurationMs s
         /\ totalDurationApiMs s' = totalDurationApiMs s
         /\ totalCostUsd s' = totalCostUsd s
         /\ lastExchangeTokens s' = lastExchangeTokens s
         /\ toolsUsed s' = toolsUsed s
     end.
Proof.
  cbv zeta. unfold priorSummary, handleSystemMessage, contentOf.
  destruct (findExistingSessionFile (dir w) _) as [path|] eqn:Hfind.
  - cbn [fst]. unfold loadPreviousSessionStats.
    destruct (find_exists _ _ _ Hfind) as (Hex & _ & _).
    destruct (Fs.readFileSync (dir w) path) as [lines|]; [|congruence].
    destruct (lastSessionEnd (rev lines)) as [parsed|]; cbn.
    + rewrite !or0_id. repeat split. apply or0Q_eq.
    + repeat split.
  - cbn. repeat split.
Qed.

Lemma handleSystemMessage_new (message : SDKMessage) (s : Logger) (w : World) :
  let sid := JS.or_string (m_session_id message) "" in
  let name := newFileName (clock w (tick w)) sid in
  let s' := fst (handleSystemMessage message s w) in
  let w' := snd (handleSystemMessage message s w) in
  findExistingSessionFile (dir w) sid = None ->
  filePath s' = name
  /\ exchangeCount s' = exchangeCount s
  /\ contentOf (dir w') name
     = [LStart {| ss_session_id := sid; ss_ts := clock w (S (tick w));
                  ss_model := JS.or_string (m_model message) "";
                  ss_cwd := JS.or_string (m_cwd message) "";
                  ss_tools_available :=
                    match m_tools message with Some t => t | None => [] end;
                  ss_permission_mode :=
                    JS.or_string (m_permissionMode message) "default" |}]
  /\ (forall other, other <> name ->
        Fs.readFileSync (dir w') other = Fs.readFileSync (dir w) other)
  /\ findExistingSessionFile (dir w') sid = Some name
  /\ clock w' = clock w.
Proof.
  cbv zeta. intros Hfind. unfold handleSystemMessage. rewrite Hfind.
  cbn [getTimestamp fst snd filePath exchangeCount].
  unfold appendLine. rewrite newFileName_nonempty. cbn [dir with_dir clock].
  set (name := newFileName (clock w (tick w)) _).
  assert (Habsent : Fs.readFileSync (dir w) name = None).
  { apply (find_none_absent _ _ _ Hfind), newFileName_endsWith. }
  repeat split.
  - rewrite contentOf_append_same. unfold contentOf. rewrite Habsent. reflexivity.
  - intros other Ho. apply read_append_other. exact Ho.
  - unfold findExistingSessionFile.
    rewrite (readdir_append_absent _ _ _ Habsent).
    apply find_app_new; [exact Hfind | apply newFileName_endsWith].
Qed.

Lemma handleSystemMessage_attached (message : SDKMessage) (s : Logger) (w : World) :
  attached (fst (handleSystemMessage message s w))
           (snd (handleSystemMessage message s w)).
Proof.
  unfold attached.
  destruct (handleSystemMessage_state message s w) as (Hid & _).
  rewrite Hid.
  destruct (findExistingSessionFile (dir w) (JS.or_string (m_session_id message) ""))
    as [path|] eqn:Hfind.
  - destruct (handleSystemMessage_existing message s w path Hfind)
      as (Hp & _ & _ & _ & _ & _ & Hw).
    destruct (find_exists _ _ _ Hfind) as (Hex & _ & Hne).
    rewrite Hp, Hw. split; [exact Hne|].
    destruct (Fs.readFileSync (dir w) path) as [lines|] eqn:Hread; [|congruence].
    destruct (removeLastSessionEnd_effect path w lines Hne Hread) as (_ & _ & Hd & _).
    unfold findExistingSessionFile in *. rewrite Hd. exact Hfind.
  - destruct (handleSystemMessage_new message s w Hfind) as (Hp & _ & _ & _ & Hf & _).
    rewrite Hp. split; [|exact Hf].
    apply String.eqb_neq, newFileName_nonempty.
Qed.

(** ** A logger stays attached to its file *)

Lemma appendLine_listing (path : string) (line : Line) (w : World) :
  Fs.readFileSync (dir w) path <> None ->
  Fs.readdirSync (dir (appendLine path line w)) = Fs.readdirSync (dir w).
Proof.
  intros Hex. unfold appendLine.
  destruct (String.eqb path ""); [reflexivity|].
  cbn. apply readdir_append_exists. exact Hex.
Qed.

Lemma attached_exists (s : Logger) (w : World) :
  attached s w -> Fs.readFileSync (dir w) (filePath s) <> None.
Proof. intros [_ Hfind]. apply (find_exists _ _ _ Hfind). Qed.

(** One call that is not an init-class event: what it appends to the
    file of an attached logger. *)
Lemma call_attached (c : Call) (s : Logger) (w : World) :
  not_init c ->
  attached s w ->
  let s' := fst (call c (s, w)) in
  let w' := snd (call c (s, w)) in
  attached s' w'
  /\ filePath s' = filePath s
  /\ sessionId s' = sessionId s
  /\ exchangesOf (contentOf (dir w') (filePath s))
     = exchangesOf (contentOf (dir w) (filePath s))
       ++ match c with
          | CallLog message =>
              if is_result message
              then [exchangeOf s (statsOf message) (clock w (tick w))]
              else []
          | _ => []
          end.
Proof.
  intros Hni Hatt. cbv zeta.
  pose proof (attached_exists s w Hatt) as Hex.
  destruct Hatt as [Hne Hfind]. unfold attached.
  destruct (call_cases c Hni) as [Hs | [(message & -> & Hk) | ->]].
  - destruct (silent_effect c s w Hs) as (Hd & _ & Hp & Hi & _).
    destruct (silent_results c [] zeroTokens Hs) as [Hr _].
    rewrite Hd, Hp, Hi.
    repeat split; try assumption.
    destruct c as [message | |]; try (symmetry; apply app_nil_r).
    cbn in Hr. destruct (is_result message); [discriminate|].
    symmetry. apply app_nil_r.
  - cbn [call fst snd]. rewrite log_classify, Hk.
    destruct (handleResultMessage_effect message s w Hne) as (Hs & Hc & _).
    apply classify_result in Hk. rewrite Hk, Hs, Hc, exchangesOf_app.
    cbn [afterExchange filePath sessionId exchangesOf].
    repeat split; try assumption.
    unfold handleResultMessage, findExistingSessionFile in *.
    cbn [getTimestamp snd].
    rewrite appendLine_listing by exact Hex. exact Hfind.
  - cbn [call fst snd].
    destruct (close_effect s w Hne) as (Hs & Hc & _).
    rewrite Hs, Hc, exchangesOf_app. cbn [exchangesOf].
    repeat split; try assumption.
    unfold close, findExistingSessionFile in *.
    destruct (String.eqb (filePath s) ""); [exact Hfind|].
    cbn [getTimestamp snd].
    rewrite appendLine_listing by exact Hex. exact Hfind.
Qed.

Lemma run_attached (calls : list Call) (s : Logger) (w : World) :
  Forall not_init calls ->
  attached s w ->
  attached (fst (run calls (s, w))) (snd (run calls (s, w)))
  /\ filePath (fst (run calls (s, w))) = filePath s
  /\ sessionId (fst (run calls (s, w))) = sessionId s.
Proof.
  intros Hall. revert s w.
  induction Hall as [|c calls Hc Hall IH]; intros s w Hatt; [cbn; auto|].
  rewrite run_cons.
  destruct (call_attached c s w Hc Hatt) as (Ha & Hp & Hi & _).
  rewrite (surjective_pairing (call c (s, w))).
  destruct (IH _ _ Ha) as (IHa & IHp & IHi).
  rewrite IHp, IHi. auto.
Qed.

(** What a further init-class event of the same session does to an
    attached logger. *)
Lemma reinit_attached (message : SDKMessage) (s : Logger) (w : World) :
  attached s w ->
  JS.or_string (m_session_id message) "" = sessionId s ->
  let s' := fst (handleSystemMessage message s w) in
  let w' := snd (handleSystemMessage message s w) in
  filePath s' = filePath s
  /\ sessionId s' = sessionId s
  /\ currentMessages s' = currentMessages s
  /\ currentUserInput s' = currentUserInput s
  /\ exchangeStartTs s' = exchangeStartTs s
  /\ exchangeCount s' = getLastExchangeNumber (dir w) (filePath s)
  /\ contentOf (dir w') (filePath s)
     = withoutTrailingEnd (contentOf (dir w) (filePath s))
  /\ (forall other, other <> filePath s ->
        Fs.readFileSync (dir w') other = Fs.readFileSync (dir w) other)
  /\ Fs.readdirSync (dir w') = Fs.readdirSync (dir w)
  /\ tick w' = tick w.
Proof.
  intros Hatt Hsid. cbv zeta.
  pose proof (attached_exists s w Hatt) as Hex.
  destruct Hatt as [Hne Hfind]. rewrite <- Hsid in Hfind.
  destruct (handleSystemMessage_existing message s w (filePath s) Hfind)
    as (Hp & Hi & Hc & Hm & Hu & Ht & Hw).
  destruct (Fs.readFileSync (dir w) (filePath s)) as [lines|] eqn:Hread;
    [|congruence].
  destruct (removeLastSessionEnd_effect (filePath s) w lines Hne Hread)
    as (Hr & Ho & Hd & _ & Htick).
  rewrite Hw. unfold contentOf. rewrite Hr, Hread.
  repeat split; try assumption; congruence.
Qed.

(** ** What an init-class event loads *)

Lemma lastSessionEnd_none (lines : list Line) :
  endsOf lines = [] -> lastSessionEnd (rev lines) = None.
Proof.
  intros He.
  assert (endsOf (rev lines) = []) as Hr by (rewrite endsOf_rev, He; reflexivity).
  clear He. induction (rev lines) as [|x l IH]; [reflexivity|].
  destruct x; cbn in *; try discriminate; try reflexivity; apply IH; exact Hr.
Qed.

Lemma lastSessionEnd_found (pre post : list Line) (summary : SessionEnd) :
  endsOf post = [] ->
  (~ In Corrupt post ->
   lastSessionEnd (rev (pre ++ LEnd summary :: post)) = Some summary)
  /\ (In Corrupt post ->
      lastSessionEnd (rev (pre ++ LEnd summary :: post)) = None).
Proof.
  intros Hends.
  rewrite rev_app_distr. cbn [rev]. rewrite <- app_assoc. cbn [app].
  assert (endsOf (rev post) = []) as Hrev by (rewrite endsOf_rev, Hends; reflexivity).
  split; intros Hc.
  - rewrite lastSessionEnd_skip;
      [reflexivity | exact Hrev | intros H; apply Hc, in_rev; exact H].
  - apply lastSessionEnd_blocked; [exact Hrev|].
    apply in_rev. rewrite rev_involutive. exact Hc.
Qed.

Lemma loadPreviousSessionStats_none (d : Dir) (path : string) (s : Logger)
  (lines : list Line) :
  Fs.readFileSync d path = Some lines ->
  lastSessionEnd (rev lines) = None ->
  loadPreviousSessionStats d path s = s.
Proof.
  intros Hread Hnone. unfold loadPreviousSessionStats.
  rewrite Hread, Hnone. reflexivity.
Qed.

Lemma loadPreviousSessionStats_some (d : Dir) (path : string) (s : Logger)
  (lines : list Line) (prior : SessionEnd) :
  Fs.readFileSync d path = Some lines ->
  lastSessionEnd (rev lines) = Some prior ->
  totals_loaded (loadPreviousSessionStats d path s) s prior.
Proof.
  intros Hread Hsome. unfold loadPreviousSessionStats, totals_loaded.
  rewrite Hread, Hsome. cbn. rewrite !or0_id.
  split; [reflexivity|]. split; [reflexivity|]. split; [apply or0Q_eq|].
  split; [reflexivity|]. split.
  - intros tools name ->. cbn [assignTools].
    destruct (tools !! name) as [n|] eqn:E.
    + apply lookup_union_Some_l. exact E.
    + apply lookup_union_r. exact E.
  - intros ->. reflexivity.
Qed.

(** What an init-class event loads from the file it adopts, told from
    the content of the file: the totals of its last session_end record
    when every line after that record parses, nothing otherwise. *)
Lemma handleSystemMessage_loads
  (message : SDKMessage) (s : Logger) (w : World) (path : string) :
  findExistingSessionFile (dir w) (JS.or_string (m_session_id message) "")
  = Some path ->
  let s' := fst (handleSystemMessage message s w) in
  (endsOf (contentOf (dir w) path) = [] -> totals_kept s' s)
  /\ (forall pre prior post,
        contentOf (dir w) path = pre ++ LEnd prior :: post ->
        endsOf post = [] ->
        (~ In Corrupt post -> totals_loaded s' s prior)
        /\ (In Corrupt post -> totals_kept s' s)).
Proof.
  intros Hfind. cbv zeta.
  destruct (find_exists _ _ _ Hfind) as (Hex & _ & _).
  unfold handleSystemMessage. rewrite Hfind. cbn [fst].
  unfold contentOf.
  destruct (Fs.readFileSync (dir w) path) as [lines|] eqn:Hread; [|congruence].
  set (s2 := {| sessionId := JS.or_string (m_session_id message) "";
                filePath := path |}).
  assert (totals_kept s2 s) as Hkept by (unfold totals_kept; cbn; tauto).
  split.
  - intros Hends.
    rewrite (loadPreviousSessionStats_none _ _ s2 lines Hread
               (lastSessionEnd_none lines Hends)).
    exact Hkept.
  - intros pre prior post -> Hends.
    destruct (lastSessionEnd_found pre post prior Hends) as [Hsome Hnone].
    split; intros Hc.
    + pose proof (loadPreviousSessionStats_some _ _ s2 _ prior Hread (Hsome Hc))
        as Hl.
      unfold totals_loaded in *. cbn [s2 toolsUsed] in Hl. exact Hl.
    + rewrite (loadPreviousSessionStats_none _ _ s2 _ Hread (Hnone Hc)).
      exact Hkept.
Qed.

(** An init-class event of a session without a file loads nothing. *)
Lemma handleSystemMessage_keeps (message : SDKMessage) (s : Logger) (w : World) :
  findExistingSessionFile (dir w) (JS.or_string (m_session_id message) "") = None ->
  totals_kept (fst (handleSystemMessage message s w)) s.
Proof.
  intros Hfind. unfold handleSystemMessage, totals_kept. rewrite Hfind.
  cbn. tauto.
Qed.

Lemma handleSystemMessage_clock (message : SDKMessage) (s : Logger) (w : World) :
  clock (snd (handleSystemMessage message s w)) = clock w.
Proof.
  destruct (findExistingSessionFile (dir w) (JS.or_string (m_session_id message) ""))
    as [path|] eqn:Hfind.
  - destruct (handleSystemMessage_existing message s w path Hfind)
      as (_ & _ & _ & _ & _ & _ & ->).
    destruct (find_exists _ _ _ Hfind) as (Hex & _ & Hne).
    destruct (Fs.readFileSync (dir w) path) as [lines|] eqn:Hread; [|congruence].
    apply (removeLastSessionEnd_effect path w lines Hne Hread).
  - apply (handleSystemMessage_new message s w Hfind).
Qed.

(** ** The calls before the init-class event *)

Lemma run_silent (calls : list Call) (s : Logger) (w : World) :
  Forall silent calls ->
  let s' := fst (run calls (s, w)) in
  let w' := snd (run calls (s, w)) in
  dir w' = dir w /\ clock w' = clock w
  /\ filePath s' = filePath s
  /\ totalDurationMs s' = totalDurationMs s
  /\ totalDurationApiMs s' = totalDurationApiMs s
  /\ lastExchangeTokens s' = lastExchangeTokens s.
Proof.
  intros Hall. revert s w.
  induction Hall as [|c calls Hc Hall IH]; intros s w; [cbn; tauto|].
  rewrite run_cons. cbv zeta.
  destruct (silent_effect c s w Hc) as (Hd & Hck & Hp & _ & H1 & H2 & _ & H4).
  destruct (call c (s, w)) as [s1 w1]. cbn [fst snd] in *.
  destruct (IH s1 w1) as (I1 & I2 & I3 & I4 & I5 & I6).
  repeat split; congruence.
Qed.

(** A new logger that has served silent calls only: nothing is written
    and the totals are still zero. *)
Lemma opening_effect (calls : list Call) (w : World) :
  Forall silent calls ->
  let s0 := fst (run calls (createSessionLogger, w)) in
  let w0 := snd (run calls (createSessionLogger, w)) in
  dir w0 = dir w /\ clock w0 = clock w
  /\ totalDurationMs s0 = 0
  /\ totalDurationApiMs s0 = 0
  /\ lastExchangeTokens s0 = zeroTokens.
Proof.
  intros Hall. cbv zeta.
  destruct (run_silent calls createSessionLogger w Hall)
    as (H1 & H2 & _ & H3 & H4 & H5).
  repeat split; assumption.
Qed.

(** ** The summary written by [close] *)




Lemma summarised_snoc (lines : list Line) (s : Logger) (ts : string) :
  totalDurationMs s = sumDurationMs (statsOfFile lines) ->
  totalDurationApiMs s = sumDurationApiMs (statsOfFile lines) ->
  summarised (lines ++ [LEnd (summaryOf s ts)]).
Proof.
  intros H1 H2. exists (summaryOf s ts).
  rewrite statsOfFile_app. cbn [statsOfFile exchangesOf map].
  rewrite app_nil_r. cbn [summaryOf se_total_duration_ms
    se_total_duration_api_ms].
  split; [apply last_snoc|]. auto.
Qed.

(** A logger whose duration totals are zero observes the init-class
    event of a session whose file, if there is one, is summarised; it
    serves calls and is closed.  The file is summarised again, and the
    next lifetime of the session finds it. *)
Lemma resumed_totals
  (message : SDKMessage) (calls : list Call) (s0 : Logger) (w0 : World) :
  is_init message = true ->
  Forall not_init calls ->
  totalDurationMs s0 = 0 ->
  totalDurationApiMs s0 = 0 ->
  let sid := JS.or_string (m_session_id message) "" in
  (forall path,
     findExistingSessionFile (dir w0) sid = Some path ->
     summarised (contentOf (dir w0) path)) ->
  let sw1 := run calls (log message s0 w0) in
  let sw := close (fst sw1) (snd sw1) in
  let before :=
    match findExistingSessionFile (dir w0) sid with
    | Some path => contentOf (dir w0) path
    | None => []
    end in
  let after := contentOf (dir (snd sw)) (filePath (fst sw)) in
  findExistingSessionFile (dir (snd sw)) sid = Some (filePath (fst sw))
  /\ summarised after
  /\ statsOfFile after = statsOfFile before ++ map statsOf (resultsOf calls).
Proof.
  intros Hinit Hcalls Hz1 Hz2. cbv zeta. intros Hprior.
  rewrite log_classify, (classify_init _ Hinit).
  pose proof (handleSystemMessage_attached message s0 w0) as Hatt.
  destruct (handleSystemMessage_state message s0 w0) as (Hid & _).
  assert (exists lines1,
    contentOf (dir (snd (handleSystemMessage message s0 w0)))
              (filePath (fst (handleSystemMessage message s0 w0)))
    = lines1
    /\ statsOfFile lines1
       = statsOfFile
           match findExistingSessionFile (dir w0)
                   (JS.or_string (m_session_id message) "") with
           | Some path => contentOf (dir w0) path
           | None => []
           end
    /\ totalDurationMs (fst (handleSystemMessage message s0 w0))
       = sumDurationMs (statsOfFile lines1)
    /\ totalDurationApiMs (fst (handleSystemMessage message s0 w0))
       = sumDurationApiMs (statsOfFile lines1)) as (lines1 & Hl1 & Hst & H1 & H2).
  { destruct (findExistingSessionFile (dir w0) _) as [path|] eqn:Hfind.
    - destruct (Hprior path eq_refl) as (summary & Hlast & S1 & S2).
      destruct (handleSystemMessage_loads message s0 w0 path Hfind) as [_ Hloads].
      destruct (handleSystemMessage_existing message s0 w0 path Hfind)
        as (Hp & _ & _ & _ & _ & _ & Hw).
      destruct (find_exists _ _ _ Hfind) as (Hex & _ & Hpne).
      destruct (Fs.readFileSync (dir w0) path) as [lines|] eqn:Hread; [|congruence].
      destruct (removeLastSessionEnd_effect path w0 lines Hpne Hread) as (Hr & _).
      assert (contentOf (dir w0) path = lines) as Hcont
        by (unfold contentOf; rewrite Hread; reflexivity).
      rewrite Hcont in *.
      pose proof Hlast as Hsplit. apply last_Some in Hsplit.
      destruct Hsplit as [pre Hsplit].
      destruct (Hloads pre summary [] Hsplit eq_refl) as [Hl _].
      destruct Hl as (T1 & T2 & _); [intros []|].
      exists (withoutTrailingEnd lines).
      assert (statsOfFile (withoutTrailingEnd lines) = statsOfFile lines) as Heq.
      { unfold statsOfFile.
        rewrite (proj1 (withoutTrailingEnd_exchanges lines)). reflexivity. }
      rewrite Hp, Hw, Heq, T1, T2.
      unfold contentOf at 1. rewrite Hr. auto.
    - destruct (handleSystemMessage_keeps message s0 w0 Hfind) as (T1 & T2 & _).
      destruct (handleSystemMessage_new message s0 w0 Hfind)
        as (Hp & _ & Hc & _).
      eexists. rewrite Hp, Hc, T1, T2, Hz1, Hz2. cbn. repeat split. }
  destruct (handleSystemMessage message s0 w0) as [s1 w1].
  cbn [fst snd] in *.
  pose proof Hatt as [Hne _].
  destruct (run_without_init calls s1 w1 Hcalls Hne)
    as (Hp & _ & _ & _ & R1 & R2 & R4 & _).
  destruct (run_attached calls s1 w1 Hcalls Hatt) as (Hatt2 & _ & Hid2).
  destruct (run calls (s1, w1)) as [s2 w2]. cbn [fst snd] in *.
  assert (filePath s2 <> "") as Hne2 by congruence.
  destruct (close_effect s2 w2 Hne2) as (Hs & Hc & _).
  destruct (call_attached CallClose s2 w2 I Hatt2) as ([_ Hfind3] & _).
  cbn [call fst snd] in Hfind3.
  rewrite Hs in Hfind3 |- *. rewrite Hc, Hp.
  rewrite Hl1 in R4.
  split; [congruence|]. split.
  - apply summarised_snoc.
    + rewrite R1, R4, sumDurationMs_app, H1. reflexivity.
    + rewrite R2, R4, sumDurationApiMs_app, H2. reflexivity.
  - rewrite statsOfFile_app, R4, Hst. cbn. apply app_nil_r.
Qed.

(** One lifetime keeps the file summarised, and leaves it where the next
    lifetime of the session finds it. *)
Lemma lifetime_totals (l : Lifetime) (w0 : World) (sid : string) :
  lifetimeOf sid l ->
  (forall path,
     findExistingSessionFile (dir w0) sid = Some path ->
     summarised (contentOf (dir w0) path)) ->
  let sw := lifetime l w0 in
  let before :=
    match findExistingSessionFile (dir w0) sid with
    | Some path => contentOf (dir w0) path
    | None => []
    end in
  let after := contentOf (dir (snd sw)) (filePath (fst sw)) in
  findExistingSessionFile (dir (snd sw)) sid = Some (filePath (fst sw))
  /\ summarised after
  /\ statsOfFile after = statsOfFile before ++ map statsOf (resultsOf (serving l)).
Proof.
  destruct l as [pre message calls]. unfold lifetimeOf, lifetime, unclosed.
  cbn [opening initEvent serving].
  intros (Hpre & Hinit & <- & Hcalls) Hprior. cbv zeta.
  destruct (opening_effect pre w0 Hpre) as (Hd & _ & Hz1 & Hz2 & _).
  destruct (run pre (createSessionLogger, w0)) as [s0 w0']. cbn [fst snd] in *.
  rewrite <- Hd in *.
  apply (resumed_totals message calls s0 w0' Hinit Hcalls Hz1 Hz2 Hprior).
Qed.

Lemma runSession_totals (sid : string) (ls : list Lifetime) (w : World) (path : string) :
  Forall (lifetimeOf sid) ls ->
  findExistingSessionFile (dir w) sid = Some path ->
  summarised (contentOf (dir w) path) ->
  exists path',
    findExistingSessionFile (dir (runSession ls w)) sid = Some path'
    /\ summarised (contentOf (dir (runSession ls w)) path')
    /\ statsOfFile (contentOf (dir (runSession ls w)) path')
       = statsOfFile (contentOf (dir w) path) ++ sessionResults ls.
Proof.
  intros Hall. revert w path.
  induction Hall as [|l ls Hl Hall IH]; intros w path Hfind Hsum.
  - exists path. cbn. rewrite app_nil_r. auto.
  - destruct (lifetime_totals l w sid Hl) as (F & S & E).
    { intros p Hp. congruence. }
    cbv zeta in E. rewrite Hfind in E.
    destruct (IH _ _ F S) as (path' & F' & S' & E').
    exists path'.
    change (runSession (l :: ls) w) with (runSession ls (snd (lifetime l w))).
    split; [exact F'|]. split; [exact S'|].
    rewrite E', E. unfold sessionResults. cbn [map concat].
    rewrite map_app, app_assoc. reflexivity.
Qed.




(** ** Resumption *)

(** C1, as the code has it.  An init-class event whose session has a log
    file makes the logger adopt that file: no file is created and no
    session_start is written, the only change to the directory is that
    the trailing session_end line of the file, if it has one, is removed.
    When every line of the file parses, the exchange counter is set to
    the highest exchange ordinal recorded in it, so that the next
    exchange begun gets the next ordinal; when a line does not parse,
    the counter is set to 0. *)
Theorem resumption_adopts_file
  (message : SDKMessage) (s : Logger) (w : World) (path : string)
  (userText : string) :
  is_init message = true ->
  findExistingSessionFile (dir w) (JS.or_string (m_session_id message) "")
  = Some path ->
  let lines := contentOf (dir w) path in
  let s' := fst (log message s w) in
  let w' := snd (log message s w) in
  filePath s' = path
  /\ Fs.readdirSync (dir w') = Fs.readdirSync (dir w)
  /\ (forall other, other <> path ->
        Fs.readFileSync (dir w') other = Fs.readFileSync (dir w) other)
  /\ Fs.readFileSync (dir w') path = Some (withoutTrailingEnd lines)
  /\ startsOf (withoutTrailingEnd lines) = startsOf lines
  /\ exchangesOf (withoutTrailingEnd lines) = exchangesOf lines
  /\ tick w' = tick w
  /\ (~ In Corrupt lines ->
      exchangeCount s' = highestOrdinal lines
      /\ exchangeCount (fst (logUserInput userText s' w'))
         = highestOrdinal lines + 1)
  /\ (In Corrupt lines -> exchangeCount s' = 0).
Proof.
  intros Hinit Hfind. cbv zeta.
  rewrite log_classify, (classify_init _ Hinit).
  destruct (handleSystemMessage_existing message s w path Hfind)
    as (Hp & _ & Hcount & _ & _ & _ & Hw).
  destruct (find_exists _ _ _ Hfind) as (Hex & _ & Hne).
  unfold contentOf.
  destruct (Fs.readFileSync (dir w) path) as [lines|] eqn:Hread; [|congruence].
  destruct (removeLastSessionEnd_effect path w lines Hne Hread)
    as (Hr & Hother & Hd & _ & Htick).
  destruct (withoutTrailingEnd_exchanges lines) as [Hex' Hst].
  rewrite Hw. do 7 (split; [assumption|]). split.
  - intros Hparsed.
    rewrite (getLastExchangeNumber_parsed _ _ _ Hread Hparsed) in Hcount.
    split; [exact Hcount|].
    unfold logUserInput. cbn. rewrite Hcount. reflexivity.
  - intros Hcorrupt. rewrite Hcount. unfold getLastExchangeNumber.
    rewrite Hread, (scanExchanges_corrupt _ _ Hcorrupt). reflexivity.
Qed.

Lemma resumption_adopts_file_witness :
  let s' := fst (log Sample.init createSessionLogger
                   (Sample.worldWith Sample.closedFile)) in
  let w' := snd (log Sample.init createSessionLogger
                   (Sample.worldWith Sample.closedFile)) in
  filePath s' = Sample.fileName
  /\ Fs.readFileSync (dir w') Sample.fileName
     = Some [LStart Sample.start; LExchange (Sample.exchange 1)]
  /\ exchangeCount s' = 1
  /\ exchangeCount (fst (logUserInput "again" s' w')) = 2.
Proof.
  pose proof (resumption_adopts_file Sample.init createSessionLogger
    (Sample.worldWith Sample.closedFile) Sample.fileName
    "again" eq_refl eq_refl) as H.
  cbv zeta in H.
  destruct H as (H1 & _ & _ & H2 & _ & _ & _ & H3 & _).
  destruct H3 as [H3 H4].
  { intros [H|[H|[H|[]]]]; discriminate H. }
  cbv zeta. repeat split; assumption.
Defined.

(** Counterexample to C1 as stated: on a file with a line that does not
    parse, the counter is not set to the highest recorded ordinal. *)
Lemma resumption_on_corrupt_file :
  findExistingSessionFile (dir (Sample.worldWith crashedFile)) Sample.sid
  = Some Sample.fileName
  /\ highestOrdinal (contentOf (dir (Sample.worldWith crashedFile)) Sample.fileName)
     = 2
  /\ exchangeCount
       (fst (log Sample.init createSessionLogger (Sample.worldWith crashedFile)))
     = 0
  /\ exchangeCount
       (fst (log Sample.init createSessionLogger (Sample.worldWith crashedFile)))
     <> highestOrdinal
          (contentOf (dir (Sample.worldWith crashedFile)) Sample.fileName).
Proof. repeat split. discriminate. Qed.

(** ** A second init-class event *)




(** ** Exchange records and result events *)

Lemma init_not_result (message : SDKMessage) :
  is_init message = true -> is_result message = false.
Proof.
  unfold is_init, is_result. intros H.
  apply andb_true_iff in H. destruct H as [H _].
  apply (is_type_unique message "system" "result" H). discriminate.
Qed.

(** An init-class event writes no exchange record. *)
Lemma init_exchanges (message : SDKMessage) (s : Logger) (w : World) :
  let s' := fst (handleSystemMessage message s w) in
  let w' := snd (handleSystemMessage message s w) in
  exchangesOf (contentOf (dir w') (filePath s'))
  = exchangesOf (contentOf (dir w) (filePath s')).
Proof.
  cbv zeta.
  destruct (findExistingSessionFile (dir w) (JS.or_string (m_session_id message) ""))
    as [path|] eqn:Hfind.
  - destruct (handleSystemMessage_existing message s w path Hfind)
      as (Hp & _ & _ & _ & _ & _ & Hw).
    destruct (find_exists _ _ _ Hfind) as (Hex & _ & Hne).
    destruct (Fs.readFileSync (dir w) path) as [lines|] eqn:Hread; [|congruence].
    destruct (removeLastSessionEnd_effect path w lines Hne Hread) as (Hr & _).
    rewrite Hp, Hw. unfold contentOf. rewrite Hr, Hread.
    apply withoutTrailingEnd_exchanges.
  - destruct (handleSystemMessage_new message s w Hfind) as (Hp & _ & Hc & _).
    rewrite Hp, Hc. unfold contentOf.
    rewrite (find_none_absent _ _ _ Hfind (newFileName_endsWith _ _)).
    reflexivity.
Qed.

Lemma run_same_session (sid : string) (calls : list Call) (s : Logger) (w : World) :
  Forall (same_session sid) calls ->
  attached s w ->
  sessionId s = sid ->
  let s' := fst (run calls (s, w)) in
  let w' := snd (run calls (s, w)) in
  filePath s' = filePath s
  /\ length (exchangesOf (contentOf (dir w') (filePath s)))
     = (length (exchangesOf (contentOf (dir w) (filePath s)))
        + length (resultsOf calls))%nat.
Proof.
  intros Hall. revert s w.
  induction Hall as [|c calls Hc Hall IH]; intros s w Hatt Hsid.
  - cbn. split; [reflexivity | lia].
  - rewrite run_cons. cbv zeta.
    assert (attached (fst (call c (s, w))) (snd (call c (s, w)))
            /\ filePath (fst (call c (s, w))) = filePath s
            /\ sessionId (fst (call c (s, w))) = sid
            /\ length (exchangesOf (contentOf (dir (snd (call c (s, w)))) (filePath s)))
               = (length (exchangesOf (contentOf (dir w) (filePath s)))
                  + length (resultsOf [c]))%nat
            /\ resultsOf (c :: calls) = resultsOf [c] ++ resultsOf calls)
      as (Ha & Hp & Hi & Hlen & Hres).
    { destruct c as [message | userText |].
      - destruct (is_init message) eqn:Hinit.
        + cbn [call fst snd]. rewrite log_classify, (classify_init _ Hinit).
          specialize (Hc Hinit). cbn [resultsOf].
          rewrite (init_not_result _ Hinit).
          assert (JS.or_string (m_session_id message) "" = sessionId s) as Hsame
            by congruence.
          destruct (reinit_attached message s w Hatt Hsame)
            as (H1 & H2 & _ & _ & _ & _ & H3 & _).
          split; [apply handleSystemMessage_attached|].
          rewrite H3, (proj1 (withoutTrailingEnd_exchanges _)).
          split; [exact H1|]. split; [congruence|].
          split; [cbn; lia | reflexivity].
        + destruct (call_attached (CallLog message) s w Hinit Hatt)
            as (H1 & H2 & H3 & H4).
          rewrite H4, length_app. cbn [resultsOf].
          split; [exact H1|]. split; [exact H2|]. split; [congruence|].
          destruct (is_result message); split; reflexivity.
      - destruct (call_attached (CallLogUserInput userText) s w I Hatt)
          as (H1 & H2 & H3 & H4).
        rewrite H4, length_app.
        split; [exact H1|]. split; [exact H2|]. split; [congruence|].
        split; reflexivity.
      - destruct (call_attached CallClose s w I Hatt) as (H1 & H2 & H3 & H4).
        rewrite H4, length_app.
        split; [exact H1|]. split; [exact H2|]. split; [congruence|].
        split; reflexivity. }
    rewrite (surjective_pairing (call c (s, w))).
    destruct (IH _ _ Ha Hi) as [IHp IHlen].
    rewrite Hp in IHp, IHlen.
    split; [exact IHp|].
    rewrite IHlen, Hlen, Hres, length_app. lia.
Qed.

(** C7.  After an init-class event, and for every sequence of calls in
    which each further init-class event is of the same session, the log
    file of the session holds as many more exchange records as there were
    result events. *)
Theorem exchange_records_match_results
  (first : SDKMessage) (s0 : Logger) (w0 : World) (calls : list Call) :
  is_init first = true ->
  Forall (same_session (JS.or_string (m_session_id first) "")) calls ->
  let sw1 := log first s0 w0 in
  let sw2 := run calls sw1 in
  let path := filePath (fst sw1) in
  filePath (fst sw2) = path
  /\ length (exchangesOf (contentOf (dir (snd sw2)) path))
     = (length (exchangesOf (contentOf (dir w0) path))
        + length (resultsOf calls))%nat.
Proof.
  intros Hinit Hcalls. cbv zeta.
  rewrite log_classify, (classify_init _ Hinit).
  pose proof (handleSystemMessage_attached first s0 w0) as Hatt.
  destruct (handleSystemMessage_state first s0 w0) as (Hid & _).
  pose proof (init_exchanges first s0 w0) as Hex. cbv zeta in Hex.
  destruct (handleSystemMessage first s0 w0) as [s1 w1].
  cbn [fst snd] in *.
  destruct (run_same_session _ calls _ _ Hcalls Hatt Hid) as [Hp Hlen].
  split; [exact Hp|]. rewrite Hlen, Hex. reflexivity.
Qed.

Lemma exchange_records_match_results_witness :
  let sw2 :=
    run [CallLogUserInput "one";
         CallLog (Sample.withBlocks "assistant" [Sample.textBlock (Some "hi")]);
         CallLog (Sample.result 100 (1 # 1000) 5 10);
         CallLog Sample.init;
         CallLog (Sample.result 250 (3 # 1000) 9 40);
         CallClose]
        (log Sample.init createSessionLogger (Sample.worldWith Sample.closedFile)) in
  length (exchangesOf (contentOf (dir (snd sw2)) Sample.fileName)) = 3%nat.
Proof.
  pose proof (exchange_records_match_results Sample.init createSessionLogger
    (Sample.worldWith Sample.closedFile)
    [CallLogUserInput "one";
     CallLog (Sample.withBlocks "assistant" [Sample.textBlock (Some "hi")]);
     CallLog (Sample.result 100 (1 # 1000) 5 10);
     CallLog Sample.init;
     CallLog (Sample.result 250 (3 # 1000) 9 40);
     CallClose]
    eq_refl) as H.
  cbv zeta in H. destruct H as [_ H].
  { repeat constructor; discriminate. }
  cbv zeta. change Sample.fileName with
    (filePath (fst (log Sample.init createSessionLogger
                      (Sample.worldWith Sample.closedFile)))).
  rewrite H. reflexivity.
Defined.

(** ** The loops over the content blocks *)

Lemma toolUses_app (name : string) (l1 l2 : list Message) :
  toolUses name (l1 ++ l2) = toolUses name l1 + toolUses name l2.
Proof. unfold toolUses. rewrite List.filter_app, length_app. lia. Qed.

Lemma countTool_lookup (used name : string) (tools : gmap string Z) :
  JS.or_zero (countTool used tools !! name)
  = JS.or_zero (tools !! name) + (if String.eqb used name then 1 else 0).
Proof.
  unfold countTool. destruct (String.eqb_spec used name) as [->|Hne].
  - rewrite lookup_insert_eq. cbn [JS.or_zero]. apply or0_id.
  - rewrite lookup_insert_ne by exact Hne. lia.
Qed.

Lemma toolUses_other (name : string) (m : Message) :
  msg_type m <> "tool_use" -> toolUses name [m] = 0.
Proof.
  intros H. unfold toolUses, is_tool_use. cbn [List.filter].
  destruct (String.eqb_spec (msg_type m) "tool_use"); [contradiction|].
  reflexivity.
Qed.

(** One round of the loop of [handleAssistantMessage]. *)
Lemma assistantBlock_event (ts : string) (messages : list Message)
  (tools : gmap string Z) (block : Block) (name : string) :
  fst (assistantBlock ts (messages, tools) block)
  = messages ++ option_list (assistantEvent ts block)
  /\ JS.or_zero (snd (assistantBlock ts (messages, tools) block) !! name)
     = JS.or_zero (tools !! name)
       + toolUses name (option_list (assistantEvent ts block)).
Proof.
  unfold assistantBlock, assistantEvent.
  destruct (String.eqb (b_type block) "text" && JS.truthy (b_text block)).
  - cbn [fst snd option_list option_rect]. split; [reflexivity|].
    rewrite toolUses_other by discriminate. lia.
  - destruct (String.eqb (b_type block) "tool_use" && JS.truthy (b_id block)
              && JS.truthy (b_name block)) eqn:E.
    + cbn [fst snd option_list option_rect]. split; [reflexivity|].
      rewrite countTool_lookup. f_equal.
      unfold toolUses, is_tool_use. cbn [List.filter msg_type msg_name].
      change (String.eqb "tool_use" "tool_use") with true. cbn [andb].
      apply andb_true_iff in E. destruct E as [_ E].
      destruct (b_name block) as [n|]; [|discriminate E].
      cbn [JS.truthy] in E. unfold JS.or_string.
      destruct (String.eqb n ""); [discriminate E|].
      destruct (String.eqb n name); reflexivity.
    + cbn [fst snd option_list option_rect]. rewrite app_nil_r.
      split; [reflexivity|]. change (toolUses name []) with 0. lia.
Qed.

Lemma assistantLoop_events (ts : string) (content : list Block)
  (messages : list Message) (tools : gmap string Z) (name : string) :
  fst (fold_left (assistantBlock ts) content (messages, tools))
  = messages ++ omap (assistantEvent ts) content
  /\ JS.or_zero (snd (fold_left (assistantBlock ts) content (messages, tools)) !! name)
     = JS.or_zero (tools !! name)
       + toolUses name (omap (assistantEvent ts) content).
Proof.
  revert messages tools.
  induction content as [|block content IH]; intros messages tools.
  - cbn [fold_left omap list_omap fst snd]. rewrite app_nil_r.
    split; [reflexivity|]. change (toolUses name []) with 0. lia.
  - cbn [fold_left omap list_omap].
    destruct (assistantBlock_event ts messages tools block name) as [H1 H2].
    destruct (assistantBlock ts (messages, tools) block) as [messages1 tools1].
    cbn [fst snd] in *.
    destruct (IH messages1 tools1) as [I1 I2].
    rewrite I1, I2, H1, H2.
    destruct (assistantEvent ts block) as [e|]; cbn [option_list option_rect].
    + rewrite <- app_assoc. split; [reflexivity|].
      change (e :: omap (assistantEvent ts) content)
        with ([e] ++ omap (assistantEvent ts) content).
      rewrite toolUses_app. lia.
    + rewrite app_nil_r. split; [reflexivity|].
      change (toolUses name []) with 0. lia.
Qed.

Lemma userBlock_event (ts : string) (messages : list Message) (block : Block)
  (name : string) :
  userBlock ts messages block = messages ++ option_list (userEvent ts block)
  /\ toolUses name (option_list (userEvent ts block)) = 0.
Proof.
  unfold userBlock, userEvent.
  destruct (String.eqb (b_type block) "tool_result"
            && JS.truthy (b_tool_use_id block));
    cbn [option_list option_rect].
  - split; [reflexivity|]. apply toolUses_other. discriminate.
  - rewrite app_nil_r. split; reflexivity.
Qed.

Lemma userLoop_events (ts : string) (content : list Block)
  (messages : list Message) (name : string) :
  fold_left (userBlock ts) content messages
  = messages ++ omap (userEvent ts) content
  /\ toolUses name (omap (userEvent ts) content) = 0.
Proof.
  revert messages.
  induction content as [|block content IH]; intros messages.
  - cbn. rewrite app_nil_r. split; reflexivity.
  - cbn [fold_left omap list_omap].
    destruct (IH (userBlock ts messages block)) as [I1 I2]. rewrite I1.
    destruct (userBlock_event ts messages block name) as [H1 H2]. rewrite H1.
    destruct (userEvent ts block) as [e|]; cbn [option_list option_rect] in *.
    + rewrite <- app_assoc. split; [reflexivity|].
      change (e :: omap (userEvent ts) content)
        with ([e] ++ omap (userEvent ts) content).
      rewrite toolUses_app, H2, I2. reflexivity.
    + rewrite app_nil_r. split; [reflexivity | exact I2].
Qed.

(** ** A result event without a begun exchange *)

Lemma call_no_begin (c : Call) (s : Logger) (w : World) :
  no_begin c ->
  let s' := fst (call c (s, w)) in
  filePath s' = filePath s
  /\ exchangeCount s' = exchangeCount s
  /\ (currentUserInput s = "" -> currentUserInput s' = "")
  /\ (exchangeStartTs s = "" -> exchangeStartTs s' = "")
  /\ (no_subevent c -> currentMessages s = [] -> currentMessages s' = []).
Proof.
  destruct c as [message | userText |]; cbn [no_begin no_subevent call fst snd];
    [intros Hni | contradiction | intros _].
  - rewrite log_classify. pose proof (classify_not_init message Hni) as Hk.
    destruct (classify message); try contradiction.
    + destruct (handleAssistantMessage_effect message s w)
        as (messages & tools & -> & _). cbn. tauto.
    + destruct (handleUserMessage_effect message s w) as (messages & -> & _).
      cbn. tauto.
    + cbn. tauto.
    + cbn. tauto.
  - unfold close. destruct (String.eqb (filePath s) ""); cbn; tauto.
Qed.

Lemma run_no_begin (calls : list Call) (s : Logger) (w : World) :
  Forall no_begin calls ->
  let s' := fst (run calls (s, w)) in
  filePath s' = filePath s
  /\ exchangeCount s' = exchangeCount s
  /\ (currentUserInput s = "" -> currentUserInput s' = "")
  /\ (exchangeStartTs s = "" -> exchangeStartTs s' = "")
  /\ (Forall no_subevent calls -> currentMessages s = [] -> currentMessages s' = []).
Proof.
  intros Hall. revert s w.
  induction Hall as [|c calls Hc Hall IH]; intros s w; [cbn; tauto|].
  rewrite run_cons. cbv zeta.
  destruct (call_no_begin c s w Hc) as (H1 & H2 & H3 & H4 & H5).
  rewrite (surjective_pairing (call c (s, w))).
  destruct (IH (fst (call c (s, w))) (snd (call c (s, w))))
    as (I1 & I2 & I3 & I4 & I5).
  rewrite I1, I2, H1, H2.
  repeat split; auto.
  intros Hq Hm. apply List.Forall_cons_iff in Hq. destruct Hq as [Hq1 Hq2]. auto.
Qed.

Lemma run_app (a b : list Call) (sw : Logger * World) :
  run (a ++ b) sw = run b (run a sw).
Proof. unfold run. apply fold_left_app. Qed.

Lemma no_begin_not_init (calls : list Call) :
  Forall no_begin calls -> Forall not_init calls.
Proof.
  intros H. eapply List.Forall_impl; [|exact H].
  intros [message| |]; cbn; auto.
Qed.

Lemma buffering_no_begin (calls : list Call) :
  Forall buffering calls -> Forall no_begin calls.
Proof.
  intros H. eapply List.Forall_impl; [|exact H].
  intros [message| |]; cbn; auto.
  destruct (is_init message) eqn:E; [|reflexivity].
  rewrite (classify_init _ E). contradiction.
Qed.

(** What one call that neither begins nor completes an exchange adds to
    the buffer of an initialized logger. *)
Lemma call_buffering (c : Call) (s : Logger) (w : World) :
  buffering c ->
  filePath s <> "" ->
  let s' := fst (call c (s, w)) in
  let w' := snd (call c (s, w)) in
  filePath s' = filePath s
  /\ clock w' = clock w
  /\ forall rest,
       currentMessages s ++ bufferedBy (clock w) (tick w) (c :: rest)
       = currentMessages s' ++ bufferedBy (clock w) (tick w') rest.
Proof.
  intros Hb Hne. cbv zeta.
  destruct c as [message | userText |]; cbn [buffering call fst snd] in *;
    [|contradiction|].
  - rewrite log_classify. cbn [bufferedBy].
    destruct (classify message); try contradiction.
    + unfold handleAssistantMessage.
      destruct (m_content message) as [content|]; [|cbn; auto].
      cbn [getTimestamp].
      destruct (assistantLoop_events (clock w (tick w)) content
                  (currentMessages s) (toolsUsed s) "") as [H _].
      destruct (fold_left _ content _) as [messages tools].
      cbn [fst snd with_buffer filePath currentMessages clock tick] in *.
      split; [reflexivity|]. split; [reflexivity|].
      intros rest. rewrite H, <- app_assoc. reflexivity.
    + unfold handleUserMessage.
      destruct (m_content message) as [content|]; [|cbn; auto].
      cbn [getTimestamp fst snd with_buffer filePath currentMessages clock tick].
      destruct (userLoop_events (clock w (tick w)) content (currentMessages s) "")
        as [H _].
      split; [reflexivity|]. split; [reflexivity|].
      intros rest. rewrite H, <- app_assoc. reflexivity.
    + destruct (m_content message); cbn; auto.
  - destruct (close_effect s w Hne) as (Hs & _ & Hk & Ht).
    rewrite Hs, Hk, Ht. cbn [bufferedBy]. auto.
Qed.

Lemma run_buffering (calls : list Call) (s : Logger) (w : World) :
  Forall buffering calls ->
  filePath s <> "" ->
  currentMessages (fst (run calls (s, w)))
  = currentMessages s ++ bufferedBy (clock w) (tick w) calls.
Proof.
  intros Hall. revert s w.
  induction Hall as [|c calls Hc Hall IH]; intros s w Hne.
  - cbn. rewrite app_nil_r. reflexivity.
  - rewrite run_cons.
    destruct (call_buffering c s w Hc Hne) as (Hp & Hk & Hstep).
    destruct (call c (s, w)) as [s1 w1]. cbn [fst snd] in *.
    rewrite (Hstep calls), IH by congruence.
    rewrite Hk. reflexivity.
Qed.

(** C8, as the code has it.  A new logger observes an init-class event
    and then calls among which there is neither a further init-class
    event nor a [logUserInput]; [before] are those up to the last result
    event among them, [between] those that follow it.  A result event
    then appends one exchange record: its ordinal is the exchange
    counter, which is still what the init-class event set (0 when the
    session had no file), its [user_input] and [ts_start] are empty, its
    statistics are those of the event, and its messages are, in arrival
    order, the sub-events of the assistant and user messages logged
    since the previous result event, or since the logger was created
    when there is none.  The list is empty when no such message was
    logged. *)
Theorem result_without_begin
  (first result : SDKMessage) (w0 : World) (before between : list Call) :
  is_init first = true ->
  is_result result = true ->
  Forall no_begin before ->
  before = []
  \/ (exists earlier previous,
        before = earlier ++ [CallLog previous] /\ is_result previous = true) ->
  Forall buffering between ->
  let sw0 := log first createSessionLogger w0 in
  let sw1 := run before sw0 in
  let sw2 := run between sw1 in
  let sw3 := log result (fst sw2) (snd sw2) in
  exists record,
    contentOf (dir (snd sw3)) (filePath (fst sw2))
    = contentOf (dir (snd sw2)) (filePath (fst sw2)) ++ [LExchange record]
    /\ ex_exchange record = exchangeCount (fst sw2)
    /\ exchangeCount (fst sw2) = exchangeCount (fst sw0)
    /\ (findExistingSessionFile (dir w0) (JS.or_string (m_session_id first) "")
        = None -> ex_exchange record = 0)
    /\ ex_user_input record = ""
    /\ ex_ts_start record = ""
    /\ ex_stats record = statsOf result
    /\ ex_messages record = bufferedBy (clock w0) (tick (snd sw1)) between
    /\ (Forall no_subevent between -> ex_messages record = []).
Proof.
  intros Hinit Hresult Hbefore Hlast Hbetween. cbv zeta.
  rewrite (log_classify first), (classify_init _ Hinit).
  destruct (handleSystemMessage_attached first createSessionLogger w0) as [Hne _].
  destruct (handleSystemMessage_state first createSessionLogger w0)
    as (_ & Hm & Hu & Ht & _).
  pose proof (handleSystemMessage_new first createSessionLogger w0) as Hnew.
  pose proof (handleSystemMessage_clock first createSessionLogger w0) as Hclock.
  cbv zeta in Hnew.
  destruct (handleSystemMessage first createSessionLogger w0) as [s1 w1].
  cbn [fst snd] in *.
  destruct (run_no_begin before s1 w1 Hbefore) as (R1 & R2 & R3 & R4 & _).
  destruct (run_without_init before s1 w1 (no_begin_not_init _ Hbefore) Hne)
    as (_ & _ & Hck & _).
  assert (currentMessages (fst (run before (s1, w1))) = []) as Hempty.
  { destruct Hlast as [-> | (earlier & previous & -> & Hprev)]; [exact Hm|].
    rewrite run_app. cbn [run fold_left call].
    rewrite log_classify, (proj2 (classify_result previous) Hprev).
    reflexivity. }
  destruct (run before (s1, w1)) as [s2 w2]. cbn [fst snd] in *.
  assert (filePath s2 <> "") as Hne2 by congruence.
  pose proof (run_buffering between s2 w2 Hbetween Hne2) as Hbuf.
  destruct (run_no_begin between s2 w2 (buffering_no_begin _ Hbetween))
    as (B1 & B2 & B3 & B4 & B5).
  destruct (run between (s2, w2)) as [s3 w3]. cbn [fst snd] in *.
  rewrite log_classify, (proj2 (classify_result result) Hresult).
  assert (filePath s3 <> "") as Hne3 by congruence.
  destruct (handleResultMessage_effect result s3 w3 Hne3) as (_ & Hc & _).
  exists (exchangeOf s3 (statsOf result) (clock w3 (tick w3))).
  cbn [exchangeOf ex_exchange ex_user_input ex_ts_start ex_messages ex_stats].
  split; [exact Hc|]. split; [reflexivity|]. split; [congruence|].
  split; [|split; [auto|split; [auto|split; [reflexivity|split]]]].
  - intros Hfind. destruct (Hnew Hfind) as (_ & Hcount & _).
    rewrite B2, R2, Hcount. reflexivity.
  - rewrite Hbuf, Hempty, Hck, Hclock. reflexivity.
  - intros Hq. apply B5; assumption.
Qed.

Lemma result_without_begin_witness :
  let sw1 := run [CallLog (Sample.withBlocks "assistant"
                             [Sample.textBlock (Some "first")]);
                  CallLog (Sample.result 100 (1 # 1000) 5 10)]
               (log Sample.init createSessionLogger Sample.emptyWorld) in
  let sw2 := run [CallLog (Sample.withBlocks "assistant"
                             [Sample.textBlock (Some "second")])] sw1 in
  let sw3 := log (Sample.result 50 (2 # 1000) 3 4) (fst sw2) (snd sw2) in
  exists record,
    contentOf (dir (snd sw3)) (filePath (fst sw2))
    = contentOf (dir (snd sw2)) (filePath (fst sw2)) ++ [LExchange record]
    /\ ex_exchange record = 0
    /\ ex_user_input record = ""
    /\ ex_ts_start record = ""
    /\ map msg_text (ex_messages record) = [Some "second"].
Proof.
  destruct (result_without_begin Sample.init (Sample.result 50 (2 # 1000) 3 4)
    Sample.emptyWorld
    [CallLog (Sample.withBlocks "assistant" [Sample.textBlock (Some "first")]);
     CallLog (Sample.result 100 (1 # 1000) 5 10)]
    [CallLog (Sample.withBlocks "assistant" [Sample.textBlock (Some "second")])]
    eq_refl eq_refl ltac:(repeat constructor)
    ltac:(right;
          exists [CallLog (Sample.withBlocks "assistant"
                             [Sample.textBlock (Some "first")])],
                 (Sample.result 100 (1 # 1000) 5 10);
          split; reflexivity)
    ltac:(repeat constructor))
    as (record & H1 & _ & _ & H2 & H3 & H4 & _ & H5 & _).
  exists record.
  split; [exact H1|].
  split; [apply H2; reflexivity|].
  split; [exact H3|]. split; [exact H4|].
  rewrite H5. vm_compute. reflexivity.
Defined.

(** Counterexample to C8 as stated: without a begun exchange, an
    assistant message that precedes the result event is part of the
    exchange record. *)
Lemma result_without_begin_keeps_buffer :
  map ex_messages
    (exchangesOf
       (contentOf
          (dir (snd (run [CallLog Sample.init;
                          CallLog (Sample.withBlocks "assistant"
                                     [Sample.textBlock (Some "hi")]);
                          CallLog (Sample.result 100 (1 # 1000) 5 10)]
                       (createSessionLogger, Sample.emptyWorld))))
          Sample.fileName))
  = [[{| msg_source := "assistant"; msg_type := "text";
         msg_ts := "2025-11-07T08:45:02.000Z"; msg_text := Some "hi";
         msg_tool_use_id := None; msg_name := None; msg_input := None;
         msg_is_error := None; msg_output := None |}]].
Proof. vm_compute. reflexivity. Qed.

(** * Further properties of the logger *)

(** ** Before initialization, and messages that are ignored *)

(** X1.  A logger that has no active file writes nothing, whatever is
    called short of an init-class event: the directory is as it was and
    the file path stays empty.  Result events are still folded into the
    totals, although no exchange record is written for them. *)
Theorem uninitialised_logger_writes_nothing
  (calls : list Call) (s : Logger) (w : World) :
  filePath s = "" ->
  Forall not_init calls ->
  dir (snd (run calls (s, w))) = dir w
  /\ filePath (fst (run calls (s, w))) = ""
  /\ totalDurationMs (fst (run calls (s, w)))
     = totalDurationMs s + sumDurationMs (map statsOf (resultsOf calls)).
Proof.
  intros Hempty Hall. revert s w Hempty.
  induction Hall as [|c calls Hc Hall IH]; intros s w Hempty.
  - cbn. repeat split; [exact Hempty | lia].
  - rewrite run_cons.
    destruct (call_cases c Hc) as [Hs | [(message & -> & Hk) | ->]].
    + destruct (silent_results c calls zeroTokens Hs) as [Hr _].
      destruct (silent_effect c s w Hs) as (Hd & _ & Hp & _ & H1 & _).
      destruct (call c (s, w)) as [s1 w1]. cbn [fst snd] in *.
      rewrite Hr, <- Hd, <- H1. apply IH. congruence.
    + cbn [call fst snd]. rewrite log_classify, Hk.
      apply classify_result in Hk. cbn [resultsOf map]. rewrite Hk.
      unfold handleResultMessage, appendLine. cbn [getTimestamp].
      rewrite Hempty. change (String.eqb "" "") with true. cbv iota.
      match goal with
      | |- context [run calls (?a, ?b)] => destruct (IH a b Hempty) as (I1 & I2 & I3)
      end.
      rewrite I1, I2, I3. cbn [afterExchange totalDurationMs dir].
      unfold sumDurationMs. cbn [fold_right map].
      repeat split. lia.
    + cbn [call fst snd resultsOf]. unfold close. rewrite Hempty.
      change (String.eqb "" "") with true. cbv iota. apply IH. exact Hempty.
Qed.

Lemma uninitialised_logger_writes_nothing_witness :
  let sw := run [CallLogUserInput "early";
                 CallLog (Sample.result 100 (1 # 1000) 5 10); CallClose]
              (createSessionLogger, Sample.worldWith Sample.closedFile) in
  dir (snd sw) = dir (Sample.worldWith Sample.closedFile)
  /\ filePath (fst sw) = ""
  /\ totalDurationMs (fst sw) = 100.
Proof.
  pose proof (uninitialised_logger_writes_nothing
    [CallLogUserInput "early"; CallLog (Sample.result 100 (1 # 1000) 5 10);
     CallClose]
    createSessionLogger (Sample.worldWith Sample.closedFile)
    eq_refl ltac:(repeat constructor)) as (H1 & H2 & H3).
  cbv zeta. split; [exact H1|]. split; [exact H2|]. rewrite H3. reflexivity.
Defined.

(** X2.  [log] leaves the logger and the world untouched, clock
    included, for a message without a type, for a message of a type
    other than the four it knows, for a system message whose subtype is
    not [init], and for an assistant or user message without content. *)
Theorem unhandled_messages_change_nothing
  (message : SDKMessage) (s : Logger) (w : World) :
  m_type message = None
  \/ (exists t, m_type message = Some t
        /\ t <> "system" /\ t <> "assistant" /\ t <> "user" /\ t <> "result")
  \/ (m_type message = Some "system" /\ m_subtype message <> Some "init")
  \/ ((m_type message = Some "assistant" \/ m_type message = Some "user")
      /\ m_content message = None) ->
  log message s w = (s, w).
Proof.
  unfold log, is_init, is_type.
  intros [H | [(t & H & H1 & H2 & H3 & H4) | [[H Hsub] | [[H | H] Hc]]]];
    rewrite H.
  - reflexivity.
  - rewrite !(proj2 (String.eqb_neq _ _)) by assumption. reflexivity.
  - change (String.eqb "system" "system") with true. cbn [andb].
    destruct (m_subtype message) as [x|]; [|reflexivity].
    destruct (String.eqb_spec x "init"); [subst; contradiction | reflexivity].
  - change (String.eqb "assistant" "system") with false.
    change (String.eqb "assistant" "assistant") with true. cbv iota.
    unfold handleAssistantMessage. rewrite Hc. reflexivity.
  - change (String.eqb "user" "system") with false.
    change (String.eqb "user" "assistant") with false.
    change (String.eqb "user" "user") with true. cbv iota.
    unfold handleUserMessage. rewrite Hc. reflexivity.
Qed.

Lemma unhandled_messages_change_nothing_witness :
  let sw := log Sample.init createSessionLogger Sample.emptyWorld in
  log {| m_type := Some "stream_event"; m_subtype := None;
         m_session_id := Some Sample.sid; m_model := None; m_cwd := None;
         m_tools := None; m_permissionMode := None;
         m_content := Some [Sample.textBlock (Some "partial")];
         m_num_turns := None; m_duration_ms := Some 5;
         m_duration_api_ms := None; m_total_cost_usd := None;
         m_usage := None |} (fst sw) (snd sw)
  = (fst sw, snd sw).
Proof.
  cbv zeta. apply unhandled_messages_change_nothing.
  right. left. exists "stream_event".
  repeat split; discriminate.
Defined.

(** ** Sub-events and tool counts *)

(** X3.  An assistant or user message extends the sub-event buffer at
    its end: the buffered sub-events stay, in their order, and one
    sub-event per accepted block follows, in the order of the blocks,
    all with the one reading of the clock taken for the message.  A
    user message leaves the tool counts as they are. *)
Theorem subevents_keep_arrival_order
  (message : SDKMessage) (content : list Block) (s : Logger) (w : World) :
  m_content message = Some content ->
  (m_type message = Some "assistant" ->
   currentMessages (fst (log message s w))
   = currentMessages s ++ omap (assistantEvent (clock w (tick w))) content)
  /\ (m_type message = Some "user" ->
      currentMessages (fst (log message s w))
      = currentMessages s ++ omap (userEvent (clock w (tick w))) content
      /\ toolsUsed (fst (log message s w)) = toolsUsed s).
Proof.
  intros Hc. split; intros Ht; rewrite log_classify.
  - rewrite (classify_assistant _ Ht). unfold handleAssistantMessage.
    rewrite Hc. cbn [getTimestamp].
    destruct (assistantLoop_events (clock w (tick w)) content
                (currentMessages s) (toolsUsed s) "") as [H _].
    destruct (fold_left _ content _) as [messages tools].
    cbn [fst snd with_buffer currentMessages] in *. exact H.
  - rewrite (classify_user _ Ht). unfold handleUserMessage.
    rewrite Hc. cbn [getTimestamp fst with_buffer currentMessages toolsUsed].
    split; [|reflexivity].
    apply (userLoop_events _ _ _ "").
Qed.

Lemma subevents_keep_arrival_order_witness :
  map msg_type
    (currentMessages
       (fst (log toolMessage (fst bufferedState) (snd bufferedState))))
  = ["text"; "text"; "tool_use"; "tool_use"].
Proof.
  rewrite (proj1 (subevents_keep_arrival_order toolMessage
     [Sample.textBlock (Some "let me look");
      Sample.toolUseBlock (Some "toolu_01") (Some "Read");
      Sample.toolUseBlock (Some "toolu_02") (Some "Bash")]
     (fst bufferedState) (snd bufferedState) eq_refl) eq_refl).
  reflexivity.
Defined.

Lemma recordedMessages_snoc (lines : list Line) (line : Line) :
  recordedMessages (lines ++ [line])
  = recordedMessages lines
    ++ match line with LExchange r => ex_messages r | _ => [] end.
Proof.
  unfold recordedMessages. rewrite exchangesOf_app, map_app, concat_app.
  f_equal. destruct line; cbn; rewrite ?app_nil_r; reflexivity.
Qed.

(** The tool counts move with the sub-events: what one call adds to a
    count, it adds to the sub-events that are buffered or recorded. *)
Lemma call_tool_counts (c : Call) (s : Logger) (w : World) (name : string) :
  not_init c ->
  filePath s <> "" ->
  let s' := fst (call c (s, w)) in
  let w' := snd (call c (s, w)) in
  filePath s' = filePath s
  /\ JS.or_zero (toolsUsed s' !! name)
     + (toolUses name (recordedMessages (contentOf (dir w) (filePath s)))
        + toolUses name (currentMessages s))
     = JS.or_zero (toolsUsed s !! name)
       + (toolUses name (recordedMessages (contentOf (dir w') (filePath s)))
          + toolUses name (currentMessages s')).
Proof.
  intros Hni Hne. cbv zeta.
  destruct c as [message | userText |]; cbn [call fst snd].
  - rewrite log_classify. pose proof (classify_not_init message Hni) as Hk.
    destruct (classify message) eqn:E; try contradiction.
    + unfold handleAssistantMessage.
      destruct (m_content message) as [content|];
        [|cbn [fst snd]; split; [reflexivity | lia]].
      cbn [getTimestamp].
      destruct (assistantLoop_events (clock w (tick w)) content
                  (currentMessages s) (toolsUsed s) name) as [H1 H2].
      destruct (fold_left _ content _) as [messages tools].
      cbn [fst snd with_buffer filePath toolsUsed currentMessages dir] in *.
      rewrite H1, H2, toolUses_app. split; [reflexivity | lia].
    + unfold handleUserMessage.
      destruct (m_content message) as [content|];
        [|cbn [fst snd]; split; [reflexivity | lia]].
      cbn [getTimestamp fst snd with_buffer filePath toolsUsed currentMessages dir].
      destruct (userLoop_events (clock w (tick w)) content (currentMessages s) name)
        as [H1 H2].
      rewrite H1, toolUses_app, H2. split; [reflexivity | lia].
    + destruct (handleResultMessage_effect message s w Hne) as (Hs & Hc & _).
      rewrite Hs, Hc, recordedMessages_snoc, toolUses_app.
      cbn [afterExchange filePath toolsUsed currentMessages exchangeOf ex_messages].
      split; [reflexivity|]. change (toolUses name []) with 0. lia.
    + cbn. split; [reflexivity | lia].
  - cbn. split; [reflexivity | lia].
  - destruct (close_effect s w Hne) as (Hs & Hc & _).
    rewrite Hs, Hc, recordedMessages_snoc, app_nil_r. split; [reflexivity | lia].
Qed.

Lemma run_tool_counts (calls : list Call) (s : Logger) (w : World) (name : string) :
  Forall not_init calls ->
  filePath s <> "" ->
  let s' := fst (run calls (s, w)) in
  let w' := snd (run calls (s, w)) in
  JS.or_zero (toolsUsed s' !! name)
  + (toolUses name (recordedMessages (contentOf (dir w) (filePath s)))
     + toolUses name (currentMessages s))
  = JS.or_zero (toolsUsed s !! name)
    + (toolUses name (recordedMessages (contentOf (dir w') (filePath s)))
       + toolUses name (currentMessages s')).
Proof.
  intros Hall. revert s w.
  induction Hall as [|c calls Hc Hall IH]; intros s w Hne; [cbn; lia|].
  rewrite run_cons. cbv zeta.
  destruct (call_tool_counts c s w name Hc Hne) as [Hp Hstep].
  destruct (call c (s, w)) as [s1 w1]. cbn [fst snd] in *.
  assert (filePath s1 <> "") as Hne1 by congruence.
  pose proof (IH s1 w1 Hne1) as Hrest. cbv zeta in Hrest.
  rewrite Hp in Hrest. lia.
Qed.

Lemma silent_tool_counts (c : Call) (s : Logger) (w : World) (name : string) :
  silent c ->
  let s' := fst (call c (s, w)) in
  JS.or_zero (toolsUsed s' !! name) + toolUses name (currentMessages s)
  = JS.or_zero (toolsUsed s !! name) + toolUses name (currentMessages s').
Proof.
  cbv zeta.
  destruct c as [message | userText |]; cbn [silent call fst snd];
    [|intros _; cbn; lia | contradiction].
  rewrite log_classify. destruct (classify message); try contradiction; intros _.
  - unfold handleAssistantMessage.
    destruct (m_content message) as [content|]; [|cbn [fst]; lia].
    cbn [getTimestamp].
    destruct (assistantLoop_events (clock w (tick w)) content
                (currentMessages s) (toolsUsed s) name) as [H1 H2].
    destruct (fold_left _ content _) as [messages tools].
    cbn [fst snd with_buffer toolsUsed currentMessages] in *.
    rewrite H1, H2, toolUses_app. lia.
  - unfold handleUserMessage.
    destruct (m_content message) as [content|]; [|cbn [fst]; lia].
    cbn [getTimestamp fst with_buffer toolsUsed currentMessages].
    destruct (userLoop_events (clock w (tick w)) content (currentMessages s) name)
      as [H1 H2].
    rewrite H1, toolUses_app, H2. lia.
  - cbn [fst]. lia.
Qed.

(** A new logger that has served silent calls only counts the uses of
    tools that it holds in its buffer. *)
Lemma opening_tool_counts (calls : list Call) (w : World) (name : string) :
  Forall silent calls ->
  let s0 := fst (run calls (createSessionLogger, w)) in
  JS.or_zero (toolsUsed s0 !! name) = toolUses name (currentMessages s0).
Proof.
  intros Hall. cbv zeta.
  assert (forall s w1,
    JS.or_zero (toolsUsed (fst (run calls (s, w1))) !! name)
    + toolUses name (currentMessages s)
    = JS.or_zero (toolsUsed s !! name)
      + toolUses name (currentMessages (fst (run calls (s, w1))))) as Hrun.
  { induction Hall as [|c calls Hc Hall IH]; intros s w1; [cbn; lia|].
    rewrite run_cons.
    pose proof (silent_tool_counts c s w1 name Hc) as Hstep. cbv zeta in Hstep.
    destruct (call c (s, w1)) as [s1 w2]. cbn [fst snd] in *.
    specialize (IH s1 w2). lia. }
  specialize (Hrun createSessionLogger w).
  cbn [createSessionLogger toolsUsed currentMessages] in Hrun.
  rewrite lookup_empty in Hrun.
  change (toolUses name []) with 0 in Hrun. cbn [JS.or_zero] in Hrun. lia.
Qed.

(** X4.  In the first lifetime of a session (no file yet; a new logger
    serves calls that write nothing, observes the init-class event,
    serves calls without a further one, and is closed) the [tools_used]
    map of the session_end record counts the [tool_use] sub-events of
    every tool whose name [Object.prototype] does not define: those of
    the exchange records of the file and those still buffered at
    [close]. *)
Theorem tools_used_counts_tool_use_subevents
  (sid : string) (l : Lifetime) (w0 : World) (name : string) :
  JS.inherited name = false ->
  findExistingSessionFile (dir w0) sid = None ->
  lifetimeOf sid l ->
  let sw := lifetime l w0 in
  exists summary tools,
    last (contentOf (dir (snd sw)) (filePath (fst sw))) = Some (LEnd summary)
    /\ se_tools_used summary = Some tools
    /\ JS.or_zero (tools !! name)
       = toolUses name (recordedMessages (contentOf (dir (snd sw)) (filePath (fst sw))))
         + toolUses name (currentMessages (fst sw)).
Proof.
  destruct l as [pre message calls]. unfold lifetimeOf, lifetime, unclosed.
  cbn [opening initEvent serving].
  intros _ Hnone (Hpre & Hinit & <- & Hcalls). cbv zeta.
  destruct (opening_effect pre w0 Hpre) as (Hd & _).
  pose proof (opening_tool_counts pre w0 name Hpre) as Hopen. cbv zeta in Hopen.
  destruct (run pre (createSessionLogger, w0)) as [s0 w0']. cbn [fst snd] in *.
  rewrite <- Hd in Hnone.
  rewrite log_classify, (classify_init _ Hinit).
  destruct (handleSystemMessage_attached message s0 w0') as [Hne _].
  destruct (handleSystemMessage_state message s0 w0') as (_ & Hm & _).
  destruct (handleSystemMessage_keeps message s0 w0' Hnone)
    as (_ & _ & _ & _ & Htools).
  destruct (handleSystemMessage_new message s0 w0' Hnone)
    as (Hp & _ & Hc & _).
  destruct (handleSystemMessage message s0 w0') as [s1 w1].
  cbn [fst snd] in *.
  pose proof (run_tool_counts calls s1 w1 name Hcalls Hne) as Hrun.
  destruct (run_without_init calls s1 w1 Hcalls Hne) as (Hp2 & _).
  cbv zeta in Hrun.
  destruct (run calls (s1, w1)) as [s2 w2]. cbn [fst snd] in *.
  assert (filePath s2 <> "") as Hne2 by congruence.
  destruct (close_effect s2 w2 Hne2) as (Hs & Hclose & _).
  rewrite Hs, Hclose.
  exists (summaryOf s2 (clock w2 (tick w2))), (toolsUsed s2).
  split; [apply last_snoc|]. split; [reflexivity|].
  rewrite recordedMessages_snoc, app_nil_r.
  rewrite Hp in Hrun, Hp2. rewrite Hc, Htools, Hm in Hrun. rewrite Hp2.
  change (toolUses name (recordedMessages [LStart _])) with 0 in Hrun.
  lia.
Qed.

Lemma tools_used_counts_tool_use_subevents_witness :
  let sw := lifetime
              {| opening := [CallLogUserInput "look"];
                 initEvent := Sample.init;
                 serving := [CallLog toolMessage;
                             CallLog (Sample.result 100 (1 # 1000) 5 10);
                             CallLogUserInput "again"; CallLog toolMessage] |}
              Sample.emptyWorld in
  exists summary tools,
    last (contentOf (dir (snd sw)) (filePath (fst sw))) = Some (LEnd summary)
    /\ se_tools_used summary = Some tools
    /\ JS.or_zero (tools !! "Bash") = 2.
Proof.
  pose proof (tools_used_counts_tool_use_subevents Sample.sid
    {| opening := [CallLogUserInput "look"];
       initEvent := Sample.init;
       serving := [CallLog toolMessage;
                   CallLog (Sample.result 100 (1 # 1000) 5 10);
                   CallLogUserInput "again"; CallLog toolMessage] |}
    Sample.emptyWorld "Bash" eq_refl eq_refl) as H.
  cbv zeta in H. destruct H as (summary & tools & H1 & H2 & H3).
  { split; [repeat constructor|]. split; [reflexivity|].
    split; [reflexivity | repeat constructor]. }
  exists summary, tools. cbv zeta.
  split; [exact H1|]. split; [exact H2|]. rewrite H3. reflexivity.
Defined.

(** ** What a sequence of calls appends *)

Lemma call_others (c : Call) (s : Logger) (w : World) (other : string) :
  not_init c ->
  filePath s <> "" ->
  other <> filePath s ->
  Fs.readFileSync (dir (snd (call c (s, w)))) other = Fs.readFileSync (dir w) other.
Proof.
  intros Hni Hne Ho.
  destruct (call_cases c Hni) as [Hs | [(message & -> & Hk) | ->]].
  - destruct (silent_effect c s w Hs) as (Hd & _). rewrite Hd. reflexivity.
  - cbn [call fst snd]. rewrite log_classify, Hk.
    unfold handleResultMessage. cbn [getTimestamp snd].
    match goal with
    | |- context [appendLine ?p ?l ?x] =>
        destruct (appendLine_content p l x Hne) as (_ & H & _)
    end.
    rewrite (H other Ho). reflexivity.
  - cbn [call fst snd]. unfold close.
    destruct (String.eqb (filePath s) ""); [reflexivity|].
    cbn [getTimestamp snd].
    match goal with
    | |- context [appendLine ?p ?l ?x] =>
        destruct (appendLine_content p l x Hne) as (_ & H & _)
    end.
    rewrite (H other Ho). reflexivity.
Qed.

(** The lines one call appends, and what it does to the counter. *)
Lemma call_appends (c : Call) (s : Logger) (w : World) :
  not_init c ->
  filePath s <> "" ->
  let s' := fst (call c (s, w)) in
  let w' := snd (call c (s, w)) in
  exists added,
    contentOf (dir w') (filePath s) = contentOf (dir w) (filePath s) ++ added
    /\ filePath s' = filePath s
    /\ exchangeCount s' = exchangeCount s + beginsOf [c]
    /\ Forall (fun r => ex_exchange r = exchangeCount s) (exchangesOf added)
    /\ startsOf added = []
    /\ ~ In Corrupt added
    /\ (plain c -> endsOf added = [])
    /\ ~ In OtherJson added.
Proof.
  intros Hni Hne. cbv zeta.
  destruct c as [message | userText |]; cbn [call fst snd].
  - rewrite log_classify. pose proof (classify_not_init message Hni) as Hk.
    destruct (classify message) eqn:E; try contradiction.
    + destruct (handleAssistantMessage_effect message s w)
        as (messages & tools & -> & -> & _).
      exists []. rewrite app_nil_r. cbn. repeat split; auto; try lia.
    + destruct (handleUserMessage_effect message s w) as (messages & -> & -> & _).
      exists []. rewrite app_nil_r. cbn. repeat split; auto; try lia.
    + destruct (handleResultMessage_effect message s w Hne) as (-> & -> & _).
      eexists. split; [reflexivity|]. cbn.
      repeat split; auto; try lia; intros [H|[]]; discriminate.
    + exists []. rewrite app_nil_r. cbn. repeat split; auto; try lia.
  - exists []. rewrite app_nil_r. cbn. repeat split; auto; try lia.
  - destruct (close_effect s w Hne) as (-> & -> & _).
    eexists. split; [reflexivity|]. cbn.
    repeat split; auto; try lia; try contradiction;
      intros [H|[]]; discriminate.
Qed.

Lemma run_appends (calls : list Call) (s : Logger) (w : World) :
  Forall not_init calls ->
  filePath s <> "" ->
  let s' := fst (run calls (s, w)) in
  let w' := snd (run calls (s, w)) in
  exists added,
    contentOf (dir w') (filePath s) = contentOf (dir w) (filePath s) ++ added
    /\ (forall other, other <> filePath s ->
          Fs.readFileSync (dir w') other = Fs.readFileSync (dir w) other)
    /\ filePath s' = filePath s
    /\ exchangeCount s' = exchangeCount s + beginsOf calls
    /\ Forall (fun r => exchangeCount s <= ex_exchange r <= exchangeCount s')
         (exchangesOf added)
    /\ StronglySorted Z.le (map ex_exchange (exchangesOf added))
    /\ startsOf added = []
    /\ ~ In Corrupt added
    /\ (Forall plain calls -> endsOf added = [])
    /\ ~ In OtherJson added.
Proof.
  intros Hall. revert s w.
  induction Hall as [|c calls Hc Hall IH]; intros s w Hne.
  - exists []. cbn. rewrite app_nil_r.
    repeat split; auto; try lia; constructor.
  - rewrite run_cons. cbv zeta.
    destruct (call_appends c s w Hc Hne)
      as (a1 & C1 & C2 & C3 & C4 & C5 & C6 & C7 & C8).
    pose proof (fun other => call_others c s w other Hc Hne) as Hother.
    destruct (call c (s, w)) as [s1 w1]. cbn [fst snd] in *.
    assert (filePath s1 <> "") as Hne1 by congruence.
    destruct (IH s1 w1 Hne1)
      as (a2 & R1 & R2 & R3 & R4 & R5 & R6 & R7 & R8 & R9 & R10).
    rewrite C2 in R1, R2, R3.
    assert (0 <= beginsOf calls) as Hb.
    { clear. induction calls as [|[| |] calls IHc]; cbn [beginsOf]; lia. }
    assert (beginsOf (c :: calls) = beginsOf [c] + beginsOf calls) as Hsplit.
    { destruct c; cbn [beginsOf]; lia. }
    assert (0 <= beginsOf [c]) as Hb1 by (destruct c; cbn; lia).
    exists (a1 ++ a2).
    rewrite exchangesOf_app, startsOf_app, map_app.
    split; [rewrite R1, C1, app_assoc; reflexivity|].
    split; [intros other Ho; rewrite (R2 other Ho); apply Hother; exact Ho|].
    split; [exact R3|]. split; [lia|].
    split; [|split; [|split; [|split; [|split]]]].
    + apply List.Forall_app. split.
      * eapply List.Forall_impl; [|exact C4]. cbn. intros r Hr. lia.
      * eapply List.Forall_impl; [|exact R5]. cbn. intros r Hr. lia.
    + clear - C4 R5 R6 C3 Hb1.
      induction (exchangesOf a1) as [|r rs IHr]; [exact R6|].
      apply List.Forall_cons_iff in C4. destruct C4 as [Hr Hrs].
      cbn [map app]. constructor; [apply IHr; exact Hrs|].
      apply List.Forall_app. split.
      * apply List.Forall_map. eapply List.Forall_impl; [|exact Hrs].
        cbn. intros r' Hr'. lia.
      * apply List.Forall_map. eapply List.Forall_impl; [|exact R5].
        cbn. intros r' Hr'. lia.
    + rewrite C5, R7. reflexivity.
    + intros Hin. apply in_app_or in Hin. tauto.
    + intros Hp. apply List.Forall_cons_iff in Hp. destruct Hp as [Hp1 Hp2].
      rewrite endsOf_app_both. rewrite (C7 Hp1), (R9 Hp2). reflexivity.
    + intros Hin. apply in_app_or in Hin. tauto.
Qed.

(** X5.  The [total_exchanges] of the session_end record is the exchange
    counter: the value it had plus the number of [logUserInput] calls
    since.  It counts the exchanges begun, whether or not a result event
    completed them. *)
Theorem total_exchanges_counts_begun_exchanges
  (calls : list Call) (s : Logger) (w : World) :
  Forall not_init calls ->
  filePath s <> "" ->
  let sw := run calls (s, w) in
  let sw' := close (fst sw) (snd sw) in
  exists summary,
    last (contentOf (dir (snd sw')) (filePath s)) = Some (LEnd summary)
    /\ se_total_exchanges summary = exchangeCount s + beginsOf calls.
Proof.
  intros Hall Hne. cbv zeta.
  destruct (run_appends calls s w Hall Hne) as (added & _ & _ & Hp & Hcount & _).
  destruct (run calls (s, w)) as [s1 w1]. cbn [fst snd] in *.
  assert (filePath s1 <> "") as Hne1 by congruence.
  destruct (close_effect s1 w1 Hne1) as (_ & Hc & _).
  rewrite Hp in Hc. rewrite Hc.
  exists (summaryOf s1 (clock w1 (tick w1))).
  split; [apply last_snoc | exact Hcount].
Qed.

Lemma total_exchanges_counts_begun_exchanges_witness :
  let sw0 := log Sample.init createSessionLogger Sample.emptyWorld in
  let sw := run [CallLogUserInput "one";
                 CallLog (Sample.result 100 (1 # 1000) 5 10);
                 CallLogUserInput "two"; CallLogUserInput "three"]
              (fst sw0, snd sw0) in
  exists summary,
    last (contentOf (dir (snd (close (fst sw) (snd sw)))) (filePath (fst sw0)))
    = Some (LEnd summary)
    /\ se_total_exchanges summary = 3.
Proof.
  destruct (total_exchanges_counts_begun_exchanges
    [CallLogUserInput "one"; CallLog (Sample.result 100 (1 # 1000) 5 10);
     CallLogUserInput "two"; CallLogUserInput "three"]
    (fst (log Sample.init createSessionLogger Sample.emptyWorld))
    (snd (log Sample.init createSessionLogger Sample.emptyWorld))
    ltac:(repeat constructor) ltac:(discriminate))
    as (summary & H1 & H2).
  exists summary. split; [exact H1 | rewrite H2; reflexivity].
Defined.

(** X6.  The ordinals of the exchange records that a sequence of calls
    without an init-class event appends never decrease, and they lie
    between the exchange counter before and after the calls. *)
Theorem appended_ordinals_never_decrease
  (calls : list Call) (s : Logger) (w : World) :
  Forall not_init calls ->
  filePath s <> "" ->
  let sw := run calls (s, w) in
  exists records,
    exchangesOf (contentOf (dir (snd sw)) (filePath s))
    = exchangesOf (contentOf (dir w) (filePath s)) ++ records
    /\ StronglySorted Z.le (map ex_exchange records)
    /\ Forall (fun r => exchangeCount s <= ex_exchange r <= exchangeCount (fst sw))
         records.
Proof.
  intros Hall Hne. cbv zeta.
  destruct (run_appends calls s w Hall Hne)
    as (added & Hc & _ & _ & _ & Hbounds & Hsorted & _).
  exists (exchangesOf added).
  rewrite Hc, exchangesOf_app. auto.
Qed.

Lemma appended_ordinals_never_decrease_witness :
  let sw0 := log Sample.init createSessionLogger
               (Sample.worldWith Sample.closedFile) in
  let sw := run [CallLogUserInput "two";
                 CallLog (Sample.result 100 (1 # 1000) 5 10);
                 CallLog (Sample.result 100 (1 # 1000) 5 10);
                 CallLogUserInput "three"; CallLogUserInput "four";
                 CallLog (Sample.result 100 (1 # 1000) 5 10)]
              (fst sw0, snd sw0) in
  map ex_exchange (exchangesOf (contentOf (dir (snd sw)) Sample.fileName))
  = [1; 2; 2; 4].
Proof.
  destruct (appended_ordinals_never_decrease
    [CallLogUserInput "two"; CallLog (Sample.result 100 (1 # 1000) 5 10);
     CallLog (Sample.result 100 (1 # 1000) 5 10);
     CallLogUserInput "three"; CallLogUserInput "four";
     CallLog (Sample.result 100 (1 # 1000) 5 10)]
    (fst (log Sample.init createSessionLogger (Sample.worldWith Sample.closedFile)))
    (snd (log Sample.init createSessionLogger (Sample.worldWith Sample.closedFile)))
    ltac:(repeat constructor) ltac:(discriminate))
    as (records & H1 & _).
  vm_compute. reflexivity.
Defined.

(** X7.  Calls without an init-class event only append to the active
    file: what the file held stays as a prefix, no session_start and no
    unparsable line is added, and no other file changes. *)
Theorem calls_only_append_to_active_file
  (calls : list Call) (s : Logger) (w : World) :
  Forall not_init calls ->
  filePath s <> "" ->
  let sw := run calls (s, w) in
  exists added,
    contentOf (dir (snd sw)) (filePath s) = contentOf (dir w) (filePath s) ++ added
    /\ startsOf added = []
    /\ ~ In Corrupt added
    /\ filePath (fst sw) = filePath s
    /\ (forall other, other <> filePath s ->
          Fs.readFileSync (dir (snd sw)) other = Fs.readFileSync (dir w) other).
Proof.
  intros Hall Hne. cbv zeta.
  destruct (run_appends calls s w Hall Hne)
    as (added & Hc & Ho & Hp & _ & _ & _ & Hst & Hcor & _).
  exists added. auto.
Qed.

Lemma calls_only_append_to_active_file_witness :
  let w0 :=
    {| dir := [("20240101_000000_other000.jsonl", [LStart Sample.start]);
               (Sample.fileName, Sample.closedFile)];
       clock := Sample.time; tick := 30 |} in
  let sw0 := log Sample.init createSessionLogger w0 in
  let sw := run [CallLogUserInput "two";
                 CallLog (Sample.result 100 (1 # 1000) 5 10); CallClose]
              (fst sw0, snd sw0) in
  Fs.readFileSync (dir (snd sw)) "20240101_000000_other000.jsonl"
  = Some [LStart Sample.start].
Proof.
  cbv zeta.
  destruct (calls_only_append_to_active_file
    [CallLogUserInput "two"; CallLog (Sample.result 100 (1 # 1000) 5 10);
     CallClose]
    (fst (log Sample.init createSessionLogger
            {| dir := [("20240101_000000_other000.jsonl", [LStart Sample.start]);
                       (Sample.fileName, Sample.closedFile)];
               clock := Sample.time; tick := 30 |}))
    (snd (log Sample.init createSessionLogger
            {| dir := [("20240101_000000_other000.jsonl", [LStart Sample.start]);
                       (Sample.fileName, Sample.closedFile)];
               clock := Sample.time; tick := 30 |}))
    ltac:(repeat constructor) ltac:(discriminate))
    as (added & _ & _ & _ & _ & Ho).
  rewrite Ho by discriminate. reflexivity.
Defined.

(** ** Finding the file of a session *)

(** X8.  After an init-class event of a session whose identifier holds
    no path separator among its first eight characters, and through all
    later calls without a further init-class event, the active file
    exists and is the file that [findExistingSessionFile] gives for the
    session identifier: a later logger instance of the session resumes
    this file. *)
Theorem active_file_is_found_again
  (message : SDKMessage) (calls : list Call) (s0 : Logger) (w0 : World) :
  is_init message = true ->
  plainId (JS.or_string (m_session_id message) "") ->
  Forall not_init calls ->
  let sw := run calls (log message s0 w0) in
  sessionId (fst sw) = JS.or_string (m_session_id message) ""
  /\ filePath (fst sw) <> ""
  /\ Fs.existsSync (dir (snd sw)) (filePath (fst sw)) = true
  /\ findExistingSessionFile (dir (snd sw)) (sessionId (fst sw))
     = Some (filePath (fst sw)).
Proof.
  intros Hinit _ Hall. cbv zeta.
  rewrite log_classify, (classify_init _ Hinit).
  pose proof (handleSystemMessage_attached message s0 w0) as Hatt.
  destruct (handleSystemMessage_state message s0 w0) as (Hid & _).
  destruct (handleSystemMessage message s0 w0) as [s1 w1]. cbn [fst snd] in *.
  destruct (run_attached calls s1 w1 Hall Hatt) as (Hatt2 & _ & Hid2).
  pose proof (attached_exists _ _ Hatt2) as Hex.
  destruct Hatt2 as [Hne Hfind].
  split; [congruence|]. split; [exact Hne|]. split; [|exact Hfind].
  unfold Fs.existsSync. destruct (Fs.readFileSync _ _); [reflexivity | congruence].
Qed.

Lemma active_file_is_found_again_witness :
  let sw := run [CallLogUserInput "one";
                 CallLog (Sample.result 100 (1 # 1000) 5 10); CallClose]
              (log Sample.init createSessionLogger Sample.emptyWorld) in
  findExistingSessionFile (dir (snd sw)) (sessionId (fst sw))
  = Some (filePath (fst sw)).
Proof.
  exact (proj2 (proj2 (proj2 (active_file_is_found_again Sample.init
    [CallLogUserInput "one"; CallLog (Sample.result 100 (1 # 1000) 5 10);
     CallClose]
    createSessionLogger Sample.emptyWorld eq_refl eq_refl
    ltac:(repeat constructor))))).
Defined.

Lemma sessionSuffix_prefix (a b : string) :
  substring 0 8 a = substring 0 8 b -> sessionSuffix a = sessionSuffix b.
Proof. unfold sessionSuffix. intros ->. reflexivity. Qed.

(** X9.  Sessions are told apart by the first eight characters of their
    identifier only.  When a logger has initialized a session, a new
    logger that observes an init-class event of a session whose
    identifier starts with the same eight characters, none of them a
    path separator, adopts the file of the first session: it creates no
    file, writes no session_start, and takes the identifier of its own
    session. *)
Theorem sessions_sharing_a_prefix_share_a_file
  (first second : SDKMessage) (calls : list Call) (s0 : Logger) (w0 : World) :
  is_init first = true ->
  is_init second = true ->
  substring 0 8 (JS.or_string (m_session_id second) "")
  = substring 0 8 (JS.or_string (m_session_id first) "") ->
  plainId (JS.or_string (m_session_id first) "") ->
  Forall not_init calls ->
  let sw := run calls (log first s0 w0) in
  let sw' := log second createSessionLogger (snd sw) in
  filePath (fst sw') = filePath (fst sw)
  /\ sessionId (fst sw') = JS.or_string (m_session_id second) ""
  /\ Fs.readdirSync (dir (snd sw')) = Fs.readdirSync (dir (snd sw))
  /\ startsOf (contentOf (dir (snd sw')) (filePath (fst sw)))
     = startsOf (contentOf (dir (snd sw)) (filePath (fst sw)))
  /\ tick (snd sw') = tick (snd sw).
Proof.
  intros Hfirst Hsecond Hprefix _ Hall. cbv zeta.
  rewrite (log_classify first), (classify_init _ Hfirst).
  pose proof (handleSystemMessage_attached first s0 w0) as Hatt.
  destruct (handleSystemMessage_state first s0 w0) as (Hid & _).
  destruct (handleSystemMessage first s0 w0) as [s1 w1]. cbn [fst snd] in *.
  destruct (run_attached calls s1 w1 Hall Hatt) as (Hatt2 & _ & Hid2).
  destruct (run calls (s1, w1)) as [s w]. cbn [fst snd] in *.
  pose proof (attached_exists _ _ Hatt2) as Hex.
  destruct Hatt2 as [Hne Hfind].
  assert (findExistingSessionFile (dir w) (JS.or_string (m_session_id second) "")
          = Some (filePath s)) as Hfind2.
  { unfold findExistingSessionFile in *.
    rewrite (sessionSuffix_prefix _ _ Hprefix), <- Hid, <- Hid2. exact Hfind. }
  rewrite log_classify, (classify_init _ Hsecond).
  destruct (handleSystemMessage_existing second createSessionLogger w
              (filePath s) Hfind2) as (Hp & Hi & _ & _ & _ & _ & Hw).
  destruct (Fs.readFileSync (dir w) (filePath s)) as [lines|] eqn:Hread;
    [|congruence].
  destruct (removeLastSessionEnd_effect (filePath s) w lines Hne Hread)
    as (Hr & _ & Hd & _ & Htick).
  rewrite Hw. unfold contentOf. rewrite Hr, Hread.
  repeat split; try assumption.
  apply withoutTrailingEnd_exchanges.
Qed.

Lemma sessions_sharing_a_prefix_share_a_file_witness :
  let sw := run [CallLogUserInput "one";
                 CallLog (Sample.result 100 (1 # 1000) 5 10); CallClose]
              (log Sample.init createSessionLogger Sample.emptyWorld) in
  let sw' := log collidingInit createSessionLogger (snd sw) in
  filePath (fst sw') = filePath (fst sw)
  /\ sessionId (fst sw') = "abc12345-ffff-4fff-8fff-ffffffffffff"
  /\ sessionId (fst sw) = Sample.sid.
Proof.
  pose proof (sessions_sharing_a_prefix_share_a_file Sample.init collidingInit
    [CallLogUserInput "one"; CallLog (Sample.result 100 (1 # 1000) 5 10);
     CallClose]
    createSessionLogger Sample.emptyWorld eq_refl eq_refl eq_refl eq_refl
    ltac:(repeat constructor)) as H.
  cbv zeta in H. destruct H as (H1 & H2 & _).
  cbv zeta. split; [exact H1|]. split; [exact H2|]. reflexivity.
Defined.

(** ** The shape of a log file *)

Lemma only_exchanges (lines : list Line) :
  startsOf lines = [] -> endsOf lines = [] ->
  ~ In Corrupt lines -> ~ In OtherJson lines ->
  lines = map LExchange (exchangesOf lines).
Proof.
  induction lines as [|x lines IH]; intros Hs He Hc Ho; [reflexivity|].
  destruct x; cbn in *; try discriminate; try tauto.
  f_equal. apply IH; tauto.
Qed.

Lemma withoutTrailingEnd_snoc (lines : list Line) (summary : SessionEnd) :
  withoutTrailingEnd (lines ++ [LEnd summary]) = lines.
Proof.
  unfold withoutTrailingEnd. rewrite last_snoc. apply removelast_last.
Qed.

Lemma plain_not_init (calls : list Call) :
  Forall plain calls -> Forall not_init calls.
Proof.
  intros H. eapply List.Forall_impl; [|exact H]. intros [m| |]; cbn; auto.
Qed.

(** A logger observes the init-class event of a session whose file, if
    there is one, is in shape; it serves calls other than init-class
    events and [close], and is closed.  The file is in shape again. *)
Lemma resumed_shape
  (message : SDKMessage) (calls : list Call) (s0 : Logger) (w0 : World) :
  is_init message = true ->
  Forall plain calls ->
  let sid := JS.or_string (m_session_id message) "" in
  (forall path,
     findExistingSessionFile (dir w0) sid = Some path ->
     exists start records summary,
       contentOf (dir w0) path
       = LStart start :: map LExchange records ++ [LEnd summary]
       /\ ss_session_id start = sid) ->
  let sw1 := run calls (log message s0 w0) in
  let sw := close (fst sw1) (snd sw1) in
  findExistingSessionFile (dir (snd sw)) sid = Some (filePath (fst sw))
  /\ exists start records summary,
       contentOf (dir (snd sw)) (filePath (fst sw))
       = LStart start :: map LExchange records ++ [LEnd summary]
       /\ ss_session_id start = sid.
Proof.
  intros Hinit Hplain. cbv zeta. intros Hprior.
  pose proof (plain_not_init calls Hplain) as Hcalls.
  rewrite log_classify, (classify_init _ Hinit).
  pose proof (handleSystemMessage_attached message s0 w0) as Hatt.
  destruct (handleSystemMessage_state message s0 w0) as (Hid & _).
  assert (exists start records,
    contentOf (dir (snd (handleSystemMessage message s0 w0)))
              (filePath (fst (handleSystemMessage message s0 w0)))
    = LStart start :: map LExchange records
    /\ ss_session_id start = JS.or_string (m_session_id message) "")
    as (start & records & Hshape & Hstart).
  { destruct (findExistingSessionFile (dir w0) _) as [path|] eqn:Hfind.
    - destruct (Hprior path eq_refl) as (start & records & summary & Hc & Hs).
      destruct (handleSystemMessage_existing message s0 w0 path Hfind)
        as (Hp & _ & _ & _ & _ & _ & Hw).
      destruct (find_exists _ _ _ Hfind) as (Hex & _ & Hpne).
      destruct (Fs.readFileSync (dir w0) path) as [lines|] eqn:Hread; [|congruence].
      destruct (removeLastSessionEnd_effect path w0 lines Hpne Hread) as (Hr & _).
      assert (contentOf (dir w0) path = lines) as Hcont
        by (unfold contentOf; rewrite Hread; reflexivity).
      exists start, records. rewrite Hp, Hw. unfold contentOf at 1. rewrite Hr.
      rewrite <- Hcont, Hc.
      change (LStart start :: map LExchange records ++ [LEnd summary])
        with ((LStart start :: map LExchange records) ++ [LEnd summary]).
      rewrite withoutTrailingEnd_snoc. auto.
    - destruct (handleSystemMessage_new message s0 w0 Hfind)
        as (Hp & _ & Hc & _).
      eexists. exists []. rewrite Hp, Hc. cbn. auto. }
  destruct (handleSystemMessage message s0 w0) as [s1 w1].
  cbn [fst snd] in *.
  pose proof Hatt as [Hne _].
  destruct (run_appends calls s1 w1 Hcalls Hne)
    as (added & Hc & _ & Hp & _ & _ & _ & Hst & Hcor & Hends & Hother).
  destruct (run_attached calls s1 w1 Hcalls Hatt) as (Hatt2 & _ & Hid2).
  destruct (run calls (s1, w1)) as [s2 w2]. cbn [fst snd] in *.
  assert (filePath s2 <> "") as Hne2 by congruence.
  destruct (close_effect s2 w2 Hne2) as (Hs & Hclose & _).
  destruct (call_attached CallClose s2 w2 I Hatt2) as ([_ Hfind3] & _).
  cbn [call fst snd] in Hfind3.
  rewrite Hs in Hfind3 |- *. rewrite Hclose, Hp, Hc, Hshape.
  split; [congruence|].
  exists start, (records ++ exchangesOf added), (summaryOf s2 (clock w2 (tick w2))).
  split; [|exact Hstart].
  rewrite (only_exchanges added Hst (Hends Hplain) Hcor Hother) at 1.
  rewrite map_app. cbn [app]. rewrite <- app_assoc. reflexivity.
Qed.

(** One lifetime with a single [close] keeps the file in shape. *)
Lemma plainLifetime_shape (l : Lifetime) (w0 : World) (sid : string) :
  plainLifetimeOf sid l ->
  (forall path,
     findExistingSessionFile (dir w0) sid = Some path ->
     exists start records summary,
       contentOf (dir w0) path
       = LStart start :: map LExchange records ++ [LEnd summary]
       /\ ss_session_id start = sid) ->
  let sw := lifetime l w0 in
  findExistingSessionFile (dir (snd sw)) sid = Some (filePath (fst sw))
  /\ exists start records summary,
       contentOf (dir (snd sw)) (filePath (fst sw))
       = LStart start :: map LExchange records ++ [LEnd summary]
       /\ ss_session_id start = sid.
Proof.
  destruct l as [pre message calls]. unfold plainLifetimeOf, lifetime, unclosed.
  cbn [opening initEvent serving].
  intros (Hpre & Hinit & <- & Hplain) Hprior. cbv zeta.
  destruct (opening_effect pre w0 Hpre) as (Hd & _).
  destruct (run pre (createSessionLogger, w0)) as [s0 w0']. cbn [fst snd] in *.
  rewrite <- Hd in *.
  apply (resumed_shape message calls s0 w0' Hinit Hplain Hprior).
Qed.

Lemma runSession_shape (sid : string) (ls : list Lifetime) (w : World) (path : string) :
  Forall (plainLifetimeOf sid) ls ->
  findExistingSessionFile (dir w) sid = Some path ->
  (exists start records summary,
     contentOf (dir w) path
     = LStart start :: map LExchange records ++ [LEnd summary]
     /\ ss_session_id start = sid) ->
  exists path' start records summary,
    findExistingSessionFile (dir (runSession ls w)) sid = Some path'
    /\ contentOf (dir (runSession ls w)) path'
       = LStart start :: map LExchange records ++ [LEnd summary]
    /\ ss_session_id start = sid.
Proof.
  intros Hall. revert w path.
  induction Hall as [|l ls Hl Hall IH]; intros w path Hfind Hshape.
  - destruct Hshape as (start & records & summary & Hc & Hs).
    exists path, start, records, summary. auto.
  - destruct (plainLifetime_shape l w sid Hl) as (F & S).
    { intros p Hp. assert (p = path) as -> by congruence. exact Hshape. }
    change (runSession (l :: ls) w) with (runSession ls (snd (lifetime l w))).
    apply (IH _ _ F S).
Qed.

(** X10.  A session whose identifier holds no path separator among its
    first eight characters starts without a log file and runs through
    one or more lifetimes, in each of which a new logger serves calls
    that write nothing, observes the init-class event of the session,
    serves calls other than init-class events and [close], and is closed
    once.  The log file then is one session_start record of the session,
    followed by exchange records only, followed by exactly one
    session_end record: the summaries of the earlier lifetimes are gone,
    and the statistics of the exchange records are those of the result
    events of all lifetimes, in order. *)
Theorem log_file_has_one_start_and_one_end
  (sid : string) (l : Lifetime) (ls : list Lifetime) (w0 : World) :
  plainId sid ->
  findExistingSessionFile (dir w0) sid = None ->
  Forall (plainLifetimeOf sid) (l :: ls) ->
  let w := runSession (l :: ls) w0 in
  exists path start records summary,
    findExistingSessionFile (dir w) sid = Some path
    /\ contentOf (dir w) path
       = LStart start :: map LExchange records ++ [LEnd summary]
    /\ ss_session_id start = sid
    /\ map ex_stats records = sessionResults (l :: ls).
Proof.
  intros _ Hnone Hall. cbv zeta.
  assert (Forall (lifetimeOf sid) (l :: ls)) as Hlife.
  { eapply List.Forall_impl; [|exact Hall].
    intros [pre m calls] (H0 & H1 & H2 & H3). repeat split; auto.
    apply plain_not_init. exact H3. }
  apply List.Forall_cons_iff in Hall. destruct Hall as [Hl Hls].
  destruct (plainLifetime_shape l w0 sid Hl) as (F & S).
  { intros p Hp. congruence. }
  destruct (runSession_shape sid ls _ _ Hls F S)
    as (path & start & records & summary & F' & C & Hs).
  change (runSession ls (snd (lifetime l w0))) with (runSession (l :: ls) w0) in *.
  apply List.Forall_cons_iff in Hlife. destruct Hlife as [Hl1 Hls1].
  destruct (lifetime_totals l w0 sid Hl1) as (F1 & S1 & E1).
  { intros p Hp. congruence. }
  cbv zeta in E1. rewrite Hnone in E1.
  cbn [statsOfFile exchangesOf map app] in E1.
  destruct (runSession_totals sid ls _ _ Hls1 F1 S1) as (path2 & F2 & _ & E2).
  change (runSession ls (snd (lifetime l w0))) with (runSession (l :: ls) w0) in *.
  assert (path2 = path) as -> by congruence.
  exists path, start, records, summary.
  split; [exact F'|]. split; [exact C|]. split; [exact Hs|].
  rewrite E1, C in E2. unfold statsOfFile in E2.
  cbn [exchangesOf] in E2. rewrite exchangesOf_app in E2.
  cbn [exchangesOf] in E2. rewrite app_nil_r in E2.
  assert (exchangesOf (map LExchange records) = records) as Hrec.
  { clear. induction records as [|r rs IH]; cbn; [reflexivity | rewrite IH; reflexivity]. }
  rewrite Hrec in E2. rewrite E2.
  unfold sessionResults. cbn [map concat]. rewrite map_app. reflexivity.
Qed.

Lemma log_file_has_one_start_and_one_end_witness :
  let w := runSession [Sample.firstLifetime; Sample.secondLifetime]
             Sample.emptyWorld in
  exists path start records summary,
    findExistingSessionFile (dir w) Sample.sid = Some path
    /\ contentOf (dir w) path
       = LStart start :: map LExchange records ++ [LEnd summary]
    /\ map duration_ms (map ex_stats records) = [100; 250; 50].
Proof.
  pose proof (log_file_has_one_start_and_one_end Sample.sid
    Sample.firstLifetime [Sample.secondLifetime] Sample.emptyWorld
    eq_refl eq_refl) as H.
  cbv zeta in H.
  destruct H as (path & start & records & summary & H1 & H2 & _ & H3).
  { repeat constructor. }
  exists path, start, records, summary. cbv zeta.
  split; [exact H1|]. split; [exact H2|]. rewrite H3. reflexivity.
Defined.

(** ** Loading the totals of a former lifetime *)



(** ** The name of a new file *)

Lemma kept_spec (c : ascii) :
  kept c = true ->
  Ascii.eqb c "-" = false /\ Ascii.eqb c ":" = false /\ Ascii.eqb c "T" = false.
Proof.
  unfold kept. intros H. apply negb_true_iff in H.
  apply orb_false_iff in H. destruct H as [H H3].
  apply orb_false_iff in H. tauto.
Qed.

Lemma strip_kept (c : ascii) (rest : string) :
  kept c = true ->
  JS.strip_dash_colon (String c rest) = String c (JS.strip_dash_colon rest).
Proof.
  intros H. destruct (kept_spec c H) as (H1 & H2 & _).
  cbn [JS.strip_dash_colon]. rewrite H1, H2. reflexivity.
Qed.

Lemma replace_kept (c : ascii) (rest : string) :
  kept c = true ->
  JS.replace_first_T (String c rest) = String c (JS.replace_first_T rest).
Proof.
  intros H. destruct (kept_spec c H) as (_ & _ & H3).
  cbn [JS.replace_first_T]. rewrite H3. reflexivity.
Qed.

Lemma strip_dash (rest : string) :
  JS.strip_dash_colon (String "-" rest) = JS.strip_dash_colon rest.
Proof. reflexivity. Qed.

Lemma strip_colon (rest : string) :
  JS.strip_dash_colon (String ":" rest) = JS.strip_dash_colon rest.
Proof. reflexivity. Qed.

Lemma strip_T (rest : string) :
  JS.strip_dash_colon (String "T" rest) = String "T" (JS.strip_dash_colon rest).
Proof. reflexivity. Qed.

Lemma replace_T (rest : string) :
  JS.replace_first_T (String "T" rest) = String "_" rest.
Proof. reflexivity. Qed.

Lemma append_cons (c : ascii) (x y : string) :
  String c x +:+ y = String c (x +:+ y).
Proof. reflexivity. Qed.

(** X12.  For a timestamp of the form [YYYY-MM-DDTHH:MM:SS] followed by
    anything, as [toISOString] gives it, the name of a new log file is
    [YYYYMMDD_HHMMSS_] followed by the first eight characters of the
    session identifier and [.jsonl]: the fraction of the second and the
    rest of the identifier do not enter the name. *)
Theorem new_file_name_format
  (y1 y2 y3 y4 m1 m2 d1 d2 h1 h2 n1 n2 s1 s2 : ascii) (rest sessionId : string) :
  forallb kept [y1; y2; y3; y4; m1; m2; d1; d2; h1; h2; n1; n2; s1; s2] = true ->
  newFileName
    (string_of_list_ascii
       [y1; y2; y3; y4; "-"; m1; m2; "-"; d1; d2; "T";
        h1; h2; ":"; n1; n2; ":"; s1; s2]%char +:+ rest)
    sessionId
  = string_of_list_ascii
      [y1; y2; y3; y4; m1; m2; d1; d2; "_"; h1; h2; n1; n2; s1; s2]%char
    +:+ "_" +:+ substring 0 8 sessionId +:+ ".jsonl".
Proof.
  intros H. cbn [forallb] in H.
  repeat match type of H with
         | (_ && _) = true => apply andb_true_iff in H; destruct H as [? H]
         end.
  unfold newFileName, sessionSuffix.
  cbn [string_of_list_ascii]. rewrite !append_cons.
  change (String.append "" rest) with rest.
  repeat first
    [ rewrite strip_kept by assumption
    | rewrite strip_dash
    | rewrite strip_colon
    | rewrite strip_T ].
  repeat rewrite replace_kept by assumption.
  rewrite replace_T. cbn [substring].
  replace (substring 0 0 (JS.strip_dash_colon rest)) with ""
    by (destruct (JS.strip_dash_colon rest); reflexivity).
  reflexivity.
Qed.

Lemma new_file_name_format_witness :
  newFileName "2025-11-07T08:45:32.123Z" "1f320356-a178-418e-a692-69ce6e1e657c"
  = "20251107_084532_1f320356.jsonl".
Proof.
  exact (new_file_name_format "2" "0" "2" "5" "1" "1" "0" "7" "0" "8" "4" "5"
           "3" "2" ".123Z" "1f320356-a178-418e-a692-69ce6e1e657c" eq_refl).
Defined.

(** ** Result events *)

(** X13.  A result event that carries none of the statistics (no turn
    count, no durations, no cost, no usage) still completes the
    exchange: an exchange record with all statistics 0 is appended and
    the buffer is reset.  The duration and cost totals stay as they
    were, but the token snapshot is replaced by the all-zero one. *)
Theorem result_without_statistics
  (message : SDKMessage) (s : Logger) (w : World) :
  is_result message = true ->
  m_num_turns message = None ->
  m_duration_ms message = None ->
  m_duration_api_ms message = None ->
  m_total_cost_usd message = None ->
  m_usage message = None ->
  filePath s <> "" ->
  let s' := fst (log message s w) in
  let w' := snd (log message s w) in
  exists record,
    contentOf (dir w') (filePath s) = contentOf (dir w) (filePath s) ++ [LExchange record]
    /\ ex_stats record
       = {| num_turns := 0; duration_ms := 0; duration_api_ms := None;
            tokens_in := 0; tokens_out := 0; cache_creation := 0;
            cache_read := 0; cost_usd := 0%Q |}
    /\ ex_messages record = currentMessages s
    /\ currentMessages s' = []
    /\ totalDurationMs s' = totalDurationMs s
    /\ totalDurationApiMs s' = totalDurationApiMs s
    /\ (totalCostUsd s' == totalCostUsd s)%Q
    /\ lastExchangeTokens s' = zeroTokens.
Proof.
  intros Hres H1 H2 H3 H4 H5 Hne. cbv zeta.
  rewrite log_classify, (proj2 (classify_result message) Hres).
  destruct (handleResultMessage_effect message s w Hne) as (-> & -> & _).
  assert (statsOf message
          = {| num_turns := 0; duration_ms := 0; duration_api_ms := None;
               tokens_in := 0; tokens_out := 0; cache_creation := 0;
               cache_read := 0; cost_usd := 0%Q |}) as Hstats.
  { unfold statsOf, usageField. rewrite H1, H2, H3, H4, H5. reflexivity. }
  eexists. split; [reflexivity|]. rewrite Hstats.
  cbn [exchangeOf ex_stats ex_messages afterExchange currentMessages
       totalDurationMs totalDurationApiMs totalCostUsd lastExchangeTokens
       duration_ms duration_api_ms cost_usd JS.or_zero].
  repeat split; try lia. apply Qplus_0_r.
Qed.

Lemma result_without_statistics_witness :
  let sw := run [CallLogUserInput "one";
                 CallLog (Sample.result 100 (1 # 1000) 5 10);
                 CallLogUserInput "two"]
              (log Sample.init createSessionLogger Sample.emptyWorld) in
  lastExchangeTokens (fst sw)
  = {| tok_input := 5; tok_output := 10; tok_cache_creation := 0;
       tok_cache_read := 7 |}
  /\ lastExchangeTokens (fst (log bareResult (fst sw) (snd sw))) = zeroTokens
  /\ totalDurationMs (fst (log bareResult (fst sw) (snd sw))) = 100.
Proof.
  cbv zeta. split; [reflexivity|].
  destruct (result_without_statistics bareResult
    (fst (run [CallLogUserInput "one";
               CallLog (Sample.result 100 (1 # 1000) 5 10);
               CallLogUserInput "two"]
            (log Sample.init createSessionLogger Sample.emptyWorld)))
    (snd (run [CallLogUserInput "one";
               CallLog (Sample.result 100 (1 # 1000) 5 10);
               CallLogUserInput "two"]
            (log Sample.init createSessionLogger Sample.emptyWorld)))
    eq_refl eq_refl eq_refl eq_refl eq_refl eq_refl ltac:(discriminate))
    as (record & _ & _ & _ & _ & H1 & _ & _ & H2).
  split; [exact H2|]. rewrite H1. reflexivity.
Defined.

(** ** An exchange begun before the init-class event *)

Lemma within_exchange_effect (c : Call) (s : Logger) (w : World) :
  within_exchange c ->
  let s' := fst (call c (s, w)) in
  filePath s' = filePath s
  /\ exchangeCount s' = exchangeCount s
  /\ currentUserInput s' = currentUserInput s
  /\ exchangeStartTs s' = exchangeStartTs s
  /\ dir (snd (call c (s, w))) = dir w.
Proof.
  destruct c as [message | userText |]; cbn [within_exchange call fst snd];
    try contradiction.
  rewrite log_classify. destruct (classify message); try contradiction; intros _.
  - destruct (handleAssistantMessage_effect message s w)
      as (messages & tools & -> & -> & _). cbn. tauto.
  - destruct (handleUserMessage_effect message s w) as (messages & -> & -> & _).
    cbn. tauto.
  - cbn. tauto.
Qed.

Lemma run_within_exchange (calls : list Call) (s : Logger) (w : World) :
  Forall within_exchange calls ->
  let s' := fst (run calls (s, w)) in
  filePath s' = filePath s
  /\ exchangeCount s' = exchangeCount s
  /\ currentUserInput s' = currentUserInput s
  /\ exchangeStartTs s' = exchangeStartTs s
  /\ dir (snd (run calls (s, w))) = dir w.
Proof.
  intros Hall. revert s w.
  induction Hall as [|c calls Hc Hall IH]; intros s w; [cbn; tauto|].
  rewrite run_cons. cbv zeta.
  destruct (within_exchange_effect c s w Hc) as (H1 & H2 & H3 & H4 & H5).
  destruct (call c (s, w)) as [s1 w1]. cbn [fst snd] in *.
  destruct (IH s1 w1) as (I1 & I2 & I3 & I4 & I5).
  repeat split; congruence.
Qed.

(** X14.  The command-line agent calls [logUserInput] before the SDK
    emits the init-class event of the session.  For a new logger the
    exchange so begun is kept across the initialization: the exchange
    record written at the result event carries the input text and the
    start timestamp of that call.  Its ordinal is 1 when the session has
    no file yet; when the session has a file, the counter is set from
    the file after the call, so that the ordinal is the highest one
    already recorded in the file, not the next one. *)
Theorem exchange_begun_before_init
  (message result : SDKMessage) (userText : string) (calls : list Call)
  (w0 : World) :
  is_init message = true ->
  is_result result = true ->
  Forall within_exchange calls ->
  let sid := JS.or_string (m_session_id message) "" in
  let sw1 := logUserInput userText createSessionLogger w0 in
  let sw2 := log message (fst sw1) (snd sw1) in
  let sw3 := run calls sw2 in
  let sw4 := log result (fst sw3) (snd sw3) in
  exists record,
    last (contentOf (dir (snd sw4)) (filePath (fst sw2))) = Some (LExchange record)
    /\ ex_user_input record = userText
    /\ ex_ts_start record = clock w0 (tick w0)
    /\ (findExistingSessionFile (dir w0) sid = None -> ex_exchange record = 1)
    /\ (forall path,
          findExistingSessionFile (dir w0) sid = Some path ->
          ~ In Corrupt (contentOf (dir w0) path) ->
          ex_exchange record = highestOrdinal (contentOf (dir w0) path)).
Proof.
  intros Hinit Hres Hcalls. cbv zeta.
  unfold logUserInput. cbn [getTimestamp fst snd].
  set (s1 := {| sessionId := sessionId createSessionLogger;
                filePath := filePath createSessionLogger;
                exchangeCount := exchangeCount createSessionLogger + 1;
                currentMessages := currentMessages createSessionLogger;
                currentUserInput := userText;
                exchangeStartTs := clock w0 (tick w0);
                totalDurationMs := totalDurationMs createSessionLogger;
                totalDurationApiMs := totalDurationApiMs createSessionLogger;
                totalCostUsd := totalCostUsd createSessionLogger;
                lastExchangeTokens := lastExchangeTokens createSessionLogger;
                toolsUsed := toolsUsed createSessionLogger;
                sessionModel := sessionModel createSessionLogger;
                sessionCwd := sessionCwd createSessionLogger;
                sessionTools := sessionTools createSessionLogger;
                sessionPermissionMode := sessionPermissionMode createSessionLogger |}).
  set (w1 := {| dir := dir w0; clock := clock w0; tick := S (tick w0) |}).
  rewrite (log_classify message), (classify_init _ Hinit).
  destruct (handleSystemMessage_attached message s1 w1) as [Hne _].
  destruct (handleSystemMessage_state message s1 w1) as (_ & _ & Hu & Ht & _).
  pose proof (handleSystemMessage_new message s1 w1) as Hnew.
  pose proof (handleSystemMessage_existing message s1 w1) as Hold.
  cbv zeta in Hnew.
  destruct (handleSystemMessage message s1 w1) as [s2 w2]. cbn [fst snd] in *.
  destruct (run_within_exchange calls s2 w2 Hcalls) as (R1 & R2 & R3 & R4 & _).
  destruct (run calls (s2, w2)) as [s3 w3]. cbn [fst snd] in *.
  rewrite log_classify, (proj2 (classify_result result) Hres).
  assert (filePath s3 <> "") as Hne3 by congruence.
  destruct (handleResultMessage_effect result s3 w3 Hne3) as (_ & Hc & _).
  rewrite R1 in Hc. rewrite Hc.
  exists (exchangeOf s3 (statsOf result) (clock w3 (tick w3))).
  split; [apply last_snoc|].
  cbn [exchangeOf ex_user_input ex_ts_start ex_exchange].
  split; [rewrite R3, Hu; reflexivity|].
  split; [rewrite R4, Ht; reflexivity|]. split.
  - intros Hfind. destruct (Hnew Hfind) as (_ & Hcount & _).
    rewrite R2, Hcount. reflexivity.
  - intros path Hfind Hparsed.
    destruct (Hold path Hfind) as (_ & _ & Hcount & _).
    rewrite R2, Hcount. cbn [dir w1].
    destruct (find_exists _ _ _ Hfind) as (Hex & _).
    unfold contentOf in *.
    destruct (Fs.readFileSync (dir w0) path) as [lines|] eqn:Hread; [|congruence].
    apply (getLastExchangeNumber_parsed _ _ _ Hread Hparsed).
Qed.

Lemma exchange_begun_before_init_witness :
  let w0 := Sample.worldWith Sample.closedFile in
  let sw1 := logUserInput "hello" createSessionLogger w0 in
  let sw2 := log Sample.init (fst sw1) (snd sw1) in
  let sw3 := run [CallLog toolMessage] sw2 in
  let sw4 := log (Sample.result 100 (1 # 1000) 5 10) (fst sw3) (snd sw3) in
  exists record,
    last (contentOf (dir (snd sw4)) (filePath (fst sw2))) = Some (LExchange record)
    /\ ex_user_input record = "hello"
    /\ ex_exchange record = 1
    /\ map ex_exchange (exchangesOf (contentOf (dir w0) Sample.fileName)) = [1].
Proof.
  pose proof (exchange_begun_before_init Sample.init
    (Sample.result 100 (1 # 1000) 5 10) "hello" [CallLog toolMessage]
    (Sample.worldWith Sample.closedFile) eq_refl eq_refl
    ltac:(repeat constructor)) as H.
  cbv zeta in H. destruct H as (record & H1 & H2 & _ & _ & H3).
  exists record. cbv zeta.
  split; [exact H1|]. split; [exact H2|]. split; [|reflexivity].
  rewrite (H3 Sample.fileName eq_refl); [reflexivity|].
  intros [H|[H|[H|[]]]]; discriminate H.
Defined.
